(** * Secure-Connect: follow-gated direct messaging

    A shallow embedding of the database schema (tables, constraints and
    row-level-security policies of the SQL migrations) and of the React
    handlers that talk to it (Discover.tsx, Requests.tsx, the chat
    page, the list of chats and the profile page), followed by the
    properties of the design document.

    Every [await supabase...] of a handler is one atomic database
    request; handlers are trees of such requests, so two clients can be
    interleaved between any two requests. *)

From stdpp Require Import gmap strings list sorting pretty.
From Stdlib Require Import NArith.

(** ** Identifiers and text *)

(** A [uuid] in its canonical lower-case text form, the form the client
    sees. On that form the code-unit order of JavaScript's default
    [sort()] and the byte order of PostgreSQL's [uuid <] coincide. *)
Definition uuid := string.

Definition uuid_lt (a b : uuid) : bool := String.ltb a b.

(** JavaScript strings typed or picked by the user (message text, file
    names, emoji): sequences of UTF-16 code units. *)
Definition text := list N.

Definition text_of_ascii (s : string) : text :=
  map Ascii.N_of_ascii (String.list_ascii_of_string s).

(** The form PostgreSQL prints a uuid in, and the form of every id that
    comes from a row or from the session: 8-4-4-4-12 lower-case
    hexadecimal digits. The address of a page is typed by the user and
    can spell the same uuid otherwise (upper case, braces); PostgreSQL
    reads such a spelling as the uuid, JavaScript compares and sorts it
    as the string it is. *)
Definition hex_digit (a : Ascii.ascii) : bool :=
  let n := Ascii.N_of_ascii a in
  ((48 <=? n)%N && (n <=? 57)%N) || ((97 <=? n)%N && (n <=? 102)%N).

Definition printed (id : uuid) : bool :=
  let cs := String.list_ascii_of_string id in
  bool_decide (length cs = 36) &&
  forallb (fun ia : nat * Ascii.ascii =>
             if bool_decide (ia.1 ∈ [8; 13; 18; 23])
             then bool_decide (Ascii.N_of_ascii ia.2 = 45%N)
             else hex_digit ia.2)
          (imap (fun i a => (i, a)) cs).

(** The texts PostgreSQL takes: well-formed UTF-16 (every surrogate in
    a pair) without U+0000. A request that carries any other text
    fails (22021, 22P05). *)
Definition high_surrogate (c : N) : bool := (55296 <=? c)%N && (c <=? 56319)%N.
Definition low_surrogate (c : N) : bool := (56320 <=? c)%N && (c <=? 57343)%N.

Fixpoint storable (t : text) : bool :=
  match t with
  | [] => true
  | c :: t' =>
      if high_surrogate c then
        match t' with
        | c' :: t'' => low_surrogate c' && storable t''
        | [] => false
        end
      else negb (low_surrogate c) && (0 <? c)%N && (c <? 65536)%N && storable t'
  end.

(** ** Rows of the five tables *)

Inductive follow_status := pending | accepted | rejected.

Global Instance follow_status_eq_dec : EqDecision follow_status.
Proof. solve_decision. Defined.

Record profile_row := {
  p_id : uuid;
  p_username : text;
  p_full_name : text;
  p_avatar_url : option text;
}.

Record follow_row := {
  f_id : uuid;
  follower_id : uuid;
  following_id : uuid;
  f_status : follow_status;
  f_created_at : N;
  f_updated_at : N;
}.

Record chat_row := {
  c_id : uuid;
  user1_id : uuid;
  user2_id : uuid;
  c_created_at : N;
}.

(** Objects of the [chat-files] bucket: [`${chatId}/${Date.now()}.${fileExt}`]
    kept as its three parts. *)
Record storage_path := {
  sp_folder : uuid;
  sp_stamp : N;
  sp_ext : text;
}.

Record message_row := {
  m_id : uuid;
  chat_id : uuid;
  sender_id : uuid;
  content : text;
  media_url : option storage_path;
  m_created_at : N;
}.

Record reaction_row := {
  r_id : uuid;
  message_id : uuid;
  user_id : uuid;
  emoji : text;
  r_created_at : N;
}.

(** [payload.old] of a DELETE event on [message_reactions]: the columns
    of the replica identity. The migration sets none, so that is the
    primary key, and [message_id] is [undefined] ([None]). *)
Record old_reaction := {
  old_id : uuid;
  old_message_id : option uuid;
}.

Global Instance storage_path_eq_dec : EqDecision storage_path.
Proof. solve_decision. Defined.
Global Instance profile_row_eq_dec : EqDecision profile_row.
Proof. solve_decision. Defined.
Global Instance follow_row_eq_dec : EqDecision follow_row.
Proof. solve_decision. Defined.
Global Instance chat_row_eq_dec : EqDecision chat_row.
Proof. solve_decision. Defined.
Global Instance message_row_eq_dec : EqDecision message_row.
Proof. solve_decision. Defined.
Global Instance reaction_row_eq_dec : EqDecision reaction_row.
Proof. solve_decision. Defined.

(** Events of the [supabase_realtime] publication (tables [messages] and
    [message_reactions]); each carries the row. *)
Inductive change_event :=
  | MessageInsert (new : message_row)
  | ReactionInsert (new : reaction_row)
  | ReactionDelete (old : reaction_row).

(** ** The database

    [gen_random_uuid] and [now] are the platform's: they are read at the
    current [tick], which every request advances. [feed] is the change
    feed, oldest event first. *)
Record db := {
  profiles : list profile_row;
  follows : list follow_row;
  chats : list chat_row;
  messages : list message_row;
  message_reactions : list reaction_row;
  objects : list storage_path;
  feed : list change_event;
  gen_random_uuid : nat -> uuid;
  now : nat -> N;
  tick : nat;
}.

Definition empty_db (gen : nat -> uuid) (clk : nat -> N) : db :=
  {| profiles := []; follows := []; chats := []; messages := [];
     message_reactions := []; objects := []; feed := [];
     gen_random_uuid := gen; now := clk; tick := 0 |}.

Definition new_uuid (d : db) : uuid := gen_random_uuid d (tick d).
Definition now_ (d : db) : N := now d (tick d).

Definition advance (d : db) : db :=
  {| profiles := profiles d; follows := follows d; chats := chats d;
     messages := messages d; message_reactions := message_reactions d;
     objects := objects d; feed := feed d;
     gen_random_uuid := gen_random_uuid d; now := now d;
     tick := S (tick d) |}.

Definition with_profiles (l : list profile_row) (d : db) : db :=
  {| profiles := l; follows := follows d; chats := chats d;
     messages := messages d; message_reactions := message_reactions d;
     objects := objects d; feed := feed d;
     gen_random_uuid := gen_random_uuid d; now := now d; tick := tick d |}.

Definition with_follows (l : list follow_row) (d : db) : db :=
  {| profiles := profiles d; follows := l; chats := chats d;
     messages := messages d; message_reactions := message_reactions d;
     objects := objects d; feed := feed d;
     gen_random_uuid := gen_random_uuid d; now := now d; tick := tick d |}.

Definition with_chats (l : list chat_row) (d : db) : db :=
  {| profiles := profiles d; follows := follows d; chats := l;
     messages := messages d; message_reactions := message_reactions d;
     objects := objects d; feed := feed d;
     gen_random_uuid := gen_random_uuid d; now := now d; tick := tick d |}.

Definition with_messages (l : list message_row) (ev : list change_event)
    (d : db) : db :=
  {| profiles := profiles d; follows := follows d; chats := chats d;
     messages := l; message_reactions := message_reactions d;
     objects := objects d; feed := feed d ++ ev;
     gen_random_uuid := gen_random_uuid d; now := now d; tick := tick d |}.

Definition with_reactions (l : list reaction_row) (ev : list change_event)
    (d : db) : db :=
  {| profiles := profiles d; follows := follows d; chats := chats d;
     messages := messages d; message_reactions := l;
     objects := objects d; feed := feed d ++ ev;
     gen_random_uuid := gen_random_uuid d; now := now d; tick := tick d |}.

Definition with_objects (l : list storage_path) (d : db) : db :=
  {| profiles := profiles d; follows := follows d; chats := chats d;
     messages := messages d; message_reactions := message_reactions d;
     objects := l; feed := feed d;
     gen_random_uuid := gen_random_uuid d; now := now d; tick := tick d |}.

(** ** Errors of a request *)

Inductive pg_error :=
  | PGRST116            (* .single(): zero or several rows *)
  | not_null_violation  (* 23502 *)
  | foreign_key_violation (* 23503 *)
  | unique_violation    (* 23505 *)
  | check_violation     (* 23514 *)
  | rls_violation       (* 42501 *)
  | untranslatable_character (* 22021, 22P05 *)
  | invalid_text_representation (* 22P02 *)
  | storage_denied
  | storage_invalid_key
  | storage_duplicate.

Inductive result (A : Type) :=
  | Ok (a : A)
  | Err (e : pg_error).
Arguments Ok {A} a.
Arguments Err {A} e.

Definition is_ok {A} (r : result A) : bool :=
  match r with Ok _ => true | Err _ => false end.

(** SQL's [auth.uid() = col]: NULL on either side is not true. *)
Definition auth_is (auth : option uuid) (u : uuid) : bool :=
  match auth with
  | Some a => bool_decide (a = u)
  | None => false
  end.

Definition sql_eq (a b : option uuid) : bool :=
  match a, b with
  | Some x, Some y => bool_decide (x = y)
  | _, _ => false
  end.

(** ** Row-level-security policies *)

(** [auth.uid() = user1_id OR auth.uid() = user2_id] *)
Definition chat_participant (auth : option uuid) (c : chat_row) : bool :=
  auth_is auth (user1_id c) || auth_is auth (user2_id c).

(** "Users can view their follow requests" *)
Definition follows_select_policy (auth : option uuid) (f : follow_row) : bool :=
  auth_is auth (follower_id f) || auth_is auth (following_id f).

(** "Users can create follow requests" *)
Definition follows_insert_policy (auth follower : option uuid) : bool :=
  sql_eq auth follower.

(** "Users can update follow requests they received" *)
Definition follows_update_policy (auth : option uuid) (f : follow_row) : bool :=
  auth_is auth (following_id f).

(** "Users can view their own chats" *)
Definition chats_select_policy (auth : option uuid) (c : chat_row) : bool :=
  chat_participant auth c.

(** "Users can create chats" *)
Definition chats_insert_policy (auth u1 u2 : option uuid) : bool :=
  sql_eq auth u1 || sql_eq auth u2.

(** [EXISTS (SELECT 1 FROM chats WHERE chats.id = chat_id AND (...))] *)
Definition in_own_chat (d : db) (auth : option uuid) (chat : uuid) : bool :=
  existsb (fun c => bool_decide (c_id c = chat) && chat_participant auth c)
          (chats d).

(** "Users can view messages in their chats" *)
Definition messages_select_policy (d : db) (auth : option uuid)
    (m : message_row) : bool :=
  in_own_chat d auth (chat_id m).

(** "Users can create messages in their chats" *)
Definition messages_insert_policy (d : db) (auth : option uuid)
    (chat : uuid) (sender : option uuid) : bool :=
  sql_eq auth sender && in_own_chat d auth chat.

(** [EXISTS (SELECT 1 FROM messages m JOIN chats c ON m.chat_id = c.id
     WHERE m.id = message_reactions.message_id AND (...))] *)
Definition on_own_message (d : db) (auth : option uuid) (msg : uuid) : bool :=
  existsb (fun m => bool_decide (m_id m = msg) && in_own_chat d auth (chat_id m))
          (messages d).

(** "Users can view reactions in their chats" *)
Definition reactions_select_policy (d : db) (auth : option uuid)
    (r : reaction_row) : bool :=
  on_own_message d auth (message_id r).

(** "Users can add reactions to messages in their chats" *)
Definition reactions_insert_policy (d : db) (auth : option uuid)
    (msg user : uuid) : bool :=
  auth_is auth user && on_own_message d auth msg.

(** "Users can delete their own reactions" *)
Definition reactions_delete_policy (auth : option uuid) (r : reaction_row) : bool :=
  auth_is auth (user_id r).

(** "Users can upload files to their chats":
    [(storage.foldername(name))[1] = c.id::text] for a chat of the caller. *)
Definition storage_insert_policy (d : db) (auth : option uuid)
    (p : storage_path) : bool :=
  existsb (fun c => chat_participant auth c && bool_decide (sp_folder p = c_id c))
          (chats d).

(** ** Constraints *)

Definition profile_exists (d : db) (u : uuid) : bool :=
  existsb (fun p => bool_decide (p_id p = u)) (profiles d).

Definition chat_exists (d : db) (c : uuid) : bool :=
  existsb (fun r => bool_decide (c_id r = c)) (chats d).

Definition message_exists (d : db) (m : uuid) : bool :=
  existsb (fun r => bool_decide (m_id r = m)) (messages d).

(** [UNIQUE(follower_id, following_id)] *)
Definition follow_pair_taken (d : db) (a b : uuid) : bool :=
  existsb (fun f => bool_decide (follower_id f = a) &&
                    bool_decide (following_id f = b)) (follows d).

(** [UNIQUE(user1_id, user2_id)] *)
Definition chat_pair_taken (d : db) (a b : uuid) : bool :=
  existsb (fun c => bool_decide (user1_id c = a) &&
                    bool_decide (user2_id c = b)) (chats d).

(** [CONSTRAINT unique_user_message_emoji UNIQUE (message_id, user_id, emoji)] *)
Definition reaction_taken (d : db) (msg user : uuid) (e : text) : bool :=
  existsb (fun r => bool_decide (message_id r = msg) &&
                    bool_decide (user_id r = user) &&
                    bool_decide (emoji r = e)) (message_reactions d).

(** ** Statements

    Order of the checks of an INSERT: the policy's WITH CHECK, NOT NULL
    and CHECK constraints, the unique indexes (primary key first), the
    foreign keys. A failed statement leaves every table as it was. *)

(** [INSERT INTO follows (follower_id, following_id, status)] *)
Definition insert_follow (auth follower : option uuid) (following : uuid)
    (st : follow_status) (d : db) : db * result unit :=
  if negb (follows_insert_policy auth follower) then (d, Err rls_violation)
  else match follower with
  | None => (d, Err not_null_violation)
  | Some a =>
    if existsb (fun f => bool_decide (f_id f = new_uuid d)) (follows d)
    then (d, Err unique_violation)
    else if follow_pair_taken d a following then (d, Err unique_violation)
    else if negb (profile_exists d a && profile_exists d following)
    then (d, Err foreign_key_violation)
    else (with_follows
            (follows d ++ [{| f_id := new_uuid d; follower_id := a;
                              following_id := following; f_status := st;
                              f_created_at := now_ d;
                              f_updated_at := now_ d |}]) d,
          Ok tt)
  end.

(** [UPDATE follows SET status = st WHERE id = ...]; the trigger
    [update_follows_updated_at] stamps the row. Rows the policy hides
    are not matched, and matching no row is not an error. *)
Definition set_status (st : follow_status) (t : N) (f : follow_row) : follow_row :=
  {| f_id := f_id f; follower_id := follower_id f;
     following_id := following_id f; f_status := st;
     f_created_at := f_created_at f; f_updated_at := t |}.

Definition update_follow_status (auth : option uuid) (id : uuid)
    (st : follow_status) (d : db) : db * result unit :=
  (with_follows
     (map (fun f => if bool_decide (f_id f = id) && follows_update_policy auth f
                    then set_status st (now_ d) f else f) (follows d)) d,
   Ok tt).

(** [from('follows').update(values).eq('id', id)] with any columns,
    which no page sends: the policy for UPDATE names no column. [set]
    gives the new row from the old one, and the trigger stamps it. The
    rows are those the policy shows with that id; a policy without
    WITH CHECK has its USING expression checked on the new row too;
    then come the primary key, [UNIQUE(follower_id, following_id)] and
    the two foreign keys. *)
Definition update_follow (auth : option uuid) (id : uuid)
    (set : follow_row -> follow_row) (d : db) : db * result unit :=
  let hit f := bool_decide (f_id f = id) && follows_update_policy auth f in
  let rows :=
    map (fun f => if hit f
                  then set_status (f_status (set f)) (now_ d) (set f)
                  else f) (follows d) in
  if existsb (fun f => hit f && negb (follows_update_policy auth (set f)))
             (follows d)
  then (d, Err rls_violation)
  else if negb (bool_decide (NoDup (map f_id rows))) ||
          negb (bool_decide
                  (NoDup (map (fun f => (follower_id f, following_id f)) rows)))
  then (d, Err unique_violation)
  else if negb (forallb (fun f => profile_exists d (follower_id f) &&
                                  profile_exists d (following_id f)) rows)
  then (d, Err foreign_key_violation)
  else (with_follows rows d, Ok tt).

(** [.single()] *)
Definition single {A} (rows : list A) : result A :=
  match rows with
  | [x] => Ok x
  | _ => Err PGRST116
  end.

(** [from('profiles').select('*').eq('id', id).single()];
    "Profiles are viewable by everyone". *)
Definition select_profile (id : uuid) (d : db) : result profile_row :=
  single (List.filter (fun p => bool_decide (p_id p = id)) (profiles d)).

(** [from('follows').select('status')
      .or(and(follower_id.eq.a,following_id.eq.b),
          and(follower_id.eq.b,following_id.eq.a))
      .eq('status', 'accepted')] *)
Definition select_connection (auth : option uuid) (a b : uuid) (d : db)
    : result (list follow_status) :=
  Ok (map f_status
        (List.filter
           (fun f => follows_select_policy auth f &&
              ((bool_decide (follower_id f = a) && bool_decide (following_id f = b)) ||
               (bool_decide (follower_id f = b) && bool_decide (following_id f = a))) &&
              bool_decide (f_status f = accepted))
           (follows d))).

(** [from('follows').select('following_id, status').eq('follower_id', u)] *)
Definition select_following (auth : option uuid) (u : uuid) (d : db)
    : result (list (uuid * follow_status)) :=
  Ok (map (fun f => (following_id f, f_status f))
        (List.filter
           (fun f => follows_select_policy auth f && bool_decide (follower_id f = u))
           (follows d))).

(** [ORDER BY created_at DESC] on follows *)
Definition newer_follow (a b : follow_row) : Prop :=
  (f_created_at b <= f_created_at a)%N.

Global Instance newer_follow_dec : RelDecision newer_follow.
Proof. intros a b. unfold newer_follow. apply _. Defined.

(** [from('follows').select('id, created_at, follower:follower_id (...)')
      .eq('following_id', u).eq('status', 'pending')
      .order('created_at', { ascending: false })]: the id of each
    pending edge with the id of its follower. *)
Definition select_pending (auth : option uuid) (u : uuid) (d : db)
    : result (list (uuid * uuid)) :=
  Ok (map (fun f => (f_id f, follower_id f))
        (merge_sort newer_follow
           (List.filter
              (fun f => follows_select_policy auth f &&
                        bool_decide (following_id f = u) &&
                        bool_decide (f_status f = pending))
              (follows d)))).

(** [from('chats').select('id').eq('user1_id', u1).eq('user2_id', u2).single()];
    an [undefined] operand matches no row. *)
Definition select_chat (auth u1 u2 : option uuid) (d : db) : result uuid :=
  single (map c_id
            (List.filter
               (fun c => chats_select_policy auth c &&
                         sql_eq (Some (user1_id c)) u1 &&
                         sql_eq (Some (user2_id c)) u2)
               (chats d))).

(** [from('chats').insert({user1_id, user2_id}).select('id').single()] *)
Definition insert_chat (auth u1 u2 : option uuid) (d : db) : db * result uuid :=
  if negb (chats_insert_policy auth u1 u2) then (d, Err rls_violation)
  else match u1, u2 with
  | Some a, Some b =>
    if negb (uuid_lt a b) then (d, Err check_violation)
    else if chat_exists d (new_uuid d) then (d, Err unique_violation)
    else if chat_pair_taken d a b then (d, Err unique_violation)
    else if negb (profile_exists d a && profile_exists d b)
    then (d, Err foreign_key_violation)
    else (with_chats
            (chats d ++ [{| c_id := new_uuid d; user1_id := a; user2_id := b;
                            c_created_at := now_ d |}]) d,
          Ok (new_uuid d))
  | _, _ => (d, Err not_null_violation)
  end.

(** [ORDER BY created_at ASC] *)
Definition earlier (a b : message_row) : Prop :=
  (m_created_at a <= m_created_at b)%N.

Global Instance earlier_dec : RelDecision earlier.
Proof. intros a b. unfold earlier. apply _. Defined.

(** [from('messages').select('*').eq('chat_id', chat)
      .order('created_at', { ascending: true })] *)
Definition select_messages (auth : option uuid) (chat : uuid) (d : db)
    : result (list message_row) :=
  Ok (merge_sort earlier
        (List.filter
           (fun m => messages_select_policy d auth m && bool_decide (chat_id m = chat))
           (messages d))).

(** [from('messages').select('id').eq('chat_id', chat)] *)
Definition select_message_ids (auth : option uuid) (chat : uuid) (d : db)
    : result (list uuid) :=
  Ok (map m_id
        (List.filter
           (fun m => messages_select_policy d auth m && bool_decide (chat_id m = chat))
           (messages d))).

(** [from('messages').insert({chat_id, sender_id, content, media_url})];
    the new row goes to the change feed. A [content] that PostgreSQL
    does not take as text is never stored; when the policy refuses the
    request as well, the error named here is the policy's. *)
Definition insert_message (auth : option uuid) (chat : uuid)
    (sender : option uuid) (body : text) (media : option storage_path)
    (d : db) : db * result unit :=
  if negb (messages_insert_policy d auth chat sender) then (d, Err rls_violation)
  else match sender with
  | None => (d, Err not_null_violation)
  | Some s =>
    if message_exists d (new_uuid d) then (d, Err unique_violation)
    else if negb (chat_exists d chat && profile_exists d s)
    then (d, Err foreign_key_violation)
    else if negb (storable body) then (d, Err untranslatable_character)
    else
      let row := {| m_id := new_uuid d; chat_id := chat; sender_id := s;
                    content := body; media_url := media;
                    m_created_at := now_ d |} in
      (with_messages (messages d ++ [row]) [MessageInsert row] d, Ok tt)
  end.

(** [from('message_reactions').select('*').in('message_id', ids)] *)
Definition select_reactions (auth : option uuid) (ids : list uuid) (d : db)
    : result (list reaction_row) :=
  Ok (List.filter
        (fun r => reactions_select_policy d auth r &&
                  bool_decide (message_id r ∈ ids))
        (message_reactions d)).

(** [from('message_reactions').insert({message_id, user_id, emoji})];
    an [emoji] that PostgreSQL does not take as text is never stored. *)
Definition insert_reaction (auth : option uuid) (msg user : uuid) (e : text)
    (d : db) : db * result unit :=
  if negb (reactions_insert_policy d auth msg user) then (d, Err rls_violation)
  else if existsb (fun r => bool_decide (r_id r = new_uuid d)) (message_reactions d)
  then (d, Err unique_violation)
  else if reaction_taken d msg user e then (d, Err unique_violation)
  else if negb (message_exists d msg && profile_exists d user)
  then (d, Err foreign_key_violation)
  else if negb (storable e) then (d, Err untranslatable_character)
  else
    let row := {| r_id := new_uuid d; message_id := msg; user_id := user;
                  emoji := e; r_created_at := now_ d |} in
    (with_reactions (message_reactions d ++ [row]) [ReactionInsert row] d, Ok tt).

(** [from('message_reactions').delete().eq('id', id)]: the rows the
    caller may both see and delete; deleting none is not an error. *)
Definition deletable (d : db) (auth : option uuid) (id : uuid)
    (r : reaction_row) : bool :=
  bool_decide (r_id r = id) && reactions_select_policy d auth r &&
  reactions_delete_policy auth r.

Definition delete_reaction (auth : option uuid) (id : uuid) (d : db)
    : db * result unit :=
  (with_reactions
     (List.filter (fun r => negb (deletable d auth id r)) (message_reactions d))
     (map ReactionDelete (List.filter (deletable d auth id) (message_reactions d)))
     d,
   Ok tt).

(** The characters the storage service takes in the name of an
    object: letters, digits and [_ / ! - . * ' ( ) & $ @ = ; : + , ?]
    and the space. The folder and the stamp of a path are such; its
    extension comes from the name of the file. *)
Definition key_char (c : N) : bool :=
  ((48 <=? c)%N && (c <=? 57)%N) || ((65 <=? c)%N && (c <=? 90)%N) ||
  ((97 <=? c)%N && (c <=? 122)%N) ||
  bool_decide (c ∈ [95; 47; 33; 45; 46; 42; 39; 40; 41; 32; 38; 36; 64; 61;
                    59; 58; 43; 44; 63]%N).

Definition valid_key (p : storage_path) : bool := forallb key_char (sp_ext p).

(** [storage.from('chat-files').upload(filePath, file)] *)
Definition upload (auth : option uuid) (p : storage_path) (d : db)
    : db * result unit :=
  if negb (storage_insert_policy d auth p) then (d, Err storage_denied)
  else if negb (valid_key p) then (d, Err storage_invalid_key)
  else if bool_decide (p ∈ objects d) then (d, Err storage_duplicate)
  else (with_objects (objects d ++ [p]) d, Ok tt).

(** Sign-up: the trigger [on_auth_user_created] inserts the profile. *)
Definition handle_new_user (p : profile_row) (d : db) : db * result unit :=
  if profile_exists d (p_id p) then (d, Err unique_violation)
  else if existsb (fun q => bool_decide (p_username q = p_username p)) (profiles d)
  then (d, Err unique_violation)
  else (with_profiles (profiles d ++ [p]) d, Ok tt).

(** "Users can insert own profile": [from('profiles').insert(row)],
    which no page sends. The constraints are those the trigger meets. *)
Definition profiles_insert_policy (auth : option uuid) (p : profile_row) : bool :=
  auth_is auth (p_id p).

Definition insert_profile (auth : option uuid) (p : profile_row) (d : db)
    : db * result unit :=
  if negb (storable (p_username p) && storable (p_full_name p) &&
           storable (default [] (p_avatar_url p)))
  then (d, Err untranslatable_character)
  else if negb (profiles_insert_policy auth p) then (d, Err rls_violation)
  else handle_new_user p d.

(** "Users can update own profile" *)
Definition profiles_update_policy (auth : option uuid) (p : profile_row) : bool :=
  auth_is auth (p_id p).

(** What an update of [username], [full_name] and [avatar_url] makes of
    a row; [None] leaves a column as it is. *)
Definition patch_profile (username full_name : option text)
    (avatar_url : option (option text)) (p : profile_row) : profile_row :=
  {| p_id := p_id p;
     p_username := default (p_username p) username;
     p_full_name := default (p_full_name p) full_name;
     p_avatar_url := default (p_avatar_url p) avatar_url |}.

(** [from('profiles').update({...}).eq('id', id)], the request of
    [handleSave] and of [handleFileChange] of the profile page. The
    rows are those the policy shows with that id; [UNIQUE (username)]
    is checked against the rows that stay; updating no row is not an
    error; an [undefined] id is no uuid. *)
Definition update_profile (auth id : option uuid)
    (username full_name : option text) (avatar_url : option (option text))
    (d : db) : db * result unit :=
  match id with
  | None => (d, Err invalid_text_representation)
  | Some i =>
    let hit p := bool_decide (p_id p = i) && profiles_update_policy auth p in
    if negb (storable (default [] username) && storable (default [] full_name) &&
             storable (default [] (default None avatar_url)))
    then (d, Err untranslatable_character)
    else if negb (existsb hit (profiles d)) then (d, Ok tt)
    else if existsb (fun q => negb (hit q) &&
                              bool_decide (Some (p_username q) = username))
                    (profiles d)
    then (d, Err unique_violation)
    else (with_profiles
            (map (fun p => if hit p
                           then patch_profile username full_name avatar_url p
                           else p) (profiles d)) d,
          Ok tt)
  end.

(** [supabase.channel(...).on('postgres_changes', ...).subscribe()].
    Where in the change feed a channel starts is the platform's
    business; here it starts at the current end. *)
Definition open_channel (d : db) : result nat := Ok (length (feed d)).

(** ** Requests of a client

    The statements of the pages, and the writes that the policies let
    through though no page sends them ([UpdateFollow],
    [InsertProfile]). [SignUp] is the sign-up at the authentication
    service, whose trigger writes [profiles]. There is no policy for
    UPDATE or DELETE on [chats] and [messages], none for DELETE on
    [profiles] and [follows], none for UPDATE on [message_reactions]:
    such a statement matches no row. *)

Inductive request : Type -> Type :=
  | SelectProfile (id : uuid) : request profile_row
  | SelectConnection (a b : uuid) : request (list follow_status)
  | SelectFollowing (u : uuid) : request (list (uuid * follow_status))
  | SelectPending (u : uuid) : request (list (uuid * uuid))
  | InsertFollow (follower : option uuid) (following : uuid)
      (st : follow_status) : request unit
  | UpdateFollowStatus (id : uuid) (st : follow_status) : request unit
  | UpdateFollow (id : uuid) (set : follow_row -> follow_row) : request unit
  | SelectChat (u1 u2 : option uuid) : request uuid
  | InsertChat (u1 u2 : option uuid) : request uuid
  | SelectMessages (chat : uuid) : request (list message_row)
  | SelectMessageIds (chat : uuid) : request (list uuid)
  | InsertMessage (chat : uuid) (sender : option uuid) (body : text)
      (media : option storage_path) : request unit
  | SelectReactions (ids : list uuid) : request (list reaction_row)
  | InsertReaction (msg user : uuid) (e : text) : request unit
  | DeleteReaction (id : uuid) : request unit
  | Upload (p : storage_path) : request unit
  | SignUp (p : profile_row) : request unit
  | InsertProfile (p : profile_row) : request unit
  | UpdateProfile (id : option uuid) (username full_name : option text)
      (avatar_url : option (option text)) : request unit
  | OpenChannel : request nat.

Definition serve {X} (q : request X) (auth : option uuid) (d : db)
    : db * result X :=
  match q in request X return db * result X with
  | SelectProfile id => (d, select_profile id d)
  | SelectConnection a b => (d, select_connection auth a b d)
  | SelectFollowing u => (d, select_following auth u d)
  | SelectPending u => (d, select_pending auth u d)
  | InsertFollow follower following st => insert_follow auth follower following st d
  | UpdateFollowStatus id st => update_follow_status auth id st d
  | UpdateFollow id set => update_follow auth id set d
  | SelectChat u1 u2 => (d, select_chat auth u1 u2 d)
  | InsertChat u1 u2 => insert_chat auth u1 u2 d
  | SelectMessages chat => (d, select_messages auth chat d)
  | SelectMessageIds chat => (d, select_message_ids auth chat d)
  | InsertMessage chat sender body media =>
      insert_message auth chat sender body media d
  | SelectReactions ids => (d, select_reactions auth ids d)
  | InsertReaction msg user e => insert_reaction auth msg user e d
  | DeleteReaction id => delete_reaction auth id d
  | Upload p => upload auth p d
  | SignUp p => handle_new_user p d
  | InsertProfile p => insert_profile auth p d
  | UpdateProfile id username full_name avatar_url =>
      update_profile auth id username full_name avatar_url d
  | OpenChannel => (d, open_channel d)
  end.

(** One request, served atomically; time moves on. A request always
    reaches the database: failures of the transport are not part of
    the model. *)
Definition exec {X} (q : request X) (auth : option uuid) (d : db)
    : db * result X :=
  let '(d', r) := serve q auth d in (advance d', r).

(** ** Handlers as trees of requests

    [Upd] is a [setState] (or a toast), [Call] an awaited request with
    the continuation that receives [{ data, error }]. *)
Inductive prog (S R : Type) : Type :=
  | Ret (r : R)
  | Upd (f : S -> S) (k : prog S R)
  | Call {X : Type} (q : request X) (k : result X -> prog S R).
Arguments Ret {S R} r.
Arguments Upd {S R} f k.
Arguments Call {S R X} q k.

(** A handler run to its end with nobody else in between. *)
Fixpoint run {S R} (p : prog S R) (auth : option uuid) (s : S) (d : db)
    : S * db * R :=
  match p with
  | Ret r => (s, d, r)
  | Upd f k => run k auth (f s) d
  | Call q k => let '(d', r) := exec q auth d in run (k r) auth s d'
  end.

(** The local part of a handler up to its next request. *)
Fixpoint settle {S R} (p : prog S R) (s : S) : S * prog S R :=
  match p with
  | Upd f k => settle k (f s)
  | _ => (s, p)
  end.

(** One request of a handler, with the local work on both sides of it. *)
Definition step {S R} (p : prog S R) (auth : option uuid) (s : S) (d : db)
    : S * db * prog S R :=
  match settle p s with
  | (s1, Call q k) =>
      let '(d', r) := exec q auth d in
      let '(s2, p') := settle (k r) s1 in (s2, d', p')
  | (s1, p1) => (s1, d, p1)
  end.

(** A property of every request a handler can come to issue. *)
Fixpoint every_request {S R} (P : forall X, request X -> Prop)
    (p : prog S R) : Prop :=
  match p with
  | Ret _ => True
  | Upd _ k => every_request P k
  | Call q k => P _ q /\ forall r, every_request P (k r)
  end.

(** ** JavaScript helpers *)

(** [[a, b].sort()]: code-unit order, [undefined] last, stable. *)
Definition sort_pair (a b : option uuid) : option uuid * option uuid :=
  match a, b with
  | Some x, Some y => if uuid_lt y x then (Some y, Some x) else (Some x, Some y)
  | None, Some y => (Some y, None)
  | _, _ => (a, b)
  end.

(** The code units [String.prototype.trim] strips: WhiteSpace and
    LineTerminator of ECMAScript. *)
Definition is_white (c : N) : bool :=
  bool_decide (c ∈ [9; 10; 11; 12; 13; 32; 160; 5760; 8192; 8193; 8194; 8195;
                    8196; 8197; 8198; 8199; 8200; 8201; 8202; 8232; 8233;
                    8239; 8287; 12288; 65279]%N).

Fixpoint trimStart (t : text) : text :=
  match t with
  | c :: t' => if is_white c then trimStart t' else t
  | [] => []
  end.

Definition trim (t : text) : text := rev (trimStart (rev (trimStart t))).

(** A string is truthy when it is not empty. *)
Definition truthy (t : text) : bool :=
  match t with [] => false | _ => true end.

(** [a || b] on strings *)
Definition or_else (a b : text) : text := if truthy a then a else b.

(** [name.split('.').pop()]: what follows the last dot, the whole name
    when it has none. *)
Definition split_pop (name : text) : text :=
  fold_left (fun acc c => if bool_decide (c = 46%N) then [] else acc ++ [c]) name [].

Record file := {
  file_name : text;
  file_size : N;
  file_type : text;
}.

Inductive toast :=
  | toast_error (msg : string)
  | toast_success (msg : string).

(** ** The chat page *)

Module Chat.

(** The [useState] cells of the component, the toasts it has shown, and
    its two realtime channels: the position each has reached in the
    change feed (and the [chat_id=eq.] filter of the first). *)
Record state := {
  otherUser : option profile_row;
  chatId : option uuid;
  messages : list message_row;
  newMessage : text;
  loading : bool;
  sending : bool;
  canChat : bool;
  selectedFile : option file;
  filePreview : option text;
  uploading : bool;
  reactions : gmap string (list reaction_row);
  showReactionPicker : option string;
  toasts : list toast;
  message_channel : option (nat * uuid);
  reaction_channel : option nat;
}.

Definition initial : state :=
  {| otherUser := None; chatId := None; messages := []; newMessage := [];
     loading := true; sending := false; canChat := false;
     selectedFile := None; filePreview := None; uploading := false;
     reactions := ∅; showReactionPicker := None; toasts := [];
     message_channel := None; reaction_channel := None |}.
Definition setOtherUser (v : option profile_row) (s : state) : state :=
  {| otherUser := v; chatId := chatId s; messages := messages s; newMessage
     := newMessage s; loading := loading s; sending := sending s; canChat :=
     canChat s; selectedFile := selectedFile s; filePreview := filePreview s;
     uploading := uploading s; reactions := reactions s; showReactionPicker :=
     showReactionPicker s; toasts := toasts s; message_channel :=
     message_channel s; reaction_channel := reaction_channel s |}.
Definition setChatId (v : option uuid) (s : state) : state :=
  {| otherUser := otherUser s; chatId := v; messages := messages s;
     newMessage := newMessage s; loading := loading s; sending := sending s;
     canChat := canChat s; selectedFile := selectedFile s; filePreview :=
     filePreview s; uploading := uploading s; reactions := reactions s;
     showReactionPicker := showReactionPicker s; toasts := toasts s;
     message_channel := message_channel s; reaction_channel := reaction_channel
     s |}.
Definition setMessages (v : list message_row) (s : state) : state :=
  {| otherUser := otherUser s; chatId := chatId s; messages := v; newMessage
     := newMessage s; loading := loading s; sending := sending s; canChat :=
     canChat s; selectedFile := selectedFile s; filePreview := filePreview s;
     uploading := uploading s; reactions := reactions s; showReactionPicker :=
     showReactionPicker s; toasts := toasts s; message_channel :=
     message_channel s; reaction_channel := reaction_channel s |}.
Definition setNewMessage (v : text) (s : state) : state :=
  {| otherUser := otherUser s; chatId := chatId s; messages := messages s;
     newMessage := v; loading := loading s; sending := sending s; canChat :=
     canChat s; selectedFile := selectedFile s; filePreview := filePreview s;
     uploading := uploading s; reactions := reactions s; showReactionPicker :=
     showReactionPicker s; toasts := toasts s; message_channel :=
     message_channel s; reaction_channel := reaction_channel s |}.
Definition setLoading (v : bool) (s : state) : state :=
  {| otherUser := otherUser s; chatId := chatId s; messages := messages s;
     newMessage := newMessage s; loading := v; sending := sending s; canChat :=
     canChat s; selectedFile := selectedFile s; filePreview := filePreview s;
     uploading := uploading s; reactions := reactions s; showReactionPicker :=
     showReactionPicker s; toasts := toasts s; message_channel :=
     message_channel s; reaction_channel := reaction_channel s |}.
Definition setSending (v : bool) (s : state) : state :=
  {| otherUser := otherUser s; chatId := chatId s; messages := messages s;
     newMessage := newMessage s; loading := loading s; sending := v; canChat :=
     canChat s; selectedFile := selectedFile s; filePreview := filePreview s;
     uploading := uploading s; reactions := reactions s; showReactionPicker :=
     showReactionPicker s; toasts := toasts s; message_channel :=
     message_channel s; reaction_channel := reaction_channel s |}.
Definition setCanChat (v : bool) (s : state) : state :=
  {| otherUser := otherUser s; chatId := chatId s; messages := messages s;
     newMessage := newMessage s; loading := loading s; sending := sending s;
     canChat := v; selectedFile := selectedFile s; filePreview := filePreview
     s; uploading := uploading s; reactions := reactions s; showReactionPicker
     := showReactionPicker s; toasts := toasts s; message_channel :=
     message_channel s; reaction_channel := reaction_channel s |}.
Definition setSelectedFile (v : option file) (s : state) : state :=
  {| otherUser := otherUser s; chatId := chatId s; messages := messages s;
     newMessage := newMessage s; loading := loading s; sending := sending s;
     canChat := canChat s; selectedFile := v; filePreview := filePreview s;
     uploading := uploading s; reactions := reactions s; showReactionPicker :=
     showReactionPicker s; toasts := toasts s; message_channel :=
     message_channel s; reaction_channel := reaction_channel s |}.
Definition setFilePreview (v : option text) (s : state) : state :=
  {| otherUser := otherUser s; chatId := chatId s; messages := messages s;
     newMessage := newMessage s; loading := loading s; sending := sending s;
     canChat := canChat s; selectedFile := selectedFile s; filePreview := v;
     uploading := uploading s; reactions := reactions s; showReactionPicker :=
     showReactionPicker s; toasts := toasts s; message_channel :=
     message_channel s; reaction_channel := reaction_channel s |}.
Definition setUploading (v : bool) (s : state) : state :=
  {| otherUser := otherUser s; chatId := chatId s; messages := messages s;
     newMessage := newMessage s; loading := loading s; sending := sending s;
     canChat := canChat s; selectedFile := selectedFile s; filePreview :=
     filePreview s; uploading := v; reactions := reactions s;
     showReactionPicker := showReactionPicker s; toasts := toasts s;
     message_channel := message_channel s; reaction_channel := reaction_channel
     s |}.
Definition setReactions (v : gmap string (list reaction_row)) (s : state) : state :=
  {| otherUser := otherUser s; chatId := chatId s; messages := messages s;
     newMessage := newMessage s; loading := loading s; sending := sending s;
     canChat := canChat s; selectedFile := selectedFile s; filePreview :=
     filePreview s; uploading := uploading s; reactions := v;
     showReactionPicker := showReactionPicker s; toasts := toasts s;
     message_channel := message_channel s; reaction_channel := reaction_channel
     s |}.
Definition setShowReactionPicker (v : option string) (s : state) : state :=
  {| otherUser := otherUser s; chatId := chatId s; messages := messages s;
     newMessage := newMessage s; loading := loading s; sending := sending s;
     canChat := canChat s; selectedFile := selectedFile s; filePreview :=
     filePreview s; uploading := uploading s; reactions := reactions s;
     showReactionPicker := v; toasts := toasts s; message_channel :=
     message_channel s; reaction_channel := reaction_channel s |}.
Definition setToasts (v : list toast) (s : state) : state :=
  {| otherUser := otherUser s; chatId := chatId s; messages := messages s;
     newMessage := newMessage s; loading := loading s; sending := sending s;
     canChat := canChat s; selectedFile := selectedFile s; filePreview :=
     filePreview s; uploading := uploading s; reactions := reactions s;
     showReactionPicker := showReactionPicker s; toasts := v; message_channel
     := message_channel s; reaction_channel := reaction_channel s |}.
Definition setMessageChannel (v : option (nat * uuid)) (s : state) : state :=
  {| otherUser := otherUser s; chatId := chatId s; messages := messages s;
     newMessage := newMessage s; loading := loading s; sending := sending s;
     canChat := canChat s; selectedFile := selectedFile s; filePreview :=
     filePreview s; uploading := uploading s; reactions := reactions s;
     showReactionPicker := showReactionPicker s; toasts := toasts s;
     message_channel := v; reaction_channel := reaction_channel s |}.
Definition setReactionChannel (v : option nat) (s : state) : state :=
  {| otherUser := otherUser s; chatId := chatId s; messages := messages s;
     newMessage := newMessage s; loading := loading s; sending := sending s;
     canChat := canChat s; selectedFile := selectedFile s; filePreview :=
     filePreview s; uploading := uploading s; reactions := reactions s;
     showReactionPicker := showReactionPicker s; toasts := toasts s;
     message_channel := message_channel s; reaction_channel := v |}.

Definition show (t : toast) (s : state) : state := setToasts (toasts s ++ [t]) s.

(** [initializeChat], run by the effect on [user, userId] when both are
    set. [catch] and [finally] are the blocks of its [try]. *)
Definition initializeChat (user userId : uuid) : prog state unit :=
  let finally := Upd (setLoading false) (Ret tt) in
  let catch := Upd (show (toast_error "Failed to load chat")) finally in
  Call (SelectProfile userId) (fun r =>
  match r with
  | Err _ => catch
  | Ok profile =>
    Upd (setOtherUser (Some profile))
    (Call (SelectConnection user userId) (fun r =>
     let isConnected :=
       match r with Ok (_ :: _) => true | _ => false end in
     Upd (setCanChat isConnected)
     (if negb isConnected then
        Upd (show (toast_error "You need to be connected to chat with this user"))
        (Upd (setLoading false) finally)
      else
        let sortedIds := sort_pair (Some user) (Some userId) in
        Call (SelectChat sortedIds.1 sortedIds.2) (fun r =>
        match r with
        | Err PGRST116 =>
            Call (InsertChat sortedIds.1 sortedIds.2) (fun r =>
            match r with
            | Err _ => catch
            | Ok newChat => Upd (setChatId (Some newChat)) finally
            end)
        | Err _ => catch
        | Ok existingChat => Upd (setChatId (Some existingChat)) finally
        end))))
  end).

(** [subscribeToMessages], run by the effect on [chatId]: the stored
    messages first, then the channel. *)
Definition subscribeToMessages (chat : uuid) : prog state unit :=
  Call (SelectMessages chat) (fun r =>
  (match r with
   | Err _ => fun k => k
   | Ok data => Upd (setMessages data)
   end)
  (Call OpenChannel (fun r =>
   match r with
   | Ok pos => Upd (setMessageChannel (Some (pos, chat))) (Ret tt)
   | Err _ => Ret tt
   end))).

(** [(payload) => setMessages((current) => [...current, payload.new])] *)
Definition on_message_insert (new : message_row) (s : state) : state :=
  setMessages (messages s ++ [new]) s.

(** [reactions[messageId] || []] *)
Definition reactions_of (s : state) (messageId : uuid) : list reaction_row :=
  default [] (reactions s !! messageId).

(** The [forEach] of [loadReactions]. *)
Definition group_reactions (data : list reaction_row)
    : gmap string (list reaction_row) :=
  fold_left
    (fun acc r => <[message_id r := default [] (acc !! message_id r) ++ [r]]> acc)
    data ∅.

Definition loadReactions (s : state) : prog state unit :=
  match chatId s with
  | None => Ret tt
  | Some chat =>
    Call (SelectMessageIds chat) (fun r =>
    match r with
    | Ok (id :: ids) =>
        Call (SelectReactions (id :: ids)) (fun r =>
        match r with
        | Err _ => Ret tt
        | Ok data => Upd (setReactions (group_reactions data)) (Ret tt)
        end)
    | _ => Ret tt
    end)
  end.

Definition subscribeToReactions : prog state unit :=
  Call OpenChannel (fun r =>
  match r with
  | Ok pos => Upd (setReactionChannel (Some pos)) (Ret tt)
  | Err _ => Ret tt
  end).

(** The INSERT callback of the reactions channel. *)
Definition on_reaction_insert (newReaction : reaction_row) (s : state) : state :=
  setReactions
    (<[message_id newReaction :=
         reactions_of s (message_id newReaction) ++ [newReaction]]> (reactions s)) s.

(** The DELETE callback: it reads [message_id] and [id] of
    [payload.old]. An [undefined] [message_id] is, as a property name,
    the string ["undefined"]. *)
Definition on_reaction_delete (deletedReaction : old_reaction) (s : state) : state :=
  let key := default "undefined" (old_message_id deletedReaction) in
  setReactions
    (<[key :=
         List.filter (fun r => negb (bool_decide (r_id r = old_id deletedReaction)))
                     (reactions_of s key)]> (reactions s)) s.

(** [handleSendMessage]; [date_now] is the [Date.now()] of the upload. *)
Definition handleSendMessage (user : option uuid) (date_now : N) (s : state)
    : prog state unit :=
  if (negb (truthy (trim (newMessage s))) && negb (bool_decide (is_Some (selectedFile s))))
     || negb (bool_decide (is_Some (chatId s))) || sending s
  then Ret tt
  else match chatId s with
  | None => Ret tt
  | Some chat =>
    let finally := Upd (setSending false) (Upd (setUploading false) (Ret tt)) in
    let catch := Upd (show (toast_error "Failed to send message")) finally in
    let insert mediaUrl :=
      Call (InsertMessage chat user
              (or_else (trim (newMessage s))
                 (match selectedFile s with
                  | Some f => file_name f
                  | None => []
                  end))
              mediaUrl) (fun r =>
      match r with
      | Err _ => catch
      | Ok _ =>
          Upd (setNewMessage [])
          (Upd (setSelectedFile None) (Upd (setFilePreview None) finally))
      end) in
    Upd (setSending true)
    (Upd (setUploading (bool_decide (is_Some (selectedFile s))))
    (match selectedFile s with
     | Some f =>
         let filePath := {| sp_folder := chat; sp_stamp := date_now;
                            sp_ext := split_pop (file_name f) |} in
         Call (Upload filePath) (fun r =>
         match r with
         | Err _ => catch
         | Ok _ => insert (Some filePath)
         end)
     | None => insert None
     end))
  end.

(** [handleReaction]: the local [reactions] decide between removing
    and adding. *)
Definition handleReaction (user : option uuid) (messageId : uuid) (e : text)
    (s : state) : prog state unit :=
  match user with
  | None => Ret tt
  | Some u =>
    let finish := Upd (setShowReactionPicker None) (Ret tt) in
    match List.find (fun r => bool_decide (user_id r = u) && bool_decide (emoji r = e))
                    (reactions_of s messageId) with
    | Some existingReaction =>
        Call (DeleteReaction (r_id existingReaction)) (fun r =>
        match r with
        | Err _ => Upd (show (toast_error "Failed to remove reaction")) finish
        | Ok _ => finish
        end)
    | None =>
        Call (InsertReaction messageId u e) (fun r =>
        match r with
        | Err _ => Upd (show (toast_error "Failed to add reaction")) finish
        | Ok _ => finish
        end)
    end
  end.

(** The platform hands the next event of the feed to the messages
    channel: an INSERT on [messages] that passes the channel's filter
    and that the subscriber may read reaches the callback. *)
Definition deliver_message (auth : option uuid) (d : db) (s : state) : state :=
  match message_channel s with
  | Some (pos, chat) =>
    match feed d !! pos with
    | Some ev =>
      let s' := setMessageChannel (Some (S pos, chat)) s in
      match ev with
      | MessageInsert new =>
          if bool_decide (chat_id new = chat) && messages_select_policy d auth new
          then on_message_insert new s' else s'
      | _ => s'
      end
    | None => s
    end
  | None => s
  end.

(** The same for the reactions channel, which has no filter. Of a
    deleted row the event carries the primary key. *)
Definition deliver_reaction (auth : option uuid) (d : db) (s : state) : state :=
  match reaction_channel s with
  | Some pos =>
    match feed d !! pos with
    | Some ev =>
      let s' := setReactionChannel (Some (S pos)) s in
      match ev with
      | ReactionInsert new =>
          if reactions_select_policy d auth new
          then on_reaction_insert new s' else s'
      | ReactionDelete old =>
          on_reaction_delete {| old_id := r_id old; old_message_id := None |} s'
      | _ => s'
      end
    | None => s
    end
  | None => s
  end.

End Chat.

(** ** The follow-requests page (Requests.tsx) *)

Module Requests.

(** A [FollowRequest]: the id of the edge and the id of its follower. *)
Record follow_request := {
  fr_id : uuid;
  fr_follower : uuid;
}.

Record state := {
  requests : list follow_request;
  loading : bool;
  toasts : list toast;
}.

Definition initial : state :=
  {| requests := []; loading := true; toasts := [] |}.

Definition setRequests (v : list follow_request) (s : state) : state :=
  {| requests := v; loading := loading s; toasts := toasts s |}.
Definition setLoading (v : bool) (s : state) : state :=
  {| requests := requests s; loading := v; toasts := toasts s |}.
Definition show (t : toast) (s : state) : state :=
  {| requests := requests s; loading := loading s; toasts := toasts s ++ [t] |}.

(** [fetchRequests], run by the effect when [user] is set. *)
Definition fetchRequests (user : uuid) : prog state unit :=
  let finally := Upd (setLoading false) (Ret tt) in
  Call (SelectPending user) (fun r =>
  match r with
  | Err _ => Upd (show (toast_error "Failed to load follow requests")) finally
  | Ok data =>
      Upd (setRequests
             (map (fun req => {| fr_id := req.1; fr_follower := req.2 |}) data))
          finally
  end).

(** The text of the welcome message, code unit by code unit. *)
Definition welcome : text :=
  [240; 376; 381; 8240]%N ++
  text_of_ascii " Your follow request has been accepted! You are now connected and can start chatting.".

(** [requests.filter((r) => r.id !== requestId)] *)
Definition without (requestId : uuid) (l : list follow_request)
    : list follow_request :=
  List.filter (fun r => negb (bool_decide (fr_id r = requestId))) l.

(** [handleAccept(requestId, followerId)] *)
Definition handleAccept (user : option uuid) (requestId followerId : uuid)
    (s : state) : prog state unit :=
  let catch := Upd (show (toast_error "Failed to accept request")) (Ret tt) in
  Call (UpdateFollowStatus requestId accepted) (fun r =>
  match r with
  | Err _ => catch
  | Ok _ =>
    let sortedIds := sort_pair user (Some followerId) in
    Call (SelectChat sortedIds.1 sortedIds.2) (fun r =>
    let welcome_into chatId :=
      Call (InsertMessage chatId user welcome None) (fun r =>
      match r with
      | Err _ => catch
      | Ok _ =>
          Upd (setRequests (without requestId (requests s)))
          (Upd (show (toast_success "Follow request accepted! You can now chat."))
               (Ret tt))
      end) in
    match r with
    | Ok existingChat => welcome_into existingChat
    | Err _ =>
        Call (InsertChat sortedIds.1 sortedIds.2) (fun r =>
        match r with
        | Err _ => catch
        | Ok newChat => welcome_into newChat
        end)
    end)
  end).

(** [handleReject(requestId)] *)
Definition handleReject (requestId : uuid) (s : state) : prog state unit :=
  Call (UpdateFollowStatus requestId rejected) (fun r =>
  match r with
  | Err _ => Upd (show (toast_error "Failed to reject request")) (Ret tt)
  | Ok _ =>
      Upd (setRequests (without requestId (requests s)))
      (Upd (show (toast_success "Follow request rejected")) (Ret tt))
  end).

End Requests.

(** ** The discovery page (Discover.tsx) *)

Module Discover.

(** [followStatus] maps a profile id to the status of the edge from the
    current user to it; a missing key is the ['none'] of the page. *)
Record state := {
  followStatus : gmap string follow_status;
  toasts : list toast;
}.

Definition initial : state := {| followStatus := ∅; toasts := [] |}.

Definition setFollowStatus (v : gmap string follow_status) (s : state) : state :=
  {| followStatus := v; toasts := toasts s |}.
Definition show (t : toast) (s : state) : state :=
  {| followStatus := followStatus s; toasts := toasts s ++ [t] |}.

(** The [forEach] of [fetchFollowStatus]. *)
Definition statusMap (data : list (uuid * follow_status))
    : gmap string follow_status :=
  fold_left (fun acc follow => <[follow.1 := follow.2]> acc) data ∅.

(** [fetchFollowStatus], run by the effect when [user] is set. *)
Definition fetchFollowStatus (user : uuid) : prog state unit :=
  Call (SelectFollowing user) (fun r =>
  match r with
  | Err _ => Ret tt
  | Ok data => Upd (setFollowStatus (statusMap data)) (Ret tt)
  end).

(** [handleFollow(profileId)] *)
Definition handleFollow (user : option uuid) (profileId : uuid) (s : state)
    : prog state unit :=
  Call (InsertFollow user profileId pending) (fun r =>
  match r with
  | Err _ => Upd (show (toast_error "Failed to send follow request")) (Ret tt)
  | Ok _ =>
      Upd (setFollowStatus (<[profileId := pending]> (followStatus s)))
      (Upd (show (toast_success "Follow request sent!")) (Ret tt))
  end).

(** [followStatus[profile.id] || 'none'] *)
Definition status (s : state) (profileId : uuid) : option follow_status :=
  followStatus s !! profileId.

(** [const canMessage = status === 'accepted']; the Message button is
    [disabled={!canMessage}]. *)
Definition canMessage (s : state) (profileId : uuid) : bool :=
  bool_decide (status s profileId = Some accepted).

End Discover.

(** ** Several chat pages and everybody else

    A client holds its session, the state of its chat page and the
    handlers it has started; each of them advances one request at a
    time, so the requests of different clients interleave freely. *)
Record client := {
  session : option uuid;
  ui : Chat.state;
  tasks : list (prog Chat.state unit);
}.

Inductive action :=
  | Invoke (i : nat) (h : Chat.state -> prog Chat.state unit)
      (* client [i] starts a handler, which captures the rendered state *)
  | Run (i j : nat)
      (* its [j]-th handler performs its next request *)
  | DeliverMessage (i : nat)
  | DeliverReaction (i : nat)
  | Elsewhere (auth : option uuid) {X : Type} (q : request X).
      (* a request of any other page or user *)

Definition world : Type := db * list client.

Definition act (a : action) (w : world) : world :=
  let '(d, cs) := w in
  match a with
  | Invoke i h =>
      match cs !! i with
      | Some c =>
          (d, <[i := {| session := session c; ui := ui c;
                        tasks := tasks c ++ [h (ui c)] |}]> cs)
      | None => w
      end
  | Run i j =>
      match cs !! i with
      | Some c =>
          match tasks c !! j with
          | Some p =>
              let '(s', d', p') := step p (session c) (ui c) d in
              (d', <[i := {| session := session c; ui := s';
                             tasks := <[j := p']> (tasks c) |}]> cs)
          | None => w
          end
      | None => w
      end
  | DeliverMessage i =>
      match cs !! i with
      | Some c =>
          (d, <[i := {| session := session c;
                        ui := Chat.deliver_message (session c) d (ui c);
                        tasks := tasks c |}]> cs)
      | None => w
      end
  | DeliverReaction i =>
      match cs !! i with
      | Some c =>
          (d, <[i := {| session := session c;
                        ui := Chat.deliver_reaction (session c) d (ui c);
                        tasks := tasks c |}]> cs)
      | None => w
      end
  | Elsewhere auth q => ((exec q auth d).1, cs)
  end.

Definition play (schedule : list action) (w : world) : world :=
  fold_left (fun w a => act a w) schedule w.

(** ** What the tables promise *)

Definition follow_pair (f : follow_row) : uuid * uuid :=
  (follower_id f, following_id f).
Definition chat_pair (c : chat_row) : uuid * uuid := (user1_id c, user2_id c).
Definition reaction_triple (r : reaction_row) : uuid * uuid * text :=
  (message_id r, user_id r, emoji r).

Definition inserted_message (ev : change_event) : option uuid :=
  match ev with MessageInsert m => Some (m_id m) | _ => None end.

Record db_ok (d : db) : Prop := {
  follows_pkey : NoDup (map f_id (follows d));
  follows_unique : NoDup (map follow_pair (follows d));
  follows_fkey : forall f, f ∈ follows d ->
    profile_exists d (follower_id f) = true /\
    profile_exists d (following_id f) = true;
  chats_pkey : NoDup (map c_id (chats d));
  chats_unique : NoDup (map chat_pair (chats d));
  chats_check : forall c, c ∈ chats d -> uuid_lt (user1_id c) (user2_id c) = true;
  chats_fkey : forall c, c ∈ chats d ->
    profile_exists d (user1_id c) = true /\ profile_exists d (user2_id c) = true;
  messages_pkey : NoDup (map m_id (messages d));
  reactions_pkey : NoDup (map r_id (message_reactions d));
  reactions_unique : NoDup (map reaction_triple (message_reactions d));
  feed_messages : forall m, MessageInsert m ∈ feed d -> m ∈ messages d;
  feed_once : NoDup (omap inserted_message (feed d));
}.

(** The chat rows between two users, whichever way round. *)
Definition between (a b : uuid) (c : chat_row) : bool :=
  (bool_decide (user1_id c = a) && bool_decide (user2_id c = b)) ||
  (bool_decide (user1_id c = b) && bool_decide (user2_id c = a)).

Definition conversations (d : db) (a b : uuid) : list chat_row :=
  List.filter (between a b) (chats d).

(** [isConnected] as [initializeChat] computes it. *)
Definition isConnected (d : db) (auth : option uuid) (a b : uuid) : bool :=
  match select_connection auth a b d with
  | Ok (_ :: _) => true
  | _ => false
  end.

Definition edge_status (d : db) (id : uuid) : option follow_status :=
  f_status <$> List.find (fun f => bool_decide (f_id f = id)) (follows d).

(** ** Notions of the statements *)


(** The platform does not generate again an id that is in use. *)
Definition ids_in_use (d : db) : list uuid :=
  map f_id (follows d) ++ map c_id (chats d) ++ map m_id (messages d) ++
  map r_id (message_reactions d).

Definition fresh_ids (d : db) : Prop :=
  forall n, tick d <= n -> gen_random_uuid d n ∉ ids_in_use d.

(** Requests that leave the [follows] table alone. *)
Definition reads_follows {X} (q : request X) : Prop :=
  match q with
  | InsertFollow _ _ _ | UpdateFollowStatus _ _ | UpdateFollow _ _ => False
  | _ => True
  end.

(** A request that leaves every accepted or rejected edge accepted or
    rejected, whoever sends it and whatever the tables hold. *)
Definition keeps_resolved {X} (q : request X) : Prop :=
  forall auth d f f',
    db_ok d -> f ∈ follows d -> f_status f <> pending ->
    f' ∈ follows (exec q auth d).1 -> f_id f' = f_id f ->
    f_status f' <> pending.

(** No [UPDATE follows SET status = 'pending'], and no update of
    [follows] other than of the status. *)
Definition no_reopening {X} (q : request X) : Prop :=
  match q with
  | UpdateFollowStatus _ pending | UpdateFollow _ _ => False
  | _ => True
  end.

(** A property of the [content] of every message a handler inserts. *)
Definition sends_content (P : text -> Prop) {X} (q : request X) : Prop :=
  match q with
  | InsertMessage _ _ body _ => P body
  | _ => True
  end.

(** ** A small cast for the concrete runs *)
Definition alice : uuid := "0a11ce00-0000-4000-8000-000000000001".
Definition bob : uuid := "0b0b0000-0000-4000-8000-000000000002".
Definition carol : uuid := "0ca70100-0000-4000-8000-000000000003".

Definition person (id : uuid) (name : string) : profile_row :=
  {| p_id := id; p_username := text_of_ascii name;
     p_full_name := text_of_ascii name; p_avatar_url := None |}.

(** A generator and a clock for the platform. *)
Definition row_id (n : nat) : uuid := String.append "row-" (pretty n).
Definition clock (n : nat) : N := (1700000000000 + N.of_nat n)%N.

Definition town : db :=
  with_profiles [person alice "alice"; person bob "bob"; person carol "carol"]
                (empty_db row_id clock).

(** The accepted edge from alice to bob, and no conversation yet: the
    state bob's [handleAccept] leaves after its first request. *)
Definition befriended : db :=
  (exec (UpdateFollowStatus (row_id 0) accepted) (Some bob)
     (exec (InsertFollow (Some alice) bob pending) (Some alice) town).1).1.

(** Both open the chat page at once: each looks the conversation up
    before the other has created it. *)
Definition both_pages : list client :=
  [ {| session := Some alice; ui := Chat.initial; tasks := [] |};
    {| session := Some bob; ui := Chat.initial; tasks := [] |} ].

Definition first_contact_race : list action :=
  [ Invoke 0 (fun _ => Chat.initializeChat alice bob);
    Invoke 1 (fun _ => Chat.initializeChat bob alice);
    Run 0 0; Run 1 0; Run 0 0; Run 1 0; Run 0 0; Run 1 0;
    Run 0 0; Run 1 0 ].

(** Alice has asked to follow bob (edge [row_id 0], pending). *)
Definition requested : db :=
  (run (Discover.handleFollow (Some alice) bob Discover.initial)
       (Some alice) Discover.initial town).1.2.

(** Bob has accepted: the edge is accepted, their conversation is
    [row_id 3] and holds the welcome message [row_id 4]. *)
Definition chatting : db :=
  (run (Requests.handleAccept (Some bob) (row_id 0) alice Requests.initial)
       (Some bob) Requests.initial requested).1.2.

(** U+2764 U+FE0F, the first of [popularEmojis]. *)
Definition heart : text := [10084; 65039]%N.
(** U+D83D U+DC4D, the second. *)
Definition thumbs_up : text := [55357; 56397]%N.

(** Alice's chat page once [initializeChat] has found the conversation. *)
Definition alice_page : Chat.state :=
  (run (Chat.initializeChat alice bob) (Some alice) Chat.initial chatting).1.1.

(** Alice has put a heart on the welcome message (reaction [row_id 5]). *)
Definition reacted : db :=
  (run (Chat.handleReaction (Some alice) (row_id 4) heart alice_page)
       (Some alice) alice_page chatting).1.2.

(** Bob rejects the request he had accepted, from a second tab that
    still lists it. *)
Definition fallen_out : db :=
  (run (Requests.handleReject (row_id 0) Requests.initial)
       (Some bob) Requests.initial chatting).1.2.

(** Alice has typed "hello" into her chat page, opened before that. *)
Definition hello_page : Chat.state :=
  Chat.setNewMessage (text_of_ascii "hello") alice_page.

(** The welcome message of [chatting]. *)
Definition welcome_row : message_row :=
  {| m_id := row_id 4; chat_id := row_id 3; sender_id := bob;
     content := Requests.welcome; media_url := None;
     m_created_at := clock 4 |}.

(** Alice's page, about to run [subscribeToMessages]. *)
Definition alice_subscribes : list client :=
  [ {| session := Some alice; ui := alice_page;
       tasks := [Chat.subscribeToMessages (row_id 3)] |} ].

(** Alice's page has opened its reactions channel, she has put a heart
    on the welcome message, and the INSERT event has reached her page. *)
Definition live : Chat.state * db :=
  (run Chat.subscribeToReactions (Some alice) alice_page chatting).1.

Definition hearted : db :=
  (run (Chat.handleReaction (Some alice) (row_id 4) heart live.1)
       (Some alice) live.1 live.2).1.2.

Definition hearted_page : Chat.state :=
  Chat.deliver_reaction (Some alice) hearted
    (run (Chat.handleReaction (Some alice) (row_id 4) heart live.1)
         (Some alice) live.1 live.2).1.1.

(** A picked file, and alice's page with it and no caption. *)
Definition photo : file :=
  {| file_name := text_of_ascii "holiday.photo.png"; file_size := 204800;
     file_type := text_of_ascii "image/png" |}.

Definition photo_page : Chat.state :=
  Chat.setSelectedFile (Some photo) (Chat.setNewMessage (text_of_ascii "  ") alice_page).

(** The effect on [chatId] runs a second time on alice's page (she has
    been to another conversation and come back) while the channel of
    the first run is still open: bob's "hi" is in the second load, and
    then arrives on that channel. *)
Definition hi_arrives_late : list action :=
  [ Run 0 0; Run 0 0;
    Elsewhere (Some bob)
      (InsertMessage (row_id 3) (Some bob) (text_of_ascii "hi") None);
    Invoke 0 (fun _ => Chat.subscribeToMessages (row_id 3));
    Run 0 1;
    DeliverMessage 0 ].


(** ** More notions of the statements *)

(** An accepted edge between two users, either way round. *)
Definition accepted_between (a b : uuid) (f : follow_row) : Prop :=
  f_status f = accepted /\
  ((follower_id f = a /\ following_id f = b) \/
   (follower_id f = b /\ following_id f = a)).

(** ** The rest of the chat page: attachments and reaction counts *)

Module ChatView.

(** [String.prototype.startsWith] *)
Definition startsWith (prefix t : text) : bool :=
  bool_decide (take (length prefix) t = prefix).

(** [50 * 1024 * 1024] *)
Definition max_file_size : N := (50 * 1024 * 1024)%N.

(** [handleFileSelect], on the files of the input element: the new
    state, and the file handed to [reader.readAsDataURL] if any. *)
Definition handleFileSelect (files : list file) (s : Chat.state)
    : Chat.state * option file :=
  match files with
  | [] => (s, None)
  | f :: _ =>
    if (max_file_size <? file_size f)%N
    then (Chat.show (toast_error "File must be less than 50MB") s, None)
    else
      let s1 := Chat.setSelectedFile (Some f) s in
      if startsWith (text_of_ascii "image/") (file_type f)
      then (s1, Some f)
      else (Chat.setFilePreview None s1, None)
  end.

(** [reader.onloadend = () => setFilePreview(reader.result as string)] *)
Definition onloadend (result : text) (s : Chat.state) : Chat.state :=
  Chat.setFilePreview (Some result) s.

(** [handleRemoveFile] *)
Definition handleRemoveFile (s : Chat.state) : Chat.state :=
  Chat.setFilePreview None (Chat.setSelectedFile None s).

(** What the user does around the message form. *)
Inductive input :=
  | Typed (value : text)       (* onChange of the text field *)
  | Picked (files : list file) (* onChange of the file field *)
  | Loaded (result : text)     (* the reader has finished *)
  | Removed.                   (* the X of the file preview *)

Definition react (i : input) (s : Chat.state) : Chat.state :=
  match i with
  | Typed value => Chat.setNewMessage value s
  | Picked files => (handleFileSelect files s).1
  | Loaded result => onloadend result s
  | Removed => handleRemoveFile s
  end.

Section Icons.

(** [String.prototype.toLowerCase], the platform's. *)
Variable toLowerCase : text -> text.

Definition image_extensions : list text :=
  map text_of_ascii ["jpg"; "jpeg"; "png"; "gif"; "webp"]%string.

Definition video_extensions : list text :=
  map text_of_ascii ["mp4"; "mov"; "avi"; "mkv"; "webm"]%string.

(** [url.split('.').pop()?.toLowerCase()] *)
Definition extension (url : text) : text := toLowerCase (split_pop url).

Definition isImageFile (url : text) : bool :=
  bool_decide (extension url ∈ image_extensions).

Definition isVideoFile (url : text) : bool :=
  bool_decide (extension url ∈ video_extensions).

Inductive icon := ImageIcon | Film | FileText.

Definition getFileIcon (url : text) : icon :=
  if bool_decide (extension url ∈ image_extensions) then ImageIcon
  else if bool_decide (extension url ∈ video_extensions) then Film
  else FileText.

(** How a message with a [media_url] is drawn: an [img], a [video], or
    a box with [FileIcon = getFileIcon(message.media_url)]. *)
Inductive drawn := as_img | as_video | as_box (FileIcon : icon).

Definition draw (url : text) : drawn :=
  if isImageFile url then as_img
  else if isVideoFile url then as_video
  else as_box (getFileIcon url).

End Icons.

(** The property names every object has from [Object.prototype]. *)
Definition inherited : list text :=
  map text_of_ascii
    ["constructor"; "__defineGetter__"; "__defineSetter__"; "hasOwnProperty";
     "__lookupGetter__"; "__lookupSetter__"; "isPrototypeOf";
     "propertyIsEnumerable"; "toString"; "valueOf"; "__proto__";
     "toLocaleString"]%string.

(** [getReactionCounts]: per emoji, how many and whether the user is
    among them. [counts] starts as [{}]; the map holds its own
    properties, which are what [Object.entries] shows. For an emoji
    that names an inherited property, [counts[reaction.emoji]] is that
    property, which is truthy: no entry is made, and the two writes go
    to the inherited value. [Object.prototype] is taken as the
    platform ships it. *)
Definition count_reaction (user : option uuid)
    (counts : gmap text (nat * bool)) (reaction : reaction_row)
    : gmap text (nat * bool) :=
  if bool_decide (emoji reaction ∈ inherited) then counts
  else
    let c := default (0, false) (counts !! emoji reaction) in
    <[emoji reaction :=
        (S c.1, c.2 || bool_decide (Some (user_id reaction) = user))]> counts.

Definition getReactionCounts (user : option uuid) (s : Chat.state)
    (messageId : uuid) : gmap text (nat * bool) :=
  fold_left (count_reaction user) (Chat.reactions_of s messageId) ∅.

(** The reactions of a list that carry a given emoji. *)
Definition with_emoji (e : text) (l : list reaction_row) : list reaction_row :=
  List.filter (fun r => bool_decide (emoji r = e)) l.

End ChatView.

(** A film of 60 MB, and a sitting at the message form: the film is
    refused, the photo is taken, its preview arrives, a caption is
    typed. *)
Definition film : file :=
  {| file_name := text_of_ascii "film.mkv"; file_size := 62914560;
     file_type := text_of_ascii "video/x-matroska" |}.

Definition sitting : list ChatView.input :=
  [ ChatView.Picked [film]; ChatView.Picked [photo];
    ChatView.Loaded (text_of_ascii "data:image/png;base64,iVBORw0KGgo=");
    ChatView.Typed (text_of_ascii "look") ].

(** ** The list of conversations (the Chats page) *)

(** [data] of a response: [null] when the request failed. *)
Definition data_of {A} (r : result A) : option A :=
  match r with
  | Ok a => Some a
  | Err _ => None
  end.

(** [ORDER BY created_at DESC], on chats and on messages *)
Definition newer_chat (a b : chat_row) : Prop :=
  (c_created_at b <= c_created_at a)%N.

Global Instance newer_chat_dec : RelDecision newer_chat.
Proof. intros a b. unfold newer_chat. apply _. Defined.

Definition later (a b : message_row) : Prop :=
  (m_created_at b <= m_created_at a)%N.

Global Instance later_dec : RelDecision later.
Proof. intros a b. unfold later. apply _. Defined.

(** [from('chats').select('*').or(`user1_id.eq.${u},user2_id.eq.${u}`)
      .order('created_at', { ascending: false })] *)
Definition select_chats_of (auth : option uuid) (u : uuid) (d : db)
    : result (list chat_row) :=
  Ok (merge_sort newer_chat
        (List.filter
           (fun c => chats_select_policy auth c &&
                     (bool_decide (user1_id c = u) || bool_decide (user2_id c = u)))
           (chats d))).

(** [from('messages').select('content, created_at').eq('chat_id', chat)
      .order('created_at', { ascending: false }).limit(1).single()] *)
Definition select_last_message (auth : option uuid) (chat : uuid) (d : db)
    : result (text * N) :=
  single (take 1
    (map (fun m => (content m, m_created_at m))
       (merge_sort later
          (List.filter
             (fun m => messages_select_policy d auth m && bool_decide (chat_id m = chat))
             (messages d))))).

Module Chats.

(** A [ChatPreview]; [otherUser] and [lastMessage] are the [data] of
    the two [.single()] requests. *)
Record chat_preview := {
  cp_id : uuid;
  otherUser : option profile_row;
  lastMessage : option (text * N);
}.

Record state := {
  chats : list chat_preview;
  loading : bool;
  toasts : list toast;
}.

Definition initial : state := {| chats := []; loading := true; toasts := [] |}.

Definition setChats (v : list chat_preview) (s : state) : state :=
  {| chats := v; loading := loading s; toasts := toasts s |}.
Definition setLoading (v : bool) (s : state) : state :=
  {| chats := chats s; loading := v; toasts := toasts s |}.
Definition show (t : toast) (s : state) : state :=
  {| chats := chats s; loading := loading s; toasts := toasts s ++ [t] |}.

(** [chat.user1_id === user?.id ? chat.user2_id : chat.user1_id] *)
Definition otherUserId (user : uuid) (chat : chat_row) : uuid :=
  if bool_decide (user1_id chat = user) then user2_id chat else user1_id chat.

(** The callback of [chatsData.map]. *)
Definition preview_of (auth : option uuid) (user : uuid) (d : db)
    (chat : chat_row) : chat_preview :=
  {| cp_id := c_id chat;
     otherUser := data_of (select_profile (otherUserId user chat) d);
     lastMessage := data_of (select_last_message auth (c_id chat) d) |}.

(** [fetchChats], run by the effect when [user] is set. It only reads;
    [d] is the state of the tables that its requests are answered
    from. *)
Definition fetchChats (auth : option uuid) (user : uuid) (d : db) (s : state)
    : state :=
  setLoading false
    match select_chats_of auth user d with
    | Err _ => show (toast_error "Failed to load chats") s
    | Ok chatsData => setChats (map (preview_of auth user d) chatsData) s
    end.

(** [handleChatClick(chat.otherUser.id)] leads to [/chat/:userId], where
    the chat page runs [initializeChat] for that id. *)
Definition handleChatClick (user : uuid) (otherUserId : uuid)
    : prog Chat.state unit :=
  Chat.initializeChat user otherUserId.

End Chats.

(** ** The connections of the profile page *)

(** What an embedded resource [name:column (...)] carries: the profile
    the key points to, [null] when there is none to read. *)
Definition embedded_profile (d : db) (id : uuid) : option profile_row :=
  List.find (fun p => bool_decide (p_id p = id)) (profiles d).

(** [from('follows').select('follower:follower_id (...)')
      .eq('following_id', u).eq('status', 'accepted')] *)
Definition select_followers (auth : option uuid) (u : uuid) (d : db)
    : result (list (option profile_row)) :=
  Ok (map (fun f => embedded_profile d (follower_id f))
        (List.filter
           (fun f => follows_select_policy auth f &&
                     bool_decide (following_id f = u) &&
                     bool_decide (f_status f = accepted))
           (follows d))).

(** [from('follows').select('following:following_id (...)')
      .eq('follower_id', u).eq('status', 'accepted')] *)
Definition select_followed (auth : option uuid) (u : uuid) (d : db)
    : result (list (option profile_row)) :=
  Ok (map (fun f => embedded_profile d (following_id f))
        (List.filter
           (fun f => follows_select_policy auth f &&
                     bool_decide (follower_id f = u) &&
                     bool_decide (f_status f = accepted))
           (follows d))).

Module Profile.

Record state := {
  followers : list (option profile_row);
  following : list (option profile_row);
}.

Definition initial : state := {| followers := []; following := [] |}.

(** [fetchConnections], run by the effect when [user] is set; [d] is
    the state of the tables that its two requests are answered from.
    An error of either leaves both lists as they are. *)
Definition fetchConnections (auth : option uuid) (user : uuid) (d : db)
    (s : state) : state :=
  match select_followers auth user d with
  | Err _ => s
  | Ok followersData =>
    match select_followed auth user d with
    | Err _ => s
    | Ok followingData =>
        {| followers := followersData; following := followingData |}
    end
  end.

(** The form of the profile page with what [handleSave] sets; the copy
    of the profile that the page keeps is not part of this state. *)
Record editor := {
  form_full_name : text;
  form_username : text;
  isEditing : bool;
  saving : bool;
  toasts : list toast;
}.

Definition setIsEditing (v : bool) (s : editor) : editor :=
  {| form_full_name := form_full_name s; form_username := form_username s;
     isEditing := v; saving := saving s; toasts := toasts s |}.
Definition setSaving (v : bool) (s : editor) : editor :=
  {| form_full_name := form_full_name s; form_username := form_username s;
     isEditing := isEditing s; saving := v; toasts := toasts s |}.
Definition show (t : toast) (s : editor) : editor :=
  {| form_full_name := form_full_name s; form_username := form_username s;
     isEditing := isEditing s; saving := saving s; toasts := toasts s ++ [t] |}.

(** [handleSave]: [full_name] and [username] of the form go to the
    user's own row ([bio] is not a column of the rows here). *)
Definition handleSave (user : option uuid) (s : editor) : prog editor unit :=
  let finally := Upd (setSaving false) (Ret tt) in
  Upd (setSaving true)
  (Call (UpdateProfile user (Some (form_username s)) (Some (form_full_name s)) None)
     (fun r =>
      match r with
      | Err _ => Upd (show (toast_error "Failed to update profile")) finally
      | Ok _ =>
          Upd (setIsEditing false)
          (Upd (show (toast_success "Profile updated!")) finally)
      end)).

End Profile.
(** * Properties *)

(** Statements and helpers are unfolded by name only. *)
Arguments sort_pair : simpl never.
Arguments select_profile : simpl never.
Arguments select_connection : simpl never.
Arguments select_following : simpl never.
Arguments select_pending : simpl never.
Arguments select_chat : simpl never.
Arguments select_messages : simpl never.
Arguments select_message_ids : simpl never.
Arguments select_reactions : simpl never.
Arguments insert_follow : simpl never.
Arguments update_follow_status : simpl never.
Arguments update_follow : simpl never.
Arguments insert_chat : simpl never.
Arguments insert_message : simpl never.
Arguments insert_reaction : simpl never.
Arguments delete_reaction : simpl never.
Arguments upload : simpl never.
Arguments handle_new_user : simpl never.
Arguments insert_profile : simpl never.
Arguments update_profile : simpl never.
Arguments open_channel : simpl never.
Arguments exec : simpl never.
Arguments conversations : simpl never.
Arguments edge_status : simpl never.
Arguments isConnected : simpl never.

(** Walks a handler: every request it can come to, for every answer. *)
Ltac walk :=
  repeat (cbn;
    match goal with
    | |- _ /\ _ => split
    | |- True => exact I
    | |- forall _ : result _, _ => intros [?|?]
    | |- context [match ?x with _ => _ end] => destruct x
    end).

(** ** The order on identifiers *)

Lemma uuid_lt_irrefl (a : uuid) : uuid_lt a a = false.
Proof.
  unfold uuid_lt, String.ltb.
  destruct (String.compare a a) eqn:E; try reflexivity.
  pose proof (String.compare_antisym a a) as H. rewrite E in H. discriminate.
Qed.

Lemma uuid_lt_asym (a b : uuid) : uuid_lt a b = true -> uuid_lt b a = false.
Proof.
  unfold uuid_lt, String.ltb. rewrite (String.compare_antisym a b).
  destruct (String.compare b a); simpl; congruence.
Qed.

Lemma uuid_lt_total (a b : uuid) :
  a <> b -> uuid_lt a b = false -> uuid_lt b a = true.
Proof.
  unfold uuid_lt, String.ltb. intros Hne. rewrite (String.compare_antisym a b).
  destruct (String.compare b a) eqn:E; simpl; try congruence.
  apply String.compare_eq_iff in E. congruence.
Qed.

(** The sorted pair of two distinct users is the same whoever sorts. *)
Lemma sort_pair_comm (a b : uuid) :
  a <> b -> sort_pair (Some a) (Some b) = sort_pair (Some b) (Some a).
Proof.
  intros Hne. unfold sort_pair.
  destruct (uuid_lt b a) eqn:E1.
  - rewrite (uuid_lt_asym _ _ E1). reflexivity.
  - rewrite (uuid_lt_total _ _ (not_eq_sym Hne) E1). reflexivity.
Qed.

Lemma sort_pair_lt (a b : uuid) :
  a <> b ->
  exists x y, sort_pair (Some a) (Some b) = (Some x, Some y) /\
              uuid_lt x y = true /\
              ((x = a /\ y = b) \/ (x = b /\ y = a)).
Proof.
  intros Hne. unfold sort_pair. destruct (uuid_lt b a) eqn:E.
  - exists b, a. auto.
  - exists a, b. split; [reflexivity|]. split; [|auto].
    apply uuid_lt_total; [congruence | exact E].
Qed.

(** ** Lists *)

Lemma existsb_false_elem {A} (f : A -> bool) (l : list A) :
  existsb f l = false -> forall x, x ∈ l -> f x = false.
Proof.
  intros H x Hx. destruct (f x) eqn:E; [|reflexivity].
  assert (existsb f l = true) as Ht
    by (apply existsb_exists; exists x; split; [by apply list_elem_of_In | exact E]).
  congruence.
Qed.

Lemma existsb_true_elem {A} (f : A -> bool) (l : list A) :
  existsb f l = true -> exists x, x ∈ l /\ f x = true.
Proof.
  intros H. apply existsb_exists in H as (x & Hx & Hf).
  exists x. split; [by apply list_elem_of_In | exact Hf].
Qed.

Lemma elem_existsb {A} (f : A -> bool) (l : list A) (x : A) :
  x ∈ l -> f x = true -> existsb f l = true.
Proof.
  intros Hx Hf. apply existsb_exists. exists x.
  split; [by apply list_elem_of_In | exact Hf].
Qed.

Lemma fresh_key {A} `{EqDecision K} (g : A -> K) (v : K) (l : list A) :
  existsb (fun r => bool_decide (g r = v)) l = false -> v ∉ map g l.
Proof.
  intros H Hin. apply list_elem_of_fmap in Hin as (r & -> & Hr).
  pose proof (existsb_false_elem _ _ H r Hr) as E. simpl in E.
  by apply bool_decide_eq_false in E.
Qed.

Lemma NoDup_snoc_key {A K} (g : A -> K) (l : list A) (r : A) :
  NoDup (map g l) -> g r ∉ map g l -> NoDup (map g (l ++ [r])).
Proof.
  intros Hl Hr. rewrite map_app. apply NoDup_app. split; [exact Hl|].
  split; [|apply NoDup_singleton].
  intros x Hx Hx'. apply list_elem_of_singleton in Hx'. by subst.
Qed.

Lemma elem_of_filter_bool {A} (p : A -> bool) (l : list A) (x : A) :
  x ∈ List.filter p l <-> x ∈ l /\ p x = true.
Proof. rewrite !list_elem_of_In. apply filter_In. Qed.

Lemma filter_sublist {A} (p : A -> bool) (l : list A) :
  List.filter p l `sublist_of` l.
Proof.
  induction l as [|x l IH]; simpl; [constructor|].
  destruct (p x); by constructor.
Qed.

Lemma NoDup_filter_key {A K} (g : A -> K) (p : A -> bool) (l : list A) :
  NoDup (map g l) -> NoDup (map g (List.filter p l)).
Proof.
  intros H. apply (sublist_NoDup _ (map g l)); [exact H|].
  apply (fmap_sublist g), filter_sublist.
Qed.

Lemma map_key_preserved {A K} (g : A -> K) (h : A -> A) (l : list A) :
  (forall x, g (h x) = g x) -> map g (map h l) = map g l.
Proof.
  intros H. rewrite map_map. apply map_ext. exact H.
Qed.

Lemma omap_deletes (l : list reaction_row) :
  omap inserted_message (map ReactionDelete l) = [].
Proof. induction l; simpl; auto. Qed.

(** ** The constraints hold in every state *)

Lemma db_ok_empty gen clk : db_ok (empty_db gen clk).
Proof.
  constructor; simpl; try apply NoDup_nil_2; intros ? H; by apply elem_of_nil in H.
Qed.

Lemma db_ok_advance d : db_ok d -> db_ok (advance d).
Proof. intros H. constructor; simpl; apply H. Qed.

Lemma profile_exists_snoc d p u :
  profile_exists d u = true -> profile_exists (with_profiles (profiles d ++ [p]) d) u = true.
Proof.
  unfold profile_exists. simpl. rewrite existsb_app. intros ->. reflexivity.
Qed.

Lemma db_ok_insert_follow auth follower following st d :
  db_ok d -> db_ok (insert_follow auth follower following st d).1.
Proof.
  intros H. unfold insert_follow.
  destruct (negb _); [exact H|].
  destruct follower as [a|]; [|exact H].
  destruct (existsb _ _) eqn:Epk; [exact H|].
  destruct (follow_pair_taken d a following) eqn:Epair; [exact H|].
  destruct (negb _) eqn:Efk; [exact H|].
  apply negb_false_iff, andb_true_iff in Efk as [Ha Hb].
  constructor; simpl; try apply H.
  - apply NoDup_snoc_key; [apply H|]. simpl. by apply fresh_key.
  - apply NoDup_snoc_key; [apply H|]. simpl.
    intros Hin. apply list_elem_of_fmap in Hin as (f & Hf & Hin).
    pose proof (existsb_false_elem _ _ Epair f Hin) as E. simpl in E.
    unfold follow_pair in Hf. inversion Hf as [[H1 H2]].
    rewrite <- H1, <- H2, !bool_decide_eq_true_2 in E by reflexivity. discriminate.
  - intros f Hf. apply elem_of_app in Hf as [Hf|Hf]; [by apply H|].
    apply list_elem_of_singleton in Hf as ->. simpl. auto.
Qed.

Lemma db_ok_update_follow_status auth id st d :
  db_ok d -> db_ok (update_follow_status auth id st d).1.
Proof.
  intros H. unfold update_follow_status.
  constructor; simpl; try apply H.
  - rewrite map_key_preserved; [apply H|]. intros f. by destruct (_ && _).
  - rewrite map_key_preserved; [apply H|]. intros f. by destruct (_ && _).
  - intros f Hf. apply list_elem_of_fmap in Hf as (f0 & -> & Hf0).
    destruct (_ && _); simpl; by apply H.
Qed.

Lemma db_ok_update_follow auth id set d :
  db_ok d -> db_ok (update_follow auth id set d).1.
Proof.
  intros H. unfold update_follow.
  destruct (existsb _ (follows d)); [exact H|].
  destruct (_ || _) eqn:Euq; [exact H|].
  destruct (negb (forallb _ _)) eqn:Efk; [exact H|].
  apply orb_false_iff in Euq as [E1 E2].
  apply negb_false_iff, bool_decide_eq_true in E1, E2.
  apply negb_false_iff in Efk.
  constructor; cbn [fst follows with_follows profiles chats messages
                    message_reactions feed]; try apply H.
  - exact E1.
  - exact E2.
  - intros f Hf. rewrite forallb_forall in Efk.
    apply list_elem_of_In, Efk, andb_true_iff in Hf. exact Hf.
Qed.

Lemma db_ok_insert_chat auth u1 u2 d :
  db_ok d -> db_ok (insert_chat auth u1 u2 d).1.
Proof.
  intros H. unfold insert_chat.
  destruct (negb _); [exact H|].
  destruct u1 as [a|]; [|exact H]. destruct u2 as [b|]; [|exact H].
  destruct (negb (uuid_lt a b)) eqn:Elt; [exact H|].
  destruct (chat_exists d _) eqn:Epk; [exact H|].
  destruct (chat_pair_taken d a b) eqn:Epair; [exact H|].
  destruct (negb (_ && _)) eqn:Efk; [exact H|].
  apply negb_false_iff in Elt.
  apply negb_false_iff, andb_true_iff in Efk as [Ha Hb].
  constructor; simpl; try apply H.
  - apply NoDup_snoc_key; [apply H|]. simpl. by apply fresh_key.
  - apply NoDup_snoc_key; [apply H|]. simpl.
    intros Hin. apply list_elem_of_fmap in Hin as (c & Hc & Hin).
    pose proof (existsb_false_elem _ _ Epair c Hin) as E. simpl in E.
    unfold chat_pair in Hc. inversion Hc as [[H1 H2]].
    rewrite <- H1, <- H2, !bool_decide_eq_true_2 in E by reflexivity. discriminate.
  - intros c Hc. apply elem_of_app in Hc as [Hc|Hc]; [by apply H|].
    apply list_elem_of_singleton in Hc as ->. exact Elt.
  - intros c Hc. apply elem_of_app in Hc as [Hc|Hc]; [by apply H|].
    apply list_elem_of_singleton in Hc as ->. simpl. auto.
Qed.

Lemma db_ok_insert_message auth chat sender body media d :
  db_ok d -> db_ok (insert_message auth chat sender body media d).1.
Proof.
  intros H. unfold insert_message.
  destruct (negb _); [exact H|].
  destruct sender as [s|]; [|exact H].
  destruct (message_exists d _) eqn:Epk; [exact H|].
  destruct (negb (_ && _)) eqn:Efk; [exact H|].
  destruct (negb (storable body)); [exact H|].
  pose proof (fresh_key m_id _ _ Epk) as Hfresh.
  constructor; simpl; try apply H.
  - apply NoDup_snoc_key; [apply H|]. exact Hfresh.
  - intros m Hm. apply elem_of_app in Hm as [Hm|Hm].
    + apply elem_of_app. left. by apply H.
    + apply list_elem_of_singleton in Hm. inversion Hm; subst.
      apply elem_of_app. right. by apply list_elem_of_singleton.
  - rewrite omap_app. simpl. apply NoDup_app. split; [apply H|].
    split; [|apply NoDup_singleton].
    intros x Hx Hx'. apply list_elem_of_singleton in Hx' as ->.
    apply list_elem_of_omap in Hx as (ev & Hev & Hid).
    destruct ev as [m| |]; simpl in Hid; try discriminate.
    inversion Hid as [Hid']. apply Hfresh. rewrite <- Hid'.
    apply list_elem_of_fmap. exists m. split; [reflexivity|]. by apply H.
Qed.

Lemma db_ok_insert_reaction auth msg user e d :
  db_ok d -> db_ok (insert_reaction auth msg user e d).1.
Proof.
  intros H. unfold insert_reaction.
  destruct (negb _); [exact H|].
  destruct (existsb _ _) eqn:Epk; [exact H|].
  destruct (reaction_taken d msg user e) eqn:Etaken; [exact H|].
  destruct (negb (_ && _)) eqn:Efk; [exact H|].
  destruct (negb (storable e)); [exact H|].
  constructor; simpl; try apply H.
  - apply NoDup_snoc_key; [apply H|]. simpl. by apply fresh_key.
  - apply NoDup_snoc_key; [apply H|]. simpl.
    intros Hin. apply list_elem_of_fmap in Hin as (r & Hr & Hin).
    pose proof (existsb_false_elem _ _ Etaken r Hin) as E. simpl in E.
    unfold reaction_triple in Hr. inversion Hr as [[H1 H2 H3]].
    rewrite <- H1, <- H2, <- H3, !bool_decide_eq_true_2 in E by reflexivity.
    discriminate.
  - intros m Hm. apply elem_of_app in Hm as [Hm|Hm]; [by apply H|].
    apply list_elem_of_singleton in Hm. discriminate.
  - rewrite omap_app. simpl. rewrite app_nil_r. apply H.
Qed.

Lemma db_ok_delete_reaction auth id d :
  db_ok d -> db_ok (delete_reaction auth id d).1.
Proof.
  intros H. unfold delete_reaction.
  constructor; simpl; try apply H.
  - apply NoDup_filter_key, H.
  - apply NoDup_filter_key, H.
  - intros m Hm. apply elem_of_app in Hm as [Hm|Hm]; [by apply H|].
    apply list_elem_of_fmap in Hm as (r & Hr & _). discriminate.
  - rewrite omap_app, omap_deletes, app_nil_r. apply H.
Qed.

Lemma db_ok_upload auth p d : db_ok d -> db_ok (upload auth p d).1.
Proof.
  intros H. unfold upload.
  destruct (negb _); [exact H|]. destruct (negb _); [exact H|].
  destruct (bool_decide _); [exact H|].
  constructor; simpl; apply H.
Qed.

Lemma db_ok_handle_new_user p d : db_ok d -> db_ok (handle_new_user p d).1.
Proof.
  intros H. unfold handle_new_user.
  destruct (profile_exists d _); [exact H|]. destruct (existsb _ _); [exact H|].
  constructor; simpl; try apply H.
  - intros f Hf. destruct (follows_fkey _ H f Hf) as [Ha Hb].
    split; by apply profile_exists_snoc.
  - intros c Hc. destruct (chats_fkey _ H c Hc) as [Ha Hb].
    split; by apply profile_exists_snoc.
Qed.

Lemma profile_exists_map (h : profile_row -> profile_row) d u :
  (forall p, p_id (h p) = p_id p) ->
  profile_exists (with_profiles (map h (profiles d)) d) u = profile_exists d u.
Proof.
  intros Hh. unfold profile_exists. cbn.
  induction (profiles d) as [|p l IH]; cbn; [reflexivity|].
  by rewrite Hh, IH.
Qed.

Lemma db_ok_insert_profile auth p d : db_ok d -> db_ok (insert_profile auth p d).1.
Proof.
  intros H. unfold insert_profile.
  destruct (negb (_ && _ && _)); [exact H|]. destruct (negb _); [exact H|].
  by apply db_ok_handle_new_user.
Qed.

Lemma db_ok_update_profile auth id username full_name avatar_url d :
  db_ok d -> db_ok (update_profile auth id username full_name avatar_url d).1.
Proof.
  intros H. unfold update_profile.
  destruct id as [i|]; [|exact H].
  destruct (negb (_ && _ && _)); [exact H|].
  destruct (negb (existsb _ _)); [exact H|].
  destruct (existsb _ _); [exact H|].
  assert (forall u,
    profile_exists
      (with_profiles
         (map (fun p => if bool_decide (p_id p = i) && profiles_update_policy auth p
                        then patch_profile username full_name avatar_url p
                        else p) (profiles d)) d) u
    = profile_exists d u) as Hex.
  { intros u. apply profile_exists_map. intros p. by destruct (_ && _). }
  constructor; cbn [fst]; try apply H.
  - intros f Hf. rewrite !Hex. by apply H.
  - intros c Hc. rewrite !Hex. by apply H.
Qed.

Lemma db_ok_serve {X} (q : request X) auth d :
  db_ok d -> db_ok (serve q auth d).1.
Proof.
  intros H. destruct q; simpl; try exact H.
  - by apply db_ok_insert_follow.
  - by apply db_ok_update_follow_status.
  - by apply db_ok_update_follow.
  - by apply db_ok_insert_chat.
  - by apply db_ok_insert_message.
  - by apply db_ok_insert_reaction.
  - by apply db_ok_delete_reaction.
  - by apply db_ok_upload.
  - by apply db_ok_handle_new_user.
  - by apply db_ok_insert_profile.
  - by apply db_ok_update_profile.
Qed.

Lemma exec_serve {X} (q : request X) auth d :
  exec q auth d = (advance (serve q auth d).1, (serve q auth d).2).
Proof. unfold exec. by destruct (serve q auth d). Qed.

Lemma db_ok_exec {X} (q : request X) auth d :
  db_ok d -> db_ok (exec q auth d).1.
Proof.
  intros H. rewrite exec_serve. simpl. by apply db_ok_advance, db_ok_serve.
Qed.

Lemma db_ok_step {S R} (p : prog S R) auth s d :
  db_ok d -> db_ok (step p auth s d).1.2.
Proof.
  intros H. unfold step. destruct (settle p s) as [s1 [r|f k|X q k]]; simpl; auto.
  pose proof (db_ok_exec q auth d H) as H'.
  destruct (exec q auth d) as [d' r]. destruct (settle (k r) s1). exact H'.
Qed.

Lemma db_ok_run {S R} (p : prog S R) auth s d :
  db_ok d -> db_ok (run p auth s d).1.2.
Proof.
  revert s d. induction p as [r|f k IH|X q k IH]; intros s d H; simpl; auto.
  pose proof (db_ok_exec q auth d H) as H'.
  destruct (exec q auth d) as [d' r]. by apply IH.
Qed.

Lemma db_ok_act a w : db_ok w.1 -> db_ok (act a w).1.
Proof.
  destruct w as [d cs]. simpl. intros H.
  destruct a as [i h|i j|i|i|auth X q]; simpl.
  - by destruct (cs !! i).
  - destruct (cs !! i) as [c|]; [|exact H].
    destruct (tasks c !! j) as [p|]; [|exact H].
    pose proof (db_ok_step p (session c) (ui c) d H) as H'.
    by destruct (step p (session c) (ui c) d) as [[s' d'] p'].
  - by destruct (cs !! i).
  - by destruct (cs !! i).
  - by apply db_ok_exec.
Qed.

Lemma db_ok_play schedule w : db_ok w.1 -> db_ok (play schedule w).1.
Proof.
  revert w. induction schedule as [|a l IH]; intros w H; simpl; [exact H|].
  apply IH. by apply db_ok_act.
Qed.

(** ** C1: one conversation per pair *)

Lemma between_same_pair a b c c' :
  uuid_lt (user1_id c) (user2_id c) = true ->
  uuid_lt (user1_id c') (user2_id c') = true ->
  between a b c = true -> between a b c' = true ->
  chat_pair c = chat_pair c'.
Proof.
  unfold between, chat_pair. intros Hc Hc' H H'.
  apply orb_true_iff in H as [H|H]; apply andb_true_iff in H as [H1 H2];
  apply bool_decide_eq_true in H1, H2;
  apply orb_true_iff in H' as [H'|H']; apply andb_true_iff in H' as [H1' H2'];
  apply bool_decide_eq_true in H1', H2'; try congruence.
  - rewrite H1, H2 in Hc. rewrite H1', H2' in Hc'.
    apply uuid_lt_asym in Hc. congruence.
  - rewrite H1, H2 in Hc. rewrite H1', H2' in Hc'.
    apply uuid_lt_asym in Hc. congruence.
Qed.

Lemma at_most_one_between a b (l : list chat_row) :
  NoDup (map chat_pair l) ->
  (forall c, c ∈ l -> uuid_lt (user1_id c) (user2_id c) = true) ->
  length (List.filter (between a b) l) <= 1.
Proof.
  induction l as [|c l IH]; intros Hnd Hlt; simpl; [lia|].
  apply NoDup_cons in Hnd as [Hc Hnd].
  assert (forall c', c' ∈ l -> uuid_lt (user1_id c') (user2_id c') = true) as Hlt'
    by (intros c' Hc'; apply Hlt; by right).
  destruct (between a b c) eqn:E; [|by apply IH].
  assert (List.filter (between a b) l = []) as ->; [|simpl; lia].
  destruct (List.filter (between a b) l) as [|c' l'] eqn:El; [reflexivity|].
  assert (c' ∈ List.filter (between a b) l) as Hin by (rewrite El; by left).
  apply elem_of_filter_bool in Hin as [Hin Hb].
  exfalso. apply Hc.
  rewrite (between_same_pair a b c c'); auto.
  - by apply list_elem_of_fmap_2.
  - apply Hlt. by left.
Qed.

Lemma db_ok_conversations d a b :
  db_ok d -> length (conversations d a b) <= 1.
Proof.
  intros H. apply at_most_one_between; apply H.
Qed.


Lemma db_ok_town : db_ok town.
Proof.
  constructor; simpl; try apply NoDup_nil_2; intros ? H; by apply elem_of_nil in H.
Qed.

Lemma db_ok_befriended : db_ok befriended.
Proof. unfold befriended. do 2 apply db_ok_exec. exact db_ok_town. Qed.


Example first_contact_race_rows :
  map chat_pair (chats (play first_contact_race (befriended, both_pages)).1)
  = [(alice, bob)].
Proof. vm_compute. reflexivity. Qed.

(** C1. Starting from the empty database, whatever the clients do and in
    whatever order their requests reach the database (sign-ups, follow
    requests, the two sides opening the chat page at once, ...), there
    is at most one chat row between any two users, whichever of them
    comes first in the question, and every row has
    [user1_id < user2_id]. Both sides look up and insert the same
    sorted pair. *)
Theorem one_conversation_per_pair (gen : nat -> uuid) (clk : nat -> N)
    (cs : list client) (schedule : list action) :
  let d' := (play schedule (empty_db gen clk, cs)).1 in
  (forall a b, length (conversations d' a b) <= 1) /\
  (forall a b, conversations d' a b = conversations d' b a) /\
  (forall c, c ∈ chats d' -> uuid_lt (user1_id c) (user2_id c) = true) /\
  (forall a b, a <> b ->
     sort_pair (Some a) (Some b) = sort_pair (Some b) (Some a)).
Proof.
  intros d'.
  assert (db_ok d') as H'
    by (apply (db_ok_play schedule (empty_db gen clk, cs)), db_ok_empty).
  split; [|split; [|split]].
  - intros a b. by apply db_ok_conversations.
  - intros a b. unfold conversations. apply filter_ext. intros c.
    unfold between. apply orb_comm.
  - apply H'.
  - apply sort_pair_comm.
Qed.

(** ** C2: what happens when an insert loses a race *)






Lemma db_ok_requested : db_ok requested.
Proof. apply db_ok_run, db_ok_town. Qed.

Lemma db_ok_chatting : db_ok chatting.
Proof. apply db_ok_run, db_ok_requested. Qed.

Lemma db_ok_reacted : db_ok reacted.
Proof. apply db_ok_run, db_ok_chatting. Qed.


(** ** Fresh identifiers *)

Lemma key_absent {A} (g : A -> uuid) (v : uuid) (l : list A) :
  v ∉ map g l -> existsb (fun r => bool_decide (g r = v)) l = false.
Proof.
  intros Hv. destruct (existsb _ l) eqn:E; [|reflexivity].
  apply existsb_true_elem in E as (r & Hr & Hb).
  apply bool_decide_eq_true in Hb. exfalso. apply Hv. rewrite <- Hb.
  by apply list_elem_of_fmap_2.
Qed.

Lemma fresh_ids_spec d n :
  fresh_ids d -> tick d <= n ->
  existsb (fun f => bool_decide (f_id f = gen_random_uuid d n)) (follows d) = false /\
  chat_exists d (gen_random_uuid d n) = false /\
  message_exists d (gen_random_uuid d n) = false /\
  existsb (fun r => bool_decide (r_id r = gen_random_uuid d n))
          (message_reactions d) = false.
Proof.
  intros H Hn. specialize (H n Hn). unfold ids_in_use in H.
  rewrite !elem_of_app in H.
  repeat split; apply key_absent; tauto.
Qed.

Lemma row_id_inj n m : row_id n = row_id m -> n = m.
Proof.
  unfold row_id. simpl. intros [= H]. exact (pretty_nat_inj _ _ H).
Qed.

(** A database whose ids all came from [row_id] at earlier ticks. *)
Lemma fresh_by_rows d :
  gen_random_uuid d = row_id ->
  forallb (fun id => bool_decide (id ∈ map row_id (seq 0 (tick d))))
          (ids_in_use d) = true ->
  fresh_ids d.
Proof.
  intros Hgen Hall n Hn Hin. rewrite Hgen in Hin.
  rewrite forallb_forall in Hall. apply list_elem_of_In, Hall in Hin.
  apply bool_decide_eq_true in Hin.
  apply list_elem_of_fmap in Hin as (m & Hm & Hseq).
  apply row_id_inj in Hm. subst m. apply elem_of_seq in Hseq. lia.
Qed.

(** ** C3: accepting a follow request *)

Lemma find_by_key {A} `{EqDecision K} (g : A -> K) (l : list A) (x : A) :
  NoDup (map g l) -> x ∈ l ->
  List.find (fun r => bool_decide (g r = g x)) l = Some x.
Proof.
  induction l as [|y l IH]; intros Hnd Hx; [by apply elem_of_nil in Hx|].
  simpl in *. apply NoDup_cons in Hnd as [Hy Hnd].
  apply elem_of_cons in Hx as [->|Hx].
  - by rewrite bool_decide_eq_true_2.
  - rewrite bool_decide_eq_false_2; [by apply IH|].
    intros E. apply Hy. rewrite E. by apply list_elem_of_fmap_2.
Qed.

Lemma find_map_key {A} `{EqDecision K} (g : A -> K) (h : A -> A) (v : K)
    (l : list A) :
  (forall x, g (h x) = g x) ->
  List.find (fun r => bool_decide (g r = v)) (map h l)
  = h <$> List.find (fun r => bool_decide (g r = v)) l.
Proof.
  intros Hg. induction l as [|y l IH]; simpl; [reflexivity|].
  rewrite Hg. by destruct (bool_decide (g y = v)).
Qed.

Lemma unique_key {A K} (g : A -> K) (l : list A) (x y : A) :
  NoDup (map g l) -> x ∈ l -> y ∈ l -> g x = g y -> x = y.
Proof.
  induction l as [|z l IH]; intros Hnd Hx Hy E; [by apply elem_of_nil in Hx|].
  simpl in Hnd. apply NoDup_cons in Hnd as [Hz Hnd].
  apply elem_of_cons in Hx as [->|Hx]; apply elem_of_cons in Hy as [->|Hy]; auto.
  - exfalso. apply Hz. rewrite E. by apply list_elem_of_fmap_2.
  - exfalso. apply Hz. rewrite <- E. by apply list_elem_of_fmap_2.
Qed.

(** An update by anybody but the followee matches no row. *)
Lemma update_by_stranger auth edge st d :
  db_ok d -> edge ∈ follows d -> auth <> Some (following_id edge) ->
  follows (update_follow_status auth (f_id edge) st d).1 = follows d.
Proof.
  intros Hok Hin Hauth. unfold update_follow_status. simpl.
  rewrite <- (map_id (follows d)) at 2. apply map_ext_in. intros f Hf.
  apply list_elem_of_In in Hf.
  destruct (bool_decide (f_id f = f_id edge)) eqn:E; [|reflexivity].
  apply bool_decide_eq_true in E.
  rewrite (unique_key f_id _ f edge (follows_pkey _ Hok) Hf Hin E).
  unfold follows_update_policy, auth_is. destruct auth as [a|]; [|reflexivity].
  rewrite bool_decide_eq_false_2; [reflexivity|congruence].
Qed.

(** An update by the followee sets the status of that edge. *)
Lemma update_by_followee edge st d :
  db_ok d -> edge ∈ follows d ->
  edge_status (update_follow_status (Some (following_id edge)) (f_id edge) st d).1
              (f_id edge) = Some st.
Proof.
  intros Hok Hin. unfold edge_status, update_follow_status. simpl.
  rewrite (find_map_key f_id); [|intros f; by destruct (_ && _)].
  rewrite (find_by_key f_id _ edge (follows_pkey _ Hok) Hin). simpl.
  unfold follows_update_policy, auth_is.
  by rewrite !bool_decide_eq_true_2.
Qed.

Lemma between_sorted u v x y c :
  u <> v -> uuid_lt x y = true ->
  ((x = u /\ y = v) \/ (x = v /\ y = u)) ->
  uuid_lt (user1_id c) (user2_id c) = true ->
  chats_select_policy (Some u) c && sql_eq (Some (user1_id c)) (Some x) &&
    sql_eq (Some (user2_id c)) (Some y) = between u v c.
Proof.
  intros Hne Hlt Hxy Hc.
  unfold chats_select_policy, chat_participant, auth_is, sql_eq, between.
  destruct Hxy as [[-> ->]|[-> ->]];
  repeat case_bool_decide; simpl; subst; try reflexivity; try congruence;
  apply uuid_lt_asym in Hlt; congruence.
Qed.

Lemma select_chat_conversations d u v x y :
  db_ok d -> u <> v -> sort_pair (Some u) (Some v) = (Some x, Some y) ->
  select_chat (Some u) (Some x) (Some y) d = single (map c_id (conversations d u v)).
Proof.
  intros Hok Hne Hs.
  destruct (sort_pair_lt u v Hne) as (x' & y' & Hs' & Hlt & Hxy).
  rewrite Hs in Hs'. inversion Hs'; subst x' y'.
  unfold select_chat, conversations. do 2 f_equal.
  apply filter_ext_in. intros c Hc. apply list_elem_of_In in Hc.
  apply between_sorted; auto. by apply Hok.
Qed.

Lemma pair_free d u v x y :
  ((x = u /\ y = v) \/ (x = v /\ y = u)) ->
  conversations d u v = [] -> chat_pair_taken d x y = false.
Proof.
  intros Hxy Hnone. destruct (chat_pair_taken d x y) eqn:E; [|reflexivity].
  apply existsb_true_elem in E as (c & Hc & Hb).
  apply andb_true_iff in Hb as [H1 H2]. apply bool_decide_eq_true in H1, H2.
  assert (c ∈ conversations d u v) as Hin.
  { apply elem_of_filter_bool. split; [exact Hc|]. unfold between.
    destruct Hxy as [[<- <-]|[<- <-]]; subst x y;
      repeat case_bool_decide; simpl; try reflexivity; congruence. }
  rewrite Hnone in Hin. by apply elem_of_nil in Hin.
Qed.

Lemma insert_chat_ok auth x y d :
  chats_insert_policy auth (Some x) (Some y) = true ->
  uuid_lt x y = true ->
  chat_exists d (new_uuid d) = false ->
  chat_pair_taken d x y = false ->
  profile_exists d x = true -> profile_exists d y = true ->
  insert_chat auth (Some x) (Some y) d
  = (with_chats (chats d ++ [{| c_id := new_uuid d; user1_id := x; user2_id := y;
                                c_created_at := now_ d |}]) d,
     Ok (new_uuid d)).
Proof.
  intros Hp Hlt Hpk Hpair Hx Hy. unfold insert_chat.
  by rewrite Hp, Hlt, Hpk, Hpair, Hx, Hy.
Qed.

Lemma insert_message_ok u chat body media d :
  in_own_chat d (Some u) chat = true ->
  message_exists d (new_uuid d) = false ->
  profile_exists d u = true ->
  storable body = true ->
  insert_message (Some u) chat (Some u) body media d
  = (let row := {| m_id := new_uuid d; chat_id := chat; sender_id := u;
                   content := body; media_url := media;
                   m_created_at := now_ d |} in
     with_messages (messages d ++ [row]) [MessageInsert row] d, Ok tt).
Proof.
  intros Hown Hpk Hu Hbody. unfold insert_message, messages_insert_policy, sql_eq.
  rewrite bool_decide_eq_true_2 by reflexivity. rewrite Hown, Hpk, Hu, Hbody. simpl.
  assert (chat_exists d chat = true) as ->; [|reflexivity].
  apply existsb_true_elem in Hown as (c & Hc & Hb).
  apply andb_true_iff in Hb as [Hb _].
  by apply (elem_existsb _ _ c Hc).
Qed.

Lemma in_own_chat_row d u c :
  c ∈ chats d -> chat_participant (Some u) c = true ->
  in_own_chat d (Some u) (c_id c) = true.
Proof.
  intros Hc Hp. apply (elem_existsb _ _ c Hc).
  by rewrite bool_decide_eq_true_2, Hp.
Qed.

Lemma between_participant u v c :
  between u v c = true -> chat_participant (Some u) c = true.
Proof.
  unfold between, chat_participant, auth_is. intros H.
  apply orb_true_iff in H as [H|H]; apply andb_true_iff in H as [H1 H2];
  apply bool_decide_eq_true in H1, H2; subst;
  repeat case_bool_decide; simpl; try reflexivity; congruence.
Qed.

Lemma conversations_same d d' a b :
  chats d' = chats d -> conversations d' a b = conversations d a b.
Proof. unfold conversations. by intros ->. Qed.

Lemma conversations_snoc d d' c a b :
  chats d' = chats d ++ [c] ->
  conversations d' a b
  = conversations d a b ++ (if between a b c then [c] else []).
Proof. unfold conversations. intros ->. by rewrite List.filter_app. Qed.

Lemma reads_follows_exec {X} (q : request X) auth d :
  reads_follows q -> follows (exec q auth d).1 = follows d.
Proof.
  intros Hq. rewrite exec_serve. simpl.
  destruct q; simpl in *; try reflexivity; try contradiction.
  - unfold insert_chat. repeat case_match; reflexivity.
  - unfold insert_message. repeat case_match; reflexivity.
  - unfold insert_reaction. repeat case_match; reflexivity.
  - unfold upload. repeat case_match; reflexivity.
  - unfold handle_new_user. repeat case_match; reflexivity.
  - unfold insert_profile, handle_new_user. repeat case_match; reflexivity.
  - unfold update_profile. repeat case_match; reflexivity.
Qed.

Lemma run_reads_follows {S R} (p : prog S R) auth s d :
  every_request (@reads_follows) p ->
  follows (run p auth s d).1.2 = follows d.
Proof.
  revert s d. induction p as [r|f k IH|X q k IH]; intros s d Hp; simpl in *.
  - reflexivity.
  - by apply IH.
  - destruct Hp as [Hq Hk]. pose proof (reads_follows_exec q auth d Hq) as E.
    destruct (exec q auth d) as [d' r]. simpl in E. rewrite <- E. by apply IH.
Qed.

(** C3. Only the followee of an edge changes it: [handleAccept] and
    [handleReject] run by anybody else leave the [follows] table as it
    was. Run by the followee, [handleAccept] sets the edge to accepted,
    leaves exactly one conversation between the two users (the one
    that existed, or else a new row), and appends exactly one message
    to [messages]: the welcome text, in that conversation. *)
Theorem accept_materializes_conversation (d : db) (edge : follow_row)
    (s : Requests.state) :
  db_ok d -> fresh_ids d ->
  edge ∈ follows d ->
  follower_id edge <> following_id edge ->
  let followee := following_id edge in
  let follower := follower_id edge in
  (forall user, user <> Some followee ->
     follows (run (Requests.handleAccept user (f_id edge) follower s) user s d).1.2
       = follows d /\
     follows (run (Requests.handleReject (f_id edge) s) user s d).1.2
       = follows d) /\
  (let '(s', d', _) :=
     run (Requests.handleAccept (Some followee) (f_id edge) follower s)
         (Some followee) s d in
   edge_status d' (f_id edge) = Some accepted /\
   exists c m,
     conversations d' followee follower = [c] /\
     chats d' = match conversations d followee follower with
                | [] => chats d ++ [c]
                | _ => chats d
                end /\
     messages d' = messages d ++ [m] /\
     chat_id m = c_id c /\ sender_id m = followee /\
     content m = Requests.welcome /\ media_url m = None /\
     Requests.toasts s' = Requests.toasts s ++
       [toast_success "Follow request accepted! You can now chat."]).
Proof.
  intros Hok Hfresh Hin Hne followee follower. split.
  - intros user Huser. split.
    + unfold Requests.handleAccept. cbn [run]. rewrite exec_serve. cbn [serve fst snd].
      rewrite run_reads_follows.
      * cbn. by apply update_by_stranger.
      * unfold update_follow_status. cbn. split; [exact I|].
        intros [c|e]; cbn; repeat split; try exact I; intros [?|?]; cbn;
          repeat split; try exact I; intros [?|?]; cbn; exact I.
    + unfold Requests.handleReject. cbn [run]. rewrite exec_serve. cbn [serve fst snd].
      rewrite run_reads_follows.
      * cbn. by apply update_by_stranger.
      * unfold update_follow_status. cbn. exact I.
  - destruct (sort_pair_lt followee follower (not_eq_sym Hne))
      as (x & y & Hs & Hlt & Hxy).
    destruct (follows_fkey _ Hok edge Hin) as [Hpr Hpe].
    fold follower in Hpr. fold followee in Hpe.
    assert (profile_exists d x = true /\ profile_exists d y = true) as [Hpx Hpy]
      by (destruct Hxy as [[-> ->]|[-> ->]]; auto).
    assert (chats_insert_policy (Some followee) (Some x) (Some y) = true) as Hpol.
    { unfold chats_insert_policy, sql_eq.
      destruct Hxy as [[-> ->]|[-> ->]];
        repeat case_bool_decide; simpl; try reflexivity; congruence. }
    pose proof (update_by_followee edge accepted d Hok Hin) as Hst.
    fold followee in Hst.
    unfold Requests.handleAccept. cbn [run]. rewrite exec_serve. cbn [serve fst snd].
    change (update_follow_status (Some followee) (f_id edge) accepted d).2
      with (@Ok unit tt).
    set (d0 := (update_follow_status (Some followee) (f_id edge) accepted d).1) in *.
    assert (db_ok d0) as Hok0 by (by apply db_ok_update_follow_status).
    rewrite Hs. cbn [fst snd run]. rewrite exec_serve. cbn [serve fst snd].
    assert (select_chat (Some followee) (Some x) (Some y) (advance d0)
            = single (map c_id (conversations d followee follower))) as ->.
    { rewrite <- (select_chat_conversations d followee follower x y Hok
                    (not_eq_sym Hne) Hs). reflexivity. }
    pose proof (db_ok_conversations d followee follower Hok) as Hle.
    destruct (fresh_ids_spec d (2 + tick d) Hfresh) as (_ & Hc2 & Hm2 & _); [lia|].
    destruct (fresh_ids_spec d (3 + tick d) Hfresh) as (_ & _ & Hm3 & _); [lia|].
    destruct (conversations d followee follower) as [|c [|c' l]] eqn:Econv;
      [ | |simpl in Hle; lia].
    + cbn [single map run]. rewrite exec_serve. cbn [serve fst snd].
      rewrite insert_chat_ok; auto; [|by apply (pair_free d followee follower)].
      remember {| c_id := new_uuid (advance (advance d0)); user1_id := x;
                  user2_id := y; c_created_at := now_ (advance (advance d0)) |}
        as row eqn:Erow.
      assert (between followee follower row = true) as Hbetween.
      { rewrite Erow. unfold between. cbn [user1_id user2_id].
        destruct Hxy as [[-> ->]|[-> ->]];
          repeat case_bool_decide; simpl; try reflexivity; congruence. }
      cbn [fst snd run]. rewrite exec_serve. cbn [serve fst snd].
      assert (new_uuid (advance (advance d0)) = c_id row) as -> by (by rewrite Erow).
      rewrite insert_message_ok; auto.
      * cbn. split; [exact Hst|]. exists row. eexists.
        split; [|repeat split; reflexivity].
        erewrite (conversations_snoc d) by reflexivity.
        by rewrite Econv, Hbetween.
      * apply in_own_chat_row.
        -- cbn. apply elem_of_app. right. by apply list_elem_of_singleton.
        -- by apply (between_participant followee follower).
    + assert (c ∈ conversations d followee follower) as Hcin
        by (rewrite Econv; by left).
      apply elem_of_filter_bool in Hcin as [Hcin Hb].
      cbn [single map run]. rewrite exec_serve. cbn [serve fst snd].
      rewrite insert_message_ok; auto.
      * cbn. split; [exact Hst|]. exists c. eexists.
        split; [|repeat split; reflexivity].
        rewrite <- Econv. by apply (conversations_same d).
      * apply (in_own_chat_row (advance (advance d0)) followee c Hcin).
        by apply (between_participant followee follower).
Qed.

Lemma fresh_requested : fresh_ids requested.
Proof. apply fresh_by_rows; vm_compute; reflexivity. Qed.

Lemma accept_materializes_conversation_witness :
  let edge := {| f_id := row_id 0; follower_id := alice; following_id := bob;
                 f_status := pending; f_created_at := clock 0;
                 f_updated_at := clock 0 |} in
  let '(s', d', _) :=
    run (Requests.handleAccept (Some bob) (row_id 0) alice Requests.initial)
        (Some bob) Requests.initial requested in
  edge_status d' (row_id 0) = Some accepted /\
  exists c m,
    conversations d' bob alice = [c] /\
    chats d' = match conversations requested bob alice with
               | [] => chats requested ++ [c]
               | _ => chats requested
               end /\
    messages d' = messages requested ++ [m] /\
    chat_id m = c_id c /\ sender_id m = bob /\
    content m = Requests.welcome /\ media_url m = None /\
    Requests.toasts s' = Requests.toasts Requests.initial ++
      [toast_success "Follow request accepted! You can now chat."].
Proof.
  intros edge.
  apply (accept_materializes_conversation requested edge Requests.initial).
  - exact db_ok_requested.
  - exact fresh_requested.
  - vm_compute. by left.
  - discriminate.
Defined.

(** ** C4: who may send *)

(** After bob has turned the accepted edge to rejected, alice is no
    longer connected to him, and her message is stored all the same. *)
Lemma send_ignores_follow_edge :
  let '(s', d', _) :=
    run (Chat.handleSendMessage (Some alice) 0 hello_page)
        (Some alice) hello_page fallen_out in
  edge_status fallen_out (row_id 0) = Some rejected /\
  isConnected fallen_out (Some alice) alice bob = false /\
  isConnected fallen_out (Some bob) alice bob = false /\
  map content (messages d') = [Requests.welcome; text_of_ascii "hello"] /\
  map sender_id (messages d') = [bob; alice] /\
  Chat.toasts s' = [].
Proof. vm_compute. repeat split; reflexivity. Qed.

Lemma stranger_not_in_own_chat d auth chat :
  (forall c, c ∈ chats d -> c_id c = chat -> chat_participant auth c = false) ->
  in_own_chat d auth chat = false.
Proof.
  intros H. destruct (in_own_chat d auth chat) eqn:E; [|reflexivity].
  apply existsb_true_elem in E as (c & Hc & Hb).
  apply andb_true_iff in Hb as [H1 H2]. apply bool_decide_eq_true in H1.
  rewrite (H c Hc H1) in H2. discriminate.
Qed.

Lemma stranger_upload d auth p :
  (forall c, c ∈ chats d -> c_id c = sp_folder p -> chat_participant auth c = false) ->
  upload auth p d = (d, Err storage_denied).
Proof.
  intros H. unfold upload.
  assert (storage_insert_policy d auth p = false) as ->; [|reflexivity].
  destruct (storage_insert_policy d auth p) eqn:E; [|reflexivity].
  apply existsb_true_elem in E as (c & Hc & Hb).
  apply andb_true_iff in Hb as [H1 H2]. apply bool_decide_eq_true in H2.
  rewrite (H c Hc (eq_sym H2)) in H1. discriminate.
Qed.

(** C4 (as the code has it). The check at write time is the insert
    policy of [messages]: the caller is the sender and a participant
    (user1 or user2) of the conversation row. Somebody who is not, or
    who is not signed in, gets a row-level-security error, no row is
    written and nothing goes to the feed; [handleSendMessage] then
    shows "Failed to send message". The follow edges are not looked
    at: a stored message only tells that its sender is in the row. *)
Theorem send_checks_participation (d : db) (chat : uuid) (stranger : option uuid) :
  (forall c, c ∈ chats d -> c_id c = chat -> chat_participant stranger c = false) ->
  (forall sender body media,
     insert_message stranger chat sender body media d = (d, Err rls_violation)) /\
  (forall now s,
     Chat.chatId s = Some chat ->
     let '(s', d', _) := run (Chat.handleSendMessage stranger now s) stranger s d in
     messages d' = messages d /\ feed d' = feed d /\
     (Chat.sending s = false ->
      truthy (trim (Chat.newMessage s)) = true \/ is_Some (Chat.selectedFile s) ->
      Chat.toasts s' = Chat.toasts s ++ [toast_error "Failed to send message"])) /\
  (forall auth sender body media d',
     insert_message auth chat sender body media d = (d', Ok tt) ->
     exists u c, auth = Some u /\ sender = Some u /\ c ∈ chats d /\ c_id c = chat /\
                 (user1_id c = u \/ user2_id c = u)) /\
  (forall auth sender body media edges,
     messages (insert_message auth chat sender body media (with_follows edges d)).1
     = messages (insert_message auth chat sender body media d).1).
Proof.
  intros Hs. pose proof (stranger_not_in_own_chat d stranger chat Hs) as Hown.
  assert (forall sender body media,
            insert_message stranger chat sender body media d = (d, Err rls_violation))
    as Hrej.
  { intros. unfold insert_message, messages_insert_policy.
    by rewrite Hown, andb_false_r. }
  split; [exact Hrej|]. split; [|split].
  - intros now s Hchat. unfold Chat.handleSendMessage. rewrite Hchat.
    destruct (_ || _ || _) eqn:Eguard; [cbn; split; [|split]; try reflexivity|].
    + intros Hsend Hsome. exfalso.
      rewrite Hsend, orb_false_r in Eguard. cbn in Eguard.
      rewrite orb_false_r in Eguard. apply andb_true_iff in Eguard as [H1 H2].
      apply negb_true_iff in H1. apply negb_true_iff, bool_decide_eq_false in H2.
      destruct Hsome; congruence.
    + destruct (Chat.selectedFile s) as [f|] eqn:Efile; cbn [run].
      * rewrite exec_serve. cbn [serve fst snd].
        rewrite stranger_upload by exact Hs. cbn. auto.
      * rewrite exec_serve. cbn [serve fst snd]. rewrite Hrej. cbn. auto.
  - intros auth sender body media d' Hins. unfold insert_message in Hins.
    destruct (messages_insert_policy d auth chat sender) eqn:Epol;
      [|simpl in Hins; congruence].
    apply andb_true_iff in Epol as [Heq Hin].
    unfold sql_eq in Heq. destruct auth as [u|], sender as [u'|]; try discriminate.
    apply bool_decide_eq_true in Heq. subst u'.
    apply existsb_true_elem in Hin as (c & Hc & Hb).
    apply andb_true_iff in Hb as [H1 H2]. apply bool_decide_eq_true in H1.
    exists u, c. do 4 (split; [done|]).
    unfold chat_participant, auth_is in H2.
    apply orb_true_iff in H2 as [H2|H2]; apply bool_decide_eq_true in H2; auto.
  - intros. unfold insert_message.
    change (messages_insert_policy (with_follows edges d) auth chat sender)
      with (messages_insert_policy d auth chat sender).
    change (message_exists (with_follows edges d)) with (message_exists d).
    change (chat_exists (with_follows edges d)) with (chat_exists d).
    change (profile_exists (with_follows edges d)) with (profile_exists d).
    change (new_uuid (with_follows edges d)) with (new_uuid d).
    change (now_ (with_follows edges d)) with (now_ d).
    destruct (negb (messages_insert_policy d auth chat sender)); [reflexivity|].
    destruct sender as [u|]; [|reflexivity].
    destruct (message_exists d (new_uuid d)); [reflexivity|].
    destruct (negb (chat_exists d chat && profile_exists d u)); [reflexivity|].
    destruct (negb (storable body)); reflexivity.
Qed.

Lemma send_checks_participation_witness :
  (forall sender body media,
     insert_message (Some carol) (row_id 3) sender body media chatting
     = (chatting, Err rls_violation)) /\
  (forall now s,
     Chat.chatId s = Some (row_id 3) ->
     let '(s', d', _) :=
       run (Chat.handleSendMessage (Some carol) now s) (Some carol) s chatting in
     messages d' = messages chatting /\ feed d' = feed chatting /\
     (Chat.sending s = false ->
      truthy (trim (Chat.newMessage s)) = true \/ is_Some (Chat.selectedFile s) ->
      Chat.toasts s' = Chat.toasts s ++ [toast_error "Failed to send message"])) /\
  (forall auth sender body media d',
     insert_message auth (row_id 3) sender body media chatting = (d', Ok tt) ->
     exists u c, auth = Some u /\ sender = Some u /\ c ∈ chats chatting /\
                 c_id c = row_id 3 /\ (user1_id c = u \/ user2_id c = u)) /\
  (forall auth sender body media edges,
     messages (insert_message auth (row_id 3) sender body media
                 (with_follows edges chatting)).1
     = messages (insert_message auth (row_id 3) sender body media chatting).1).
Proof.
  apply (send_checks_participation chatting (row_id 3) (Some carol)).
  intros c Hc _. vm_compute in Hc.
  apply list_elem_of_singleton in Hc. subst c. vm_compute. reflexivity.
Defined.

(** ** C5: the local list of messages *)

(** The callback appends a row that the page already shows: applied
    to a list that holds the row, and on a page whose effect has run
    twice. *)
Lemma insert_event_is_appended_again :
  (let s := Chat.setMessages [welcome_row] alice_page in
   map m_id (Chat.messages (Chat.on_message_insert welcome_row s))
     = [row_id 4; row_id 4]) /\
  (let views :=
     map (fun c => map m_id (Chat.messages (ui c)))
         (play hi_arrives_late (chatting, alice_subscribes)).2 in
   views = [[row_id 4; row_id 7; row_id 7]] /\
   ~ Forall (fun ids => NoDup ids) views).
Proof.
  vm_compute. repeat split; try reflexivity.
  intros H. apply Forall_cons in H as [H _].
  apply NoDup_cons in H as [_ H]. apply NoDup_cons in H as [H _].
  apply H. by left.
Qed.

Lemma select_messages_view auth chat d :
  db_ok d ->
  exists data, select_messages auth chat d = Ok data /\
    NoDup (map m_id data) /\ forall m, m ∈ data -> m ∈ messages d.
Proof.
  intros Hok. unfold select_messages. eexists. split; [reflexivity|]. split.
  - change (NoDup (m_id <$> merge_sort earlier
       (List.filter (fun m => messages_select_policy d auth m &&
                              bool_decide (chat_id m = chat)) (messages d)))).
    rewrite merge_sort_Permutation. apply NoDup_filter_key, Hok.
  - intros m Hm. rewrite merge_sort_Permutation in Hm.
    by apply elem_of_filter_bool in Hm as [Hm _].
Qed.

Lemma callbacks_append (events : list message_row) (s : Chat.state) :
  Chat.messages (fold_left (fun s new => Chat.on_message_insert new s) events s)
  = Chat.messages s ++ events.
Proof.
  revert s. induction events as [|new l IH]; intros s; cbn [fold_left].
  - by rewrite app_nil_r.
  - rewrite IH. cbn. by rewrite <- app_assoc.
Qed.

(** C5 (as the code has it). The load of [subscribeToMessages] holds
    stored messages of the conversation, each once. The INSERT
    callback appends the row of every event it is handed to the end of
    the local list and compares no ids: after any events the list is
    the load followed by their rows, so it shows an id twice exactly
    when an event brings a row that the load held already or that an
    earlier event brought. *)
Theorem view_without_duplicates (d : db) (auth : option uuid) (chat : uuid)
    (s0 : Chat.state) (events : list message_row) :
  db_ok d ->
  let s1 := (run (Chat.subscribeToMessages chat) auth s0 d).1.1 in
  let s2 := fold_left (fun s new => Chat.on_message_insert new s) events s1 in
  NoDup (map m_id (Chat.messages s1)) /\
  (forall m, m ∈ Chat.messages s1 -> m ∈ messages d /\ chat_id m = chat) /\
  Chat.messages s2 = Chat.messages s1 ++ events /\
  (NoDup (map m_id (Chat.messages s2)) <->
   NoDup (map m_id events) /\
   forall new, new ∈ events -> m_id new ∉ map m_id (Chat.messages s1)).
Proof.
  intros Hok s1 s2.
  assert (Chat.messages s1
          = merge_sort earlier
              (List.filter (fun m => messages_select_policy d auth m &&
                                     bool_decide (chat_id m = chat)) (messages d)))
    as Hload.
  { subst s1. unfold Chat.subscribeToMessages. cbn [run].
    rewrite !exec_serve. reflexivity. }
  assert (NoDup (map m_id (Chat.messages s1))) as Hnd.
  { destruct (select_messages_view auth chat d Hok) as (data & Hsel & Hnd & _).
    unfold select_messages in Hsel. injection Hsel as <-. by rewrite Hload. }
  assert (Chat.messages s2 = Chat.messages s1 ++ events) as Happ
    by apply callbacks_append.
  split; [exact Hnd|]. split; [|split; [exact Happ|]].
  - intros m Hm. rewrite Hload, merge_sort_Permutation in Hm.
    apply elem_of_filter_bool in Hm as [Hm Hb].
    apply andb_true_iff in Hb as [_ Hb]. by apply bool_decide_eq_true in Hb.
  - rewrite Happ, map_app, NoDup_app. split.
    + intros (_ & Hcross & Hev). split; [exact Hev|].
      intros new Hnew Hin. apply (Hcross _ Hin). by apply list_elem_of_fmap_2.
    + intros [Hev Hcross]. split; [exact Hnd|]. split; [|exact Hev].
      intros i Hi Hi'. apply list_elem_of_fmap in Hi' as (new & -> & Hnew).
      by apply (Hcross new Hnew).
Qed.

Lemma view_without_duplicates_witness :
  let s1 := (run (Chat.subscribeToMessages (row_id 3)) (Some alice) alice_page
                 chatting).1.1 in
  let s2 := fold_left (fun s new => Chat.on_message_insert new s)
                      [welcome_row] s1 in
  map m_id (Chat.messages s1) = [row_id 4] /\
  Chat.messages s2 = Chat.messages s1 ++ [welcome_row] /\
  ~ NoDup (map m_id (Chat.messages s2)).
Proof.
  intros s1 s2.
  destruct (view_without_duplicates chatting (Some alice) (row_id 3) alice_page
              [welcome_row] db_ok_chatting) as (_ & _ & Happ & Hiff).
  split; [vm_compute; reflexivity|]. split; [exact Happ|].
  intros Hnd. apply Hiff in Hnd as [_ Hcross].
  apply (Hcross welcome_row); [by left|]. vm_compute. by left.
Defined.

(** ** C6: toggling a reaction *)

Lemma find_snoc {A} (p : A -> bool) (l : list A) (x : A) :
  List.find p l = None -> p x = true -> List.find p (l ++ [x]) = Some x.
Proof.
  intros Hl Hx. induction l as [|y l IH]; simpl in *; [by rewrite Hx|].
  destruct (p y); [discriminate|]. by apply IH.
Qed.

Lemma filter_all {A} (p : A -> bool) (l : list A) :
  (forall x, x ∈ l -> p x = true) -> List.filter p l = l.
Proof.
  intros H. induction l as [|y l IH]; simpl; [reflexivity|].
  rewrite (H y) by (by left). f_equal. apply IH. intros x Hx. apply H. by right.
Qed.

Lemma on_own_message_exists d auth msg :
  on_own_message d auth msg = true -> message_exists d msg = true.
Proof.
  intros H. apply existsb_true_elem in H as (m & Hm & Hb).
  apply andb_true_iff in Hb as [Hb _]. by apply (elem_existsb _ _ m Hm).
Qed.

Lemma on_own_message_profile d u msg :
  db_ok d -> on_own_message d (Some u) msg = true -> profile_exists d u = true.
Proof.
  intros Hok H. apply existsb_true_elem in H as (m & _ & Hb).
  apply andb_true_iff in Hb as [_ Hb].
  apply existsb_true_elem in Hb as (c & Hc & Hb).
  apply andb_true_iff in Hb as [_ Hb].
  destruct (chats_fkey _ Hok c Hc) as [H1 H2].
  unfold chat_participant, auth_is in Hb.
  apply orb_true_iff in Hb as [Hb|Hb]; apply bool_decide_eq_true in Hb; by subst.
Qed.

Lemma insert_reaction_ok u msg e d :
  on_own_message d (Some u) msg = true ->
  existsb (fun r => bool_decide (r_id r = new_uuid d)) (message_reactions d) = false ->
  reaction_taken d msg u e = false ->
  profile_exists d u = true ->
  storable e = true ->
  insert_reaction (Some u) msg u e d
  = (let row := {| r_id := new_uuid d; message_id := msg; user_id := u;
                   emoji := e; r_created_at := now_ d |} in
     with_reactions (message_reactions d ++ [row]) [ReactionInsert row] d, Ok tt).
Proof.
  intros Hown Hpk Htaken Hu He.
  unfold insert_reaction, reactions_insert_policy, auth_is.
  rewrite bool_decide_eq_true_2 by reflexivity.
  by rewrite Hown, Hpk, Htaken, (on_own_message_exists _ _ _ Hown), Hu, He.
Qed.

Lemma reaction_taken_snoc d d' row msg u e :
  message_reactions d' = message_reactions d ++ [row] ->
  reaction_taken d' msg u e
  = reaction_taken d msg u e ||
    (bool_decide (message_id row = msg) && bool_decide (user_id row = u) &&
     bool_decide (emoji row = e)).
Proof.
  intros H. unfold reaction_taken. rewrite H, existsb_app. simpl.
  by rewrite orb_false_r.
Qed.

Lemma reaction_taken_same d d' msg u e :
  message_reactions d' = message_reactions d ->
  reaction_taken d' msg u e = reaction_taken d msg u e.
Proof. unfold reaction_taken. by intros ->. Qed.

(** Two clicks in a row on the same emoji: the page has not heard of
    the first row when the second handler looks, so that one inserts
    again; the row of the first stays and the user is told of a
    failure. *)
Lemma second_toggle_is_refused :
  let '(s1, d1, _) :=
    run (Chat.handleReaction (Some alice) (row_id 4) heart alice_page)
        (Some alice) alice_page chatting in
  let '(s2, d2, _) :=
    run (Chat.handleReaction (Some alice) (row_id 4) heart s1) (Some alice) s1 d1 in
  map reaction_triple (message_reactions chatting) = [] /\
  map reaction_triple (message_reactions d2) = [(row_id 4, alice, heart)] /\
  Chat.toasts alice_page = [] /\
  Chat.toasts s2 = [toast_error "Failed to add reaction"].
Proof. vm_compute. repeat split. Qed.

(** C6 (as the code has it). [handleReaction] decides from the
    reactions the page holds, and does not change them itself. For a
    participant, with the triple (message, user, emoji) neither on the
    page nor in the table: the first [handleReaction] stores it, once,
    next to whatever other emoji the user had put on the message. A
    second one at once finds nothing on the page, inserts again, is
    refused by the unique constraint and shows "Failed to add
    reaction"; the triple stays. A second one after the INSERT
    callback has put the row on the page deletes it, and the table is
    as it was before the two. *)
Theorem toggle_twice_restores (d : db) (s : Chat.state) (u msg : uuid) (e : text) :
  db_ok d -> fresh_ids d ->
  on_own_message d (Some u) msg = true ->
  storable e = true ->
  reaction_taken d msg u e = false ->
  List.find (fun r => bool_decide (user_id r = u) && bool_decide (emoji r = e))
            (Chat.reactions_of s msg) = None ->
  let '(s1, d1, _) := run (Chat.handleReaction (Some u) msg e s) (Some u) s d in
  exists row,
    message_reactions d1 = message_reactions d ++ [row] /\
    reaction_triple row = (msg, u, e) /\
    reaction_taken d1 msg u e = true /\
    (forall e', reaction_taken d msg u e' = true -> reaction_taken d1 msg u e' = true) /\
    NoDup (map reaction_triple (message_reactions d1)) /\
    Chat.reactions s1 = Chat.reactions s /\
    Chat.toasts s1 = Chat.toasts s /\
    (let '(s2, d2, _) :=
       run (Chat.handleReaction (Some u) msg e s1) (Some u) s1 d1 in
     message_reactions d2 = message_reactions d1 /\
     Chat.toasts s2 = Chat.toasts s ++ [toast_error "Failed to add reaction"]) /\
    (let s1' := Chat.on_reaction_insert row s1 in
     let '(s2, d2, _) :=
       run (Chat.handleReaction (Some u) msg e s1') (Some u) s1' d1 in
     message_reactions d2 = message_reactions d /\
     reaction_taken d2 msg u e = false /\
     Chat.toasts s2 = Chat.toasts s).
Proof.
  intros Hok Hfresh Hown He Hfree Hfind.
  destruct (fresh_ids_spec d (tick d) Hfresh) as (_ & _ & _ & Hpk); [lia|].
  pose proof (on_own_message_profile d u msg Hok Hown) as Hu.
  unfold Chat.handleReaction at 1. rewrite Hfind. cbn [run].
  rewrite exec_serve. cbn [serve fst snd].
  rewrite insert_reaction_ok by assumption. cbn [fst snd run].
  remember {| r_id := new_uuid d; message_id := msg; user_id := u; emoji := e;
              r_created_at := now_ d |} as row eqn:Erow.
  set (d1 := advance (with_reactions (message_reactions d ++ [row])
                                     [ReactionInsert row] d)).
  assert (db_ok d1) as Hok1.
  { pose proof (db_ok_exec (InsertReaction msg u e) (Some u) d Hok) as H.
    rewrite exec_serve in H. cbn [serve fst] in H.
    rewrite insert_reaction_ok in H by assumption. cbn [fst] in H.
    by rewrite <- Erow in H. }
  assert (message_reactions d1 = message_reactions d ++ [row]) as Hrs by reflexivity.
  assert (on_own_message d1 (Some u) msg = true) as Hown1 by exact Hown.
  assert (reaction_taken d1 msg u e = true) as Htaken1.
  { rewrite (reaction_taken_snoc d d1 row) by exact Hrs.
    rewrite Erow. cbn [message_id user_id emoji].
    rewrite !bool_decide_eq_true_2 by reflexivity. apply orb_true_r. }
  exists row. split; [exact Hrs|]. split; [by rewrite Erow|].
  split; [exact Htaken1|]. split.
  { intros e' He'. rewrite (reaction_taken_snoc d d1 row) by exact Hrs.
    by rewrite He'. }
  split; [apply Hok1|]. split; [reflexivity|]. split; [reflexivity|]. split.
  - (* at once *)
    unfold Chat.handleReaction.
    change (Chat.reactions_of (Chat.setShowReactionPicker None s) msg)
      with (Chat.reactions_of s msg).
    rewrite Hfind. cbn [run]. rewrite exec_serve. cbn [serve fst snd].
    assert (insert_reaction (Some u) msg u e d1 = (d1, Err unique_violation)) as ->.
    { unfold insert_reaction, reactions_insert_policy, auth_is.
      rewrite bool_decide_eq_true_2 by reflexivity. rewrite Hown1. cbn [andb negb].
      destruct (existsb _ (message_reactions d1)); [reflexivity|].
      by rewrite Htaken1. }
    cbn. split; reflexivity.
  - (* after the callback *)
    assert (Chat.reactions_of
              (Chat.on_reaction_insert row (Chat.setShowReactionPicker None s)) msg
            = Chat.reactions_of s msg ++ [row]) as Hview.
    { assert (message_id row = msg) as Hmsg by (by rewrite Erow).
      unfold Chat.on_reaction_insert, Chat.reactions_of.
      cbn [Chat.reactions Chat.setReactions Chat.setShowReactionPicker].
      rewrite Hmsg. by rewrite lookup_insert_eq. }
    assert (List.find (fun r => bool_decide (user_id r = u) && bool_decide (emoji r = e))
              (Chat.reactions_of s msg ++ [row]) = Some row) as Hfound.
    { apply find_snoc; [exact Hfind|]. rewrite Erow. cbn.
      by rewrite !bool_decide_eq_true_2. }
    unfold Chat.handleReaction. rewrite Hview, Hfound. cbn [run].
    rewrite exec_serve. cbn [serve fst snd].
    assert (List.filter (fun r => negb (deletable d1 (Some u) (r_id row) r))
              (message_reactions d1) = message_reactions d) as Hdel.
    { rewrite Hrs, List.filter_app. cbn [List.filter].
      assert (deletable d1 (Some u) (r_id row) row = true) as ->.
      { unfold deletable, reactions_select_policy, reactions_delete_policy, auth_is.
        rewrite Erow. cbn [r_id message_id user_id].
        by rewrite Hown1, !bool_decide_eq_true_2. }
      cbn. rewrite app_nil_r. apply filter_all. intros r Hr.
      unfold deletable. rewrite bool_decide_eq_false_2; [reflexivity|].
      rewrite Erow. cbn [r_id]. intros E.
      pose proof (existsb_false_elem _ _ Hpk r Hr) as Hne. cbn in Hne.
      by apply bool_decide_eq_false in Hne. }
    unfold delete_reaction. cbn [fst snd run].
    split; [exact Hdel|]. split; [|reflexivity].
    rewrite <- Hfree. apply reaction_taken_same. exact Hdel.
Qed.

Lemma db_ok_hearted : db_ok hearted.
Proof. apply db_ok_run. unfold live. apply db_ok_run, db_ok_chatting. Qed.

Lemma fresh_hearted : fresh_ids hearted.
Proof. apply fresh_by_rows; vm_compute; reflexivity. Qed.

Example heart_then_thumbs_up :
  map reaction_triple
    (message_reactions
       (run (Chat.handleReaction (Some alice) (row_id 4) thumbs_up hearted_page)
            (Some alice) hearted_page hearted).1.2)
  = [(row_id 4, alice, heart); (row_id 4, alice, thumbs_up)].
Proof. vm_compute. reflexivity. Qed.

Lemma toggle_twice_restores_witness :
  let '(s1, d1, _) :=
    run (Chat.handleReaction (Some alice) (row_id 4) thumbs_up hearted_page)
        (Some alice) hearted_page hearted in
  exists row,
    message_reactions d1 = message_reactions hearted ++ [row] /\
    reaction_triple row = (row_id 4, alice, thumbs_up) /\
    reaction_taken d1 (row_id 4) alice thumbs_up = true /\
    (forall e', reaction_taken hearted (row_id 4) alice e' = true ->
                reaction_taken d1 (row_id 4) alice e' = true) /\
    NoDup (map reaction_triple (message_reactions d1)) /\
    Chat.reactions s1 = Chat.reactions hearted_page /\
    Chat.toasts s1 = Chat.toasts hearted_page /\
    (let '(s2, d2, _) :=
       run (Chat.handleReaction (Some alice) (row_id 4) thumbs_up s1)
           (Some alice) s1 d1 in
     message_reactions d2 = message_reactions d1 /\
     Chat.toasts s2
     = Chat.toasts hearted_page ++ [toast_error "Failed to add reaction"]) /\
    (let s1' := Chat.on_reaction_insert row s1 in
     let '(s2, d2, _) :=
       run (Chat.handleReaction (Some alice) (row_id 4) thumbs_up s1')
           (Some alice) s1' d1 in
     message_reactions d2 = message_reactions hearted /\
     reaction_taken d2 (row_id 4) alice thumbs_up = false /\
     Chat.toasts s2 = Chat.toasts hearted_page).
Proof.
  apply (toggle_twice_restores hearted hearted_page alice (row_id 4) thumbs_up).
  - exact db_ok_hearted.
  - exact fresh_hearted.
  - vm_compute. reflexivity.
  - vm_compute. reflexivity.
  - vm_compute. reflexivity.
  - vm_compute. reflexivity.
Defined.

(** ** C7: the life of a follow edge *)

Lemma every_request_impl {S R} (P Q : forall X, request X -> Prop) (p : prog S R) :
  (forall X (q : request X), P X q -> Q X q) ->
  every_request P p -> every_request Q p.
Proof.
  intros HPQ. induction p as [r|f k IH|X q k IH]; simpl; auto.
  intros [Hq Hk]. split; auto.
Qed.

Lemma no_reopening_keeps_resolved {X} (q : request X) :
  no_reopening q -> keeps_resolved q.
Proof.
  intros Hq auth d f f' Hok Hf Hst Hf' Hid.
  rewrite exec_serve in Hf'. cbn [fst] in Hf'.
  change (follows (advance (serve q auth d).1))
    with (follows (serve q auth d).1) in Hf'.
  assert (f' ∈ follows d -> f_status f' <> pending) as Hold.
  { intros Hin. by rewrite (unique_key f_id _ f' f (follows_pkey _ Hok) Hin Hf Hid). }
  destruct q; cbn [serve fst] in Hf'; try (by apply Hold).
  - unfold insert_follow in Hf'.
    destruct (negb _); [by apply Hold|].
    destruct follower as [a|]; [|by apply Hold].
    destruct (existsb _ _) eqn:Epk; [by apply Hold|].
    destruct (follow_pair_taken d a following); [by apply Hold|].
    destruct (negb _); [by apply Hold|].
    cbn in Hf'. apply elem_of_app in Hf' as [Hin|Hin]; [by apply Hold|].
    apply list_elem_of_singleton in Hin. subst f'. cbn in Hid. exfalso.
    apply (fresh_key f_id _ _ Epk). rewrite Hid.
    by apply list_elem_of_fmap_2.
  - unfold update_follow_status in Hf'. cbn in Hf'.
    apply list_elem_of_fmap in Hf' as (f0 & -> & Hf0).
    assert (f0 = f) as ->.
    { apply (unique_key f_id _ f0 f (follows_pkey _ Hok) Hf0 Hf).
      rewrite <- Hid. by destruct (_ && _). }
    destruct (_ && _); [|exact Hst]. cbn. by destruct st.
  - unfold insert_chat in Hf'. apply Hold. by repeat case_match.
  - unfold insert_message in Hf'. apply Hold. by repeat case_match.
  - unfold insert_reaction in Hf'. apply Hold. by repeat case_match.
  - unfold upload in Hf'. apply Hold. by repeat case_match.
  - unfold handle_new_user in Hf'. apply Hold. by repeat case_match.
  - unfold insert_profile, handle_new_user in Hf'. apply Hold. by repeat case_match.
  - unfold update_profile in Hf'. apply Hold. by repeat case_match.
Qed.

Lemma handlers_never_reopen (user : option uuid) (u v id chat msg : uuid)
    (e : text) (date_now : N) (cs : Chat.state) (rs : Requests.state)
    (ds : Discover.state) (es : Profile.editor) :
  every_request (@no_reopening) (Chat.initializeChat u v) /\
  every_request (@no_reopening) (Chat.subscribeToMessages chat) /\
  every_request (@no_reopening) (Chat.loadReactions cs) /\
  every_request (@no_reopening) Chat.subscribeToReactions /\
  every_request (@no_reopening) (Chat.handleSendMessage user date_now cs) /\
  every_request (@no_reopening) (Chat.handleReaction user msg e cs) /\
  every_request (@no_reopening) (Requests.fetchRequests u) /\
  every_request (@no_reopening) (Requests.handleAccept user id v rs) /\
  every_request (@no_reopening) (Requests.handleReject id rs) /\
  every_request (@no_reopening) (Discover.fetchFollowStatus u) /\
  every_request (@no_reopening) (Discover.handleFollow user v ds) /\
  every_request (@no_reopening) (Profile.handleSave user es).
Proof.
  unfold Chat.initializeChat, Chat.subscribeToMessages, Chat.loadReactions,
    Chat.subscribeToReactions, Chat.handleSendMessage, Chat.handleReaction,
    Requests.fetchRequests, Requests.handleAccept, Requests.handleReject,
    Discover.fetchFollowStatus, Discover.handleFollow, Profile.handleSave.
  repeat split; walk.
Qed.

Lemma edge_status_same d d' id :
  follows d' = follows d -> edge_status d' id = edge_status d id.
Proof. unfold edge_status. by intros ->. Qed.

Lemma edge_status_elem d edge :
  db_ok d -> edge ∈ follows d -> edge_status d (f_id edge) = Some (f_status edge).
Proof.
  intros Hok Hin. unfold edge_status.
  by rewrite (find_by_key f_id _ edge (follows_pkey _ Hok) Hin).
Qed.

(** A request of anybody but the followee leaves the edge in the table
    as it is. *)
Lemma others_leave_edge {X} (q : request X) (auth : option uuid) (d : db)
    (e : follow_row) :
  e ∈ follows d -> auth <> Some (following_id e) ->
  e ∈ follows (exec q auth d).1.
Proof.
  intros He Hauth. rewrite exec_serve. cbn [fst].
  change (follows (advance (serve q auth d).1)) with (follows (serve q auth d).1).
  assert (follows_update_policy auth e = false) as Hpol.
  { unfold follows_update_policy, auth_is. destruct auth as [a|]; [|reflexivity].
    apply bool_decide_eq_false. congruence. }
  assert (forall (h : follow_row -> bool) (set : follow_row -> follow_row),
            e ∈ map (fun f => if h f && follows_update_policy auth f
                              then set f else f) (follows d)) as Hmap.
  { intros h set. apply list_elem_of_fmap. exists e. split; [|exact He].
    by rewrite Hpol, andb_false_r. }
  destruct q; cbn [serve fst]; try exact He.
  - unfold insert_follow. repeat case_match; try exact He.
    cbn. apply elem_of_app. by left.
  - unfold update_follow_status. cbn [fst follows with_follows]. apply Hmap.
  - unfold update_follow. repeat case_match; try exact He.
    cbn [fst follows with_follows]. apply Hmap.
  - unfold insert_chat. by repeat case_match.
  - unfold insert_message. by repeat case_match.
  - unfold insert_reaction. by repeat case_match.
  - unfold upload. by repeat case_match.
  - unfold handle_new_user. by repeat case_match.
  - unfold insert_profile, handle_new_user. by repeat case_match.
  - unfold update_profile. by repeat case_match.
Qed.

(** The followee takes an accepted edge, and a rejected one, back to
    pending: the update policy looks at who asks, not at the status. *)
Lemma followee_reopens_edge :
  edge_status chatting (row_id 0) = Some accepted /\
  edge_status
    (play [Elsewhere (Some bob) (UpdateFollowStatus (row_id 0) pending)]
          (chatting, [])).1 (row_id 0) = Some pending /\
  edge_status fallen_out (row_id 0) = Some rejected /\
  edge_status
    (play [Elsewhere (Some bob) (UpdateFollowStatus (row_id 0) pending)]
          (fallen_out, [])).1 (row_id 0) = Some pending.
Proof. vm_compute. repeat split. Qed.

(** C7 (as the code has it). From pending, the followee's
    [handleAccept] gets the edge to accepted and the followee's
    [handleReject] gets it to rejected; run by anybody else they leave
    it pending, and no request at all, sent by anybody but the
    followee, changes the status of an edge. The table does not fix
    the way back: an update of the status by the followee sets
    whatever status it names, pending too, on an edge of any status.
    What keeps an accepted or rejected edge from becoming pending
    again is that no request which a handler of the pages can come to
    issue does that, for any session and any state of the tables. *)
Theorem follow_edge_transitions (d : db) (edge : follow_row) (s : Requests.state) :
  db_ok d -> edge ∈ follows d -> f_status edge = pending ->
  let followee := following_id edge in
  let accept user :=
    (run (Requests.handleAccept user (f_id edge) (follower_id edge) s) user s d).1.2 in
  let reject user :=
    (run (Requests.handleReject (f_id edge) s) user s d).1.2 in
  edge_status (accept (Some followee)) (f_id edge) = Some accepted /\
  edge_status (reject (Some followee)) (f_id edge) = Some rejected /\
  (forall user, user <> Some followee ->
     edge_status (accept user) (f_id edge) = Some pending /\
     edge_status (reject user) (f_id edge) = Some pending) /\
  (forall X (q : request X) auth e,
     e ∈ follows d -> auth <> Some (following_id e) ->
     edge_status (exec q auth d).1 (f_id e) = Some (f_status e)) /\
  (forall e st, e ∈ follows d ->
     edge_status (exec (UpdateFollowStatus (f_id e) st) (Some (following_id e)) d).1
                 (f_id e) = Some st) /\
  (forall (user : option uuid) (u v id chat msg : uuid) (e : text) (date_now : N)
          (cs : Chat.state) (rs : Requests.state) (ds : Discover.state)
          (es : Profile.editor),
     every_request (@keeps_resolved) (Chat.initializeChat u v) /\
     every_request (@keeps_resolved) (Chat.subscribeToMessages chat) /\
     every_request (@keeps_resolved) (Chat.loadReactions cs) /\
     every_request (@keeps_resolved) Chat.subscribeToReactions /\
     every_request (@keeps_resolved) (Chat.handleSendMessage user date_now cs) /\
     every_request (@keeps_resolved) (Chat.handleReaction user msg e cs) /\
     every_request (@keeps_resolved) (Requests.fetchRequests u) /\
     every_request (@keeps_resolved) (Requests.handleAccept user id v rs) /\
     every_request (@keeps_resolved) (Requests.handleReject id rs) /\
     every_request (@keeps_resolved) (Discover.fetchFollowStatus u) /\
     every_request (@keeps_resolved) (Discover.handleFollow user v ds) /\
     every_request (@keeps_resolved) (Profile.handleSave user es)).
Proof.
  intros Hok Hin Hpending followee accept reject.
  assert (forall user st (k : result unit -> prog Requests.state unit),
            (forall r, every_request (@reads_follows) (k r)) ->
            follows (run (Call (UpdateFollowStatus (f_id edge) st) k) user s d).1.2
            = follows (update_follow_status user (f_id edge) st d).1) as Hrun.
  { intros user st k Hk. cbn [run]. rewrite exec_serve. cbn [serve fst snd].
    rewrite run_reads_follows by apply Hk. reflexivity. }
  assert (forall user,
            follows (accept user)
            = follows (update_follow_status user (f_id edge) accepted d).1) as Hacc.
  { intros user. apply Hrun. intros r. walk. }
  assert (forall user,
            follows (reject user)
            = follows (update_follow_status user (f_id edge) rejected d).1) as Hrej.
  { intros user. apply Hrun. intros r. walk. }
  split; [|split; [|split; [|split; [|split]]]].
  - rewrite (edge_status_same _ _ _ (Hacc _)). by apply update_by_followee.
  - rewrite (edge_status_same _ _ _ (Hrej _)). by apply update_by_followee.
  - intros user Huser. split.
    + rewrite (edge_status_same _ _ _ (Hacc _)).
      rewrite (edge_status_same d) by (by apply update_by_stranger).
      rewrite <- Hpending. by apply edge_status_elem.
    + rewrite (edge_status_same _ _ _ (Hrej _)).
      rewrite (edge_status_same d) by (by apply update_by_stranger).
      rewrite <- Hpending. by apply edge_status_elem.
  - intros X q auth e He Hauth. apply edge_status_elem.
    + by apply db_ok_exec.
    + by apply others_leave_edge.
  - intros e st He. rewrite exec_serve. cbn [serve fst].
    change (edge_status (advance ?x) ?i) with (edge_status x i).
    by apply update_by_followee.
  - intros.
    pose proof (handlers_never_reopen user u v id chat msg e date_now cs rs ds es)
      as H.
    destruct H as (H1 & H2 & H3 & H4 & H5 & H6 & H7 & H8 & H9 & H10 & H11 & H12).
    repeat match goal with |- every_request _ _ /\ _ => split end;
      (eapply every_request_impl;
       [exact (@no_reopening_keeps_resolved) | assumption]).
Qed.

Lemma follow_edge_transitions_witness :
  let edge := {| f_id := row_id 0; follower_id := alice; following_id := bob;
                 f_status := pending; f_created_at := clock 0;
                 f_updated_at := clock 0 |} in
  let accept user :=
    (run (Requests.handleAccept user (row_id 0) alice Requests.initial)
         user Requests.initial requested).1.2 in
  let reject user :=
    (run (Requests.handleReject (row_id 0) Requests.initial)
         user Requests.initial requested).1.2 in
  edge_status (accept (Some bob)) (row_id 0) = Some accepted /\
  edge_status (reject (Some bob)) (row_id 0) = Some rejected /\
  (forall user, user <> Some bob ->
     edge_status (accept user) (row_id 0) = Some pending /\
     edge_status (reject user) (row_id 0) = Some pending).
Proof.
  intros edge accept reject.
  pose proof (follow_edge_transitions requested edge Requests.initial) as H.
  destruct H as (H1 & H2 & H3 & _).
  - exact db_ok_requested.
  - vm_compute. by left.
  - reflexivity.
  - exact (conj H1 (conj H2 H3)).
Defined.

(** ** C8: asking to follow *)

Lemma insert_follow_taken auth a b st d :
  follow_pair_taken d a b = true ->
  exists e, insert_follow auth (Some a) b st d = (d, Err e).
Proof.
  intros Ht. unfold insert_follow. rewrite Ht.
  destruct (negb _); [eauto|]. destruct (existsb _ _); eauto.
Qed.

Lemma insert_follow_ok a b st d :
  existsb (fun f => bool_decide (f_id f = new_uuid d)) (follows d) = false ->
  follow_pair_taken d a b = false ->
  profile_exists d a = true -> profile_exists d b = true ->
  insert_follow (Some a) (Some a) b st d
  = (with_follows
       (follows d ++ [{| f_id := new_uuid d; follower_id := a; following_id := b;
                         f_status := st; f_created_at := now_ d;
                         f_updated_at := now_ d |}]) d,
     Ok tt).
Proof.
  intros Hpk Hpair Ha Hb. unfold insert_follow, follows_insert_policy, sql_eq.
  rewrite bool_decide_eq_true_2 by reflexivity.
  by rewrite Hpk, Hpair, Ha, Hb.
Qed.

(** C8. [handleFollow] by a signed-in user towards a profile: when the
    table already has an edge from the user to that profile, whatever
    its status, the insert fails, the table is unchanged and "Failed to
    send follow request" is shown; when it has none, exactly one row is
    appended, from the user to the profile, with status pending. *)
Theorem follow_request_once (d : db) (user profileId : uuid) (s : Discover.state) :
  fresh_ids d ->
  profile_exists d user = true -> profile_exists d profileId = true ->
  let '(s', d', _) :=
    run (Discover.handleFollow (Some user) profileId s) (Some user) s d in
  (forall edge, edge ∈ follows d ->
     follower_id edge = user -> following_id edge = profileId ->
     follows d' = follows d /\
     Discover.followStatus s' = Discover.followStatus s /\
     Discover.toasts s' = Discover.toasts s ++
       [toast_error "Failed to send follow request"]) /\
  ((forall edge, edge ∈ follows d ->
      ~ (follower_id edge = user /\ following_id edge = profileId)) ->
   exists row,
     follows d' = follows d ++ [row] /\
     follower_id row = user /\ following_id row = profileId /\
     f_status row = pending /\
     Discover.status s' profileId = Some pending /\
     Discover.toasts s' = Discover.toasts s ++ [toast_success "Follow request sent!"]).
Proof.
  intros Hfresh Hu Hp.
  destruct (fresh_ids_spec d (tick d) Hfresh) as (Hpk & _); [lia|].
  unfold Discover.handleFollow. cbn [run]. rewrite exec_serve. cbn [serve fst snd].
  destruct (follow_pair_taken d user profileId) eqn:Etaken.
  - destruct (insert_follow_taken (Some user) user profileId pending d Etaken)
      as [err ->].
    cbn. split; [auto|]. intros Hnone. exfalso.
    apply existsb_true_elem in Etaken as (edge & Hin & Hb).
    apply andb_true_iff in Hb as [H1 H2]. apply bool_decide_eq_true in H1, H2.
    by apply (Hnone edge Hin).
  - rewrite insert_follow_ok by assumption. cbn. split.
    + intros edge Hin H1 H2. exfalso.
      pose proof (existsb_false_elem _ _ Etaken edge Hin) as Hb. cbn in Hb.
      by rewrite !bool_decide_eq_true_2 in Hb.
    + intros _. eexists. repeat split; try reflexivity.
      unfold Discover.status. cbn. apply lookup_insert_eq.
Qed.

Example follow_again_after_rejection :
  let '(s', d', _) :=
    run (Discover.handleFollow (Some alice) bob Discover.initial)
        (Some alice) Discover.initial fallen_out in
  map f_status (follows fallen_out) = [rejected] /\
  follows d' = follows fallen_out /\
  Discover.toasts s' = [toast_error "Failed to send follow request"].
Proof. vm_compute. repeat split; reflexivity. Qed.

Lemma fresh_fallen_out : fresh_ids fallen_out.
Proof. apply fresh_by_rows; vm_compute; reflexivity. Qed.

Lemma follow_request_once_witness :
  (let '(s', d', _) :=
     run (Discover.handleFollow (Some alice) bob Discover.initial)
         (Some alice) Discover.initial fallen_out in
   forall edge, edge ∈ follows fallen_out ->
     follower_id edge = alice -> following_id edge = bob ->
     follows d' = follows fallen_out /\
     Discover.followStatus s' = Discover.followStatus Discover.initial /\
     Discover.toasts s' = Discover.toasts Discover.initial ++
       [toast_error "Failed to send follow request"]) /\
  (let '(s', d', _) :=
     run (Discover.handleFollow (Some alice) carol Discover.initial)
         (Some alice) Discover.initial fallen_out in
   (forall edge, edge ∈ follows fallen_out ->
      ~ (follower_id edge = alice /\ following_id edge = carol)) ->
   exists row,
     follows d' = follows fallen_out ++ [row] /\
     follower_id row = alice /\ following_id row = carol /\
     f_status row = pending /\
     Discover.status s' carol = Some pending /\
     Discover.toasts s' = Discover.toasts Discover.initial ++
       [toast_success "Follow request sent!"]).
Proof.
  split.
  - pose proof (follow_request_once fallen_out alice bob Discover.initial
                  fresh_fallen_out eq_refl eq_refl) as H.
    destruct (run _ _ _ _) as [[s' d'] r]. exact (proj1 H).
  - pose proof (follow_request_once fallen_out alice carol Discover.initial
                  fresh_fallen_out eq_refl eq_refl) as H.
    destruct (run _ _ _ _) as [[s' d'] r]. exact (proj2 H).
Defined.

(** ** C9: what a message holds *)

Lemma truthy_nonempty (t : text) : truthy t = true <-> t <> [].
Proof. destruct t; simpl; split; congruence. Qed.

Lemma exec_messages_grow {X} (q : request X) auth d (P : text -> Prop) :
  sends_content P q ->
  forall m, m ∈ messages (exec q auth d).1 -> m ∈ messages d \/ P (content m).
Proof.
  intros Hq m Hm. rewrite exec_serve in Hm. cbn [fst] in Hm.
  change (messages (advance (serve q auth d).1))
    with (messages (serve q auth d).1) in Hm.
  destruct q; cbn [serve fst] in Hm; auto.
  - unfold insert_follow in Hm. left. by repeat case_match.
  - unfold update_follow in Hm. left. by repeat case_match.
  - unfold insert_chat in Hm. left. by repeat case_match.
  - unfold insert_message in Hm. cbn in Hq.
    destruct (negb _); [by left|].
    destruct sender as [u|]; [|by left].
    destruct (message_exists d (new_uuid d)); [by left|].
    destruct (negb _); [by left|].
    destruct (negb _); [by left|].
    cbn in Hm. apply elem_of_app in Hm as [Hm|Hm]; [by left|].
    apply list_elem_of_singleton in Hm. subst m. by right.
  - unfold insert_reaction in Hm. left. by repeat case_match.
  - unfold upload in Hm. left. by repeat case_match.
  - unfold handle_new_user in Hm. left. by repeat case_match.
  - unfold insert_profile, handle_new_user in Hm. left. by repeat case_match.
  - unfold update_profile in Hm. left. by repeat case_match.
Qed.

Lemma run_messages_grow {S R} (p : prog S R) auth s d (P : text -> Prop) :
  every_request (@sends_content P) p ->
  forall m, m ∈ messages (run p auth s d).1.2 -> m ∈ messages d \/ P (content m).
Proof.
  revert s d. induction p as [r|f k IH|X q k IH]; intros s d Hp m Hm; simpl in *.
  - by left.
  - by apply (IH (f s) d).
  - destruct Hp as [Hq Hk].
    pose proof (exec_messages_grow q auth d P Hq) as Hstep.
    destruct (exec q auth d) as [d' r]. cbn in Hstep.
    destruct (IH r s d' (Hk r) m Hm) as [Hin|HP]; auto.
Qed.

Lemma participant_profile d u c :
  db_ok d -> c ∈ chats d -> chat_participant (Some u) c = true ->
  profile_exists d u = true.
Proof.
  intros Hok Hc Hp. destruct (chats_fkey _ Hok c Hc) as [H1 H2].
  unfold chat_participant, auth_is in Hp.
  apply orb_true_iff in Hp as [Hp|Hp]; apply bool_decide_eq_true in Hp; by subst.
Qed.

(** What [handleSendMessage] inserts, whoever runs it. *)
Lemma handleSendMessage_body (user : option uuid) (date_now : N) (s : Chat.state) :
  (forall f, Chat.selectedFile s = Some f -> file_name f <> []) ->
  every_request
    (@sends_content (fun body =>
       body <> [] /\
       (trim (Chat.newMessage s) <> [] -> body = trim (Chat.newMessage s)) /\
       (trim (Chat.newMessage s) = [] ->
        exists f, Chat.selectedFile s = Some f /\ body = file_name f)))
    (Chat.handleSendMessage user date_now s).
Proof.
  intros Hname. unfold Chat.handleSendMessage.
  destruct (_ || _ || _) eqn:Eguard; [exact I|].
  apply orb_false_iff in Eguard as [Eguard _].
  apply orb_false_iff in Eguard as [Eguard _].
  destruct (Chat.chatId s) as [chat|]; [|exact I].
  assert (forall media,
    sends_content (fun body =>
      body <> [] /\
      (trim (Chat.newMessage s) <> [] -> body = trim (Chat.newMessage s)) /\
      (trim (Chat.newMessage s) = [] ->
       exists f, Chat.selectedFile s = Some f /\ body = file_name f))
      (InsertMessage chat user
         (or_else (trim (Chat.newMessage s))
            match Chat.selectedFile s with
            | Some f => file_name f
            | None => []
            end) media)) as Hins.
  { intros media. cbn. unfold or_else.
    destruct (truthy (trim (Chat.newMessage s))) eqn:Et.
    - apply truthy_nonempty in Et. repeat split; [exact Et|done].
    - destruct (trim (Chat.newMessage s)) eqn:Etrim; [|discriminate].
      destruct (Chat.selectedFile s) as [f|] eqn:Ef; [|discriminate].
      repeat split; [by apply Hname|done|eauto]. }
  destruct (Chat.selectedFile s) as [f|] eqn:Ef; cbn.
  - split; [exact I|]. intros [?|?]; cbn; [|exact I].
    split; [apply (Hins None)|]. intros [?|?]; cbn; exact I.
  - split; [apply (Hins None)|]. intros [?|?]; cbn; exact I.
Qed.

(** A message typed and sent, no file picked. *)
Lemma send_text (d : db) (c : chat_row) (user : uuid) (date_now : N)
    (s : Chat.state) :
  db_ok d -> fresh_ids d ->
  c ∈ chats d -> chat_participant (Some user) c = true ->
  Chat.chatId s = Some (c_id c) -> Chat.sending s = false ->
  trim (Chat.newMessage s) <> [] -> storable (trim (Chat.newMessage s)) = true ->
  Chat.selectedFile s = None ->
  let r := run (Chat.handleSendMessage (Some user) date_now s) (Some user) s d in
  exists m, messages r.1.2 = messages d ++ [m] /\
            chat_id m = c_id c /\ sender_id m = user /\
            content m = trim (Chat.newMessage s) /\ media_url m = None /\
            objects r.1.2 = objects d /\
            Chat.newMessage r.1.1 = [] /\ Chat.messages r.1.1 = Chat.messages s /\
            Chat.toasts r.1.1 = Chat.toasts s.
Proof.
  intros Hok Hfresh Hc Hp Hchat Hsending Htext Hst Hfile r. subst r.
  pose proof (in_own_chat_row d user c Hc Hp) as Hown.
  pose proof (participant_profile d user c Hok Hc Hp) as Hprof.
  destruct (fresh_ids_spec d (tick d) Hfresh) as (_ & _ & Hnew & _); [lia|].
  apply truthy_nonempty in Htext.
  unfold Chat.handleSendMessage.
  rewrite Htext, Hchat, Hsending, Hfile. cbn [negb andb orb bool_decide].
  rewrite (bool_decide_eq_true_2 (is_Some (Some (c_id c)))) by eauto.
  cbn [negb andb orb run]. rewrite exec_serve. cbn [serve fst snd].
  assert (or_else (trim (Chat.newMessage s)) [] = trim (Chat.newMessage s)) as ->
    by (unfold or_else; by rewrite Htext).
  rewrite (insert_message_ok user (c_id c) _ None d Hown Hnew Hprof Hst).
  cbn [fst snd run]. eexists. split; [reflexivity|]. cbn. auto 10.
Qed.

(** A file picked and sent, with or without a caption. *)
Lemma send_file (d : db) (c : chat_row) (user : uuid) (date_now : N)
    (s : Chat.state) (f : file) :
  db_ok d -> fresh_ids d ->
  c ∈ chats d -> chat_participant (Some user) c = true ->
  Chat.chatId s = Some (c_id c) -> Chat.sending s = false ->
  Chat.selectedFile s = Some f ->
  let path := {| sp_folder := c_id c; sp_stamp := date_now;
                 sp_ext := split_pop (file_name f) |} in
  let body := if truthy (trim (Chat.newMessage s))
              then trim (Chat.newMessage s) else file_name f in
  valid_key path = true -> path ∉ objects d -> storable body = true ->
  let r := run (Chat.handleSendMessage (Some user) date_now s) (Some user) s d in
  exists m, messages r.1.2 = messages d ++ [m] /\
            chat_id m = c_id c /\ sender_id m = user /\
            content m = body /\ media_url m = Some path /\
            objects r.1.2 = objects d ++ [path] /\
            Chat.selectedFile r.1.1 = None /\ Chat.messages r.1.1 = Chat.messages s /\
            Chat.toasts r.1.1 = Chat.toasts s.
Proof.
  intros Hok Hfresh Hc Hp Hchat Hsending Hfile path body Hkey Hnew_path Hst r.
  subst r.
  pose proof (in_own_chat_row d user c Hc Hp) as Hown.
  pose proof (participant_profile d user c Hok Hc Hp) as Hprof.
  destruct (fresh_ids_spec d (S (tick d)) Hfresh) as (_ & _ & Hnew & _); [lia|].
  unfold Chat.handleSendMessage.
  rewrite Hchat, Hsending, Hfile.
  rewrite (bool_decide_eq_true_2 (is_Some (Some f))) by eauto.
  rewrite (bool_decide_eq_true_2 (is_Some (Some (c_id c)))) by eauto.
  cbn [negb andb orb]. rewrite andb_false_r. cbn [orb run].
  rewrite exec_serve. cbn [serve fst snd]. fold path.
  assert (upload (Some user) path d = (with_objects (objects d ++ [path]) d, Ok tt))
    as ->.
  { unfold upload.
    assert (storage_insert_policy d (Some user) path = true) as ->.
    { apply (elem_existsb _ _ c Hc). rewrite Hp. cbn.
      by apply bool_decide_eq_true. }
    rewrite Hkey. cbn [negb]. by rewrite bool_decide_eq_false_2. }
  cbn [fst snd run]. rewrite exec_serve. cbn [serve fst snd].
  fold (or_else (trim (Chat.newMessage s)) (file_name f)).
  assert (or_else (trim (Chat.newMessage s)) (file_name f) = body) as ->
    by reflexivity.
  rewrite (insert_message_ok user (c_id c) body (Some path)
             (advance (with_objects (objects d ++ [path]) d)) Hown Hnew Hprof Hst).
  cbn [fst snd run]. eexists. split; [reflexivity|]. cbn. auto 10.
Qed.

(** A participant stores a message with no text at all: the table asks
    for [content] not to be null, and the empty text is not. *)
Lemma empty_content_is_stored :
  map content
    (messages (play [Elsewhere (Some alice)
                       (InsertMessage (row_id 3) (Some alice) [] None)]
                    (chatting, [])).1)
  = [Requests.welcome; []].
Proof. vm_compute. reflexivity. Qed.

(** C9 (as the code has it). With only white space typed and no file
    picked, [handleSendMessage] is the empty handler: no request, no
    change. With text typed, a participant's [handleSendMessage]
    stores one message, whose content is the trimmed text; with a file
    picked it stores the file and then one message that points to it,
    whose content is the trimmed text or, when that is empty, the name
    of the file. So, file names being non-empty, the messages that
    [handleSendMessage] and [handleAccept] store have a content that
    is not empty. That is the pages' doing: the table itself takes the
    empty text. *)
Theorem send_needs_text_or_file (d : db) (c : chat_row) (user : uuid)
    (date_now : N) (s : Chat.state) :
  db_ok d -> fresh_ids d ->
  c ∈ chats d -> chat_participant (Some user) c = true ->
  Chat.chatId s = Some (c_id c) -> Chat.sending s = false ->
  let text := trim (Chat.newMessage s) in
  let '(s', d', _) :=
    run (Chat.handleSendMessage (Some user) date_now s) (Some user) s d in
  (text = [] -> Chat.selectedFile s = None ->
   Chat.handleSendMessage (Some user) date_now s = Ret tt /\ d' = d /\ s' = s) /\
  (text <> [] -> storable text = true -> Chat.selectedFile s = None ->
   exists m, messages d' = messages d ++ [m] /\
             chat_id m = c_id c /\ sender_id m = user /\
             content m = text /\ media_url m = None /\
             objects d' = objects d /\
             Chat.newMessage s' = [] /\ Chat.messages s' = Chat.messages s /\
             Chat.toasts s' = Chat.toasts s) /\
  (forall f, Chat.selectedFile s = Some f ->
     let path := {| sp_folder := c_id c; sp_stamp := date_now;
                    sp_ext := split_pop (file_name f) |} in
     let body := if truthy text then text else file_name f in
     (file_size f <= ChatView.max_file_size)%N ->
     valid_key path = true -> path ∉ objects d -> storable body = true ->
     exists m, messages d' = messages d ++ [m] /\
               chat_id m = c_id c /\ sender_id m = user /\
               content m = body /\ media_url m = Some path /\
               objects d' = objects d ++ [path] /\
               Chat.selectedFile s' = None /\ Chat.messages s' = Chat.messages s /\
               Chat.toasts s' = Chat.toasts s) /\
  (forall auth sender d0 m,
     (forall f, Chat.selectedFile s = Some f -> file_name f <> []) ->
     m ∈ messages (run (Chat.handleSendMessage sender date_now s) auth s d0).1.2 ->
     m ∈ messages d0 \/ content m <> []) /\
  (forall auth followee requestId followerId rs d0 m,
     m ∈ messages (run (Requests.handleAccept followee requestId followerId rs)
                       auth rs d0).1.2 ->
     m ∈ messages d0 \/ content m <> []) /\
  (forall d0 u chat,
     in_own_chat d0 (Some u) chat = true ->
     message_exists d0 (new_uuid d0) = false -> profile_exists d0 u = true ->
     exists m, messages (insert_message (Some u) chat (Some u) [] None d0).1
               = messages d0 ++ [m] /\ content m = []).
Proof.
  intros Hok Hfresh Hc Hp Hchat Hsending text.
  pose proof (send_text d c user date_now s Hok Hfresh Hc Hp Hchat Hsending) as Htext.
  pose proof (fun f => send_file d c user date_now s f Hok Hfresh Hc Hp Hchat Hsending)
    as Hfile.
  assert (text = [] -> Chat.selectedFile s = None ->
          Chat.handleSendMessage (Some user) date_now s = Ret tt) as Hguard.
  { intros Ht Hf. unfold Chat.handleSendMessage. subst text. by rewrite Ht, Hf. }
  destruct (run (Chat.handleSendMessage (Some user) date_now s) (Some user) s d)
    as [[s' d'] r] eqn:Erun.
  cbn [fst snd] in Htext, Hfile.
  split; [|split; [|split; [|split; [|split]]]].
  - intros Ht Hf. split; [by apply Hguard|].
    rewrite (Hguard Ht Hf) in Erun. cbn in Erun. by injection Erun as <- <- _.
  - intros Ht Hst Hf. exact (Htext Ht Hst Hf).
  - intros f Hf path body _ Hkey Hnew Hst. exact (Hfile f Hf Hkey Hnew Hst).
  - intros auth sender d0 m Hname Hm.
    destruct (run_messages_grow _ auth s d0 _
                (handleSendMessage_body sender date_now s Hname) m Hm)
      as [?|(? & _)]; auto.
  - intros auth followee requestId followerId rs d0 m Hm.
    apply (run_messages_grow _ auth rs d0 (fun body => body <> [])) in Hm; [exact Hm|].
    unfold Requests.handleAccept. walk; discriminate.
  - intros d0 u chat Hown Hnew Hprof.
    rewrite (insert_message_ok u chat [] None d0 Hown Hnew Hprof eq_refl).
    eexists. split; reflexivity.
Qed.

Example caption_is_file_name :
  map content
    (messages (run (Chat.handleSendMessage (Some alice) 1700000001234 photo_page)
                   (Some alice) photo_page chatting).1.2)
  = [Requests.welcome; text_of_ascii "holiday.photo.png"] /\
  map media_url
    (messages (run (Chat.handleSendMessage (Some alice) 1700000001234 photo_page)
                   (Some alice) photo_page chatting).1.2)
  = [None; Some {| sp_folder := row_id 3; sp_stamp := 1700000001234;
                   sp_ext := text_of_ascii "png" |}].
Proof. vm_compute. split; reflexivity. Qed.

Lemma send_needs_text_or_file_witness :
  let '(s', d', _) :=
    run (Chat.handleSendMessage (Some alice) 1700000001234 photo_page)
        (Some alice) photo_page chatting in
  exists m, messages d' = messages chatting ++ [m] /\
            content m = text_of_ascii "holiday.photo.png" /\
            media_url m = Some {| sp_folder := row_id 3; sp_stamp := 1700000001234;
                                  sp_ext := text_of_ascii "png" |} /\
            objects d' = objects chatting ++
                         [{| sp_folder := row_id 3; sp_stamp := 1700000001234;
                             sp_ext := text_of_ascii "png" |}].
Proof.
  pose proof (send_needs_text_or_file chatting
                {| c_id := row_id 3; user1_id := alice; user2_id := bob;
                   c_created_at := clock 3 |} alice 1700000001234 photo_page) as H.
  destruct (run _ _ _ _) as [[s' d'] r].
  destruct H as (_ & _ & H & _).
  - exact db_ok_chatting.
  - apply fresh_by_rows; vm_compute; reflexivity.
  - vm_compute. by left.
  - vm_compute. reflexivity.
  - vm_compute. reflexivity.
  - vm_compute. reflexivity.
  - destruct (H photo) as (m & H1 & _ & _ & H4 & H5 & H6 & _).
    + vm_compute. reflexivity.
    + vm_compute. discriminate.
    + vm_compute. reflexivity.
    + vm_compute. intros Hin. by apply elem_of_nil in Hin.
    + vm_compute. reflexivity.
    + exists m. auto.
Defined.

(** ** C10: the Message button of the discovery page *)

Lemma statusMap_fold (l : list (uuid * follow_status))
    (m : gmap string follow_status) (k : uuid) (v : follow_status) :
  NoDup (map fst l) ->
  fold_left (fun acc follow => <[follow.1 := follow.2]> acc) l m !! k = Some v <->
  (k, v) ∈ l \/ ((k ∉ map fst l) /\ m !! k = Some v).
Proof.
  revert m. induction l as [|[k' v'] l IH]; intros m Hnd; simpl.
  - split; [intros H; right; split; [apply not_elem_of_nil|exact H]|].
    intros [H|[_ H]]; [by apply elem_of_nil in H|exact H].
  - apply NoDup_cons in Hnd as [Hk' Hnd]. rewrite (IH _ Hnd). simpl.
    destruct (decide (k' = k)) as [->|Hne].
    + rewrite lookup_insert_eq. split.
      * intros [H|[_ H]]; [left; by right|].
        inversion H. left. by left.
      * intros [H|[H _]].
        -- apply elem_of_cons in H as [H|H].
           ++ inversion H. subst. right. split; [exact Hk'|reflexivity].
           ++ by left.
        -- exfalso. apply H. by left.
    + rewrite lookup_insert_ne by done. split.
      * intros [H|[H1 H2]]; [left; by right|].
        right. split; [|exact H2]. intros H. apply elem_of_cons in H as [H|H]; auto.
      * intros [H|[H1 H2]].
        -- apply elem_of_cons in H as [H|H]; [inversion H; congruence|by left].
        -- right. split; [|exact H2]. intros H. apply H1. by right.
Qed.

Lemma statusMap_lookup (l : list (uuid * follow_status)) (k : uuid)
    (v : follow_status) :
  NoDup (map fst l) -> Discover.statusMap l !! k = Some v <-> (k, v) ∈ l.
Proof.
  intros Hnd. unfold Discover.statusMap. rewrite (statusMap_fold _ _ _ _ Hnd).
  rewrite lookup_empty. split; [intros [H|[_ H]]; [exact H|discriminate]|auto].
Qed.

Lemma following_distinct (l : list follow_row) (p : follow_row -> bool) (u : uuid) :
  NoDup (map follow_pair l) ->
  (forall f, p f = true -> follower_id f = u) ->
  NoDup (map fst (map (fun f => (following_id f, f_status f)) (List.filter p l))).
Proof.
  intros Hnd Hp. rewrite map_map. simpl.
  induction l as [|f l IH]; simpl; [apply NoDup_nil_2|].
  simpl in Hnd. apply NoDup_cons in Hnd as [Hf Hnd].
  destruct (p f) eqn:E; [|by apply IH]. simpl.
  apply NoDup_cons. split; [|by apply IH].
  intros Hin. apply list_elem_of_fmap in Hin as (g & Hg & Hgin).
  apply elem_of_filter_bool in Hgin as [Hgin Hpg].
  apply Hf. apply list_elem_of_fmap. exists g. split; [|exact Hgin].
  unfold follow_pair. by rewrite (Hp f E), (Hp g Hpg), Hg.
Qed.

(** C10. After [fetchFollowStatus], the Message button of a profile is
    enabled exactly when the table has an accepted edge from the
    current user to that profile. With an accepted edge only the other
    way round the button is disabled, although the connection check of
    the chat page, asked about the same two users, says connected. *)
Theorem message_button_needs_outgoing_edge (d : db) (user profileId : uuid)
    (s : Discover.state) :
  db_ok d ->
  let s' := (run (Discover.fetchFollowStatus user) (Some user) s d).1.1 in
  (Discover.canMessage s' profileId = true <->
   exists edge, edge ∈ follows d /\ follower_id edge = user /\
                following_id edge = profileId /\ f_status edge = accepted) /\
  ((exists edge, edge ∈ follows d /\ follower_id edge = profileId /\
                 following_id edge = user /\ f_status edge = accepted) ->
   (forall edge, edge ∈ follows d -> follower_id edge = user ->
                 following_id edge = profileId -> f_status edge <> accepted) ->
   Discover.canMessage s' profileId = false /\
   isConnected d (Some user) user profileId = true).
Proof.
  intros Hok s'.
  assert (Discover.canMessage s' profileId = true <->
          exists edge, edge ∈ follows d /\ follower_id edge = user /\
                       following_id edge = profileId /\ f_status edge = accepted)
    as Hiff.
  { subst s'. unfold Discover.fetchFollowStatus. cbn [run].
    rewrite exec_serve. cbn [serve fst snd]. unfold select_following. cbn [run fst].
    unfold Discover.canMessage, Discover.status.
    cbn [Discover.followStatus Discover.setFollowStatus].
    rewrite bool_decide_eq_true. rewrite statusMap_lookup.
    - rewrite list_elem_of_fmap. split.
      + intros (f & Hf & Hin). apply elem_of_filter_bool in Hin as [Hin Hb].
        apply andb_true_iff in Hb as [_ Hb]. apply bool_decide_eq_true in Hb.
        inversion Hf. exists f. auto.
      + intros (f & Hin & Hu & Hp & Hst). exists f. split; [by rewrite Hp, Hst|].
        apply elem_of_filter_bool. split; [exact Hin|].
        unfold follows_select_policy, auth_is.
        repeat case_bool_decide; simpl; congruence.
    - apply (following_distinct _ _ user); [apply Hok|].
      intros f Hb. apply andb_true_iff in Hb as [_ Hb].
      by apply bool_decide_eq_true in Hb. }
  split; [exact Hiff|]. intros (edge & Hin & Hp & Hu & Hst) Hnone. split.
  - apply not_true_iff_false. intros E.
    apply Hiff in E as (f & Hf & H1 & H2 & H3). by destruct (Hnone f Hf H1 H2).
  - unfold isConnected, select_connection.
    destruct (List.filter _ (follows d)) as [|x l] eqn:El; [|reflexivity].
    exfalso. assert (edge ∈ @nil follow_row) as Habs; [|by apply elem_of_nil in Habs].
    rewrite <- El. apply elem_of_filter_bool. split; [exact Hin|].
    unfold follows_select_policy, auth_is.
    repeat case_bool_decide; simpl; congruence.
Qed.

Lemma message_button_needs_outgoing_edge_witness :
  let s' := (run (Discover.fetchFollowStatus bob) (Some bob) Discover.initial
                 chatting).1.1 in
  Discover.canMessage s' alice = false /\
  isConnected chatting (Some bob) bob alice = true.
Proof.
  intros s'.
  apply (message_button_needs_outgoing_edge chatting bob alice Discover.initial).
  - exact db_ok_chatting.
  - eexists. split.
    + apply (list_elem_of_lookup_2 _ 0). vm_compute. reflexivity.
    + repeat split; reflexivity.
  - intros edge Hin Hu _. vm_compute in Hin.
    apply list_elem_of_singleton in Hin. subst edge. discriminate.
Defined.

Example alice_may_message_bob :
  Discover.canMessage
    (run (Discover.fetchFollowStatus alice) (Some alice) Discover.initial
         chatting).1.1 bob = true.
Proof. vm_compute. reflexivity. Qed.

(** * More of the schema and of the pages *)

(** ** Reading a conversation *)

Lemma earlier_total : Total earlier.
Proof. intros a b. unfold earlier. lia. Qed.

Lemma earlier_trans : Transitive earlier.
Proof. intros a b c. unfold earlier. lia. Qed.

Lemma filter_ext_elem {A} (p q : A -> bool) (l : list A) :
  (forall x, x ∈ l -> p x = q x) -> List.filter p l = List.filter q l.
Proof.
  intros H. apply filter_ext_in. intros x Hx. apply H. by apply list_elem_of_In.
Qed.

Lemma filter_none {A} (p : A -> bool) (l : list A) :
  (forall x, x ∈ l -> p x = false) -> List.filter p l = [].
Proof.
  intros H. induction l as [|y l IH]; simpl; [reflexivity|].
  rewrite (H y) by (by left). apply IH. intros x Hx. apply H. by right.
Qed.

Lemma visible_messages_of_chat d auth chat :
  List.filter (fun m => messages_select_policy d auth m && bool_decide (chat_id m = chat))
              (messages d)
  = if in_own_chat d auth chat
    then List.filter (fun m => bool_decide (chat_id m = chat)) (messages d)
    else [].
Proof.
  destruct (in_own_chat d auth chat) eqn:E.
  - apply filter_ext_elem. intros m _. unfold messages_select_policy.
    case_bool_decide as Hc; [|by rewrite andb_false_r]. by rewrite Hc, E.
  - apply filter_none. intros m _. unfold messages_select_policy.
    case_bool_decide as Hc; [|by rewrite andb_false_r]. by rewrite Hc, E.
Qed.

(** X2. What the chat page loads: the messages of the conversation,
    all of them and nothing else, ordered by [created_at]; and nothing
    at all for somebody who is not in the conversation. That list is
    what [subscribeToMessages] puts on the page. *)
Theorem history_is_sorted_and_private (d : db) (auth : option uuid) (chat : uuid)
    (s : Chat.state) :
  exists data,
    select_messages auth chat d = Ok data /\
    StronglySorted earlier data /\
    data ≡ₚ (if in_own_chat d auth chat
             then List.filter (fun m => bool_decide (chat_id m = chat)) (messages d)
             else []) /\
    Chat.messages (run (Chat.subscribeToMessages chat) auth s d).1.1 = data.
Proof.
  eexists. split; [reflexivity|]. split; [|split].
  - apply StronglySorted_merge_sort; [apply earlier_trans|apply earlier_total].
  - rewrite merge_sort_Permutation. by rewrite visible_messages_of_chat.
  - unfold Chat.subscribeToMessages. cbn [run]. rewrite !exec_serve. reflexivity.
Qed.

(** ** Whose rows a request may write *)

Lemma delete_spares d auth id r :
  r ∈ message_reactions d -> auth <> Some (user_id r) ->
  r ∈ message_reactions (delete_reaction auth id d).1.
Proof.
  intros Hr Hauth. unfold delete_reaction. cbn.
  apply elem_of_filter_bool. split; [exact Hr|].
  unfold deletable, reactions_delete_policy, auth_is.
  destruct auth as [a|]; [|by rewrite andb_false_r].
  rewrite (bool_decide_eq_false_2 (a = user_id r)) by congruence.
  by rewrite andb_false_r.
Qed.

(** X3. Nobody removes somebody else's reaction: a delete request
    leaves every row of another user where it is, whatever id it
    names; and [handleReaction], whatever the page holds, changes at
    most the caller's own row for that message and emoji. *)
Theorem reactions_of_others_stay (d : db) (s : Chat.state) (u msg : uuid) (e : text) :
  (forall auth id r,
     r ∈ message_reactions d -> auth <> Some (user_id r) ->
     r ∈ message_reactions (delete_reaction auth id d).1) /\
  (let d' := (run (Chat.handleReaction (Some u) msg e s) (Some u) s d).1.2 in
   (forall r, r ∈ message_reactions d -> user_id r <> u -> r ∈ message_reactions d') /\
   (forall r, r ∈ message_reactions d' ->
      r ∈ message_reactions d \/
      (user_id r = u /\ message_id r = msg /\ emoji r = e))).
Proof.
  split; [intros; by apply delete_spares|].
  unfold Chat.handleReaction.
  destruct (List.find _ _) as [existing|]; cbn [run]; rewrite exec_serve;
    cbn [serve fst snd].
  - change (delete_reaction (Some u) (r_id existing) d).2 with (@Ok unit tt).
    cbn [run fst snd]. split.
    + intros r Hr Hne. apply delete_spares; [exact Hr|congruence].
    + intros r Hr. left. cbn in Hr. by apply elem_of_filter_bool in Hr as [Hr _].
  - unfold insert_reaction.
    repeat case_match; cbn [run fst snd advance message_reactions with_reactions];
      (split; [intros r Hr _; try done; apply elem_of_app; by left|]);
      intros r Hr; try (by left).
    apply elem_of_app in Hr as [Hr|Hr]; [by left|].
    apply list_elem_of_singleton in Hr. subst r. right. auto.
Qed.

(** X4. A reaction is stored only for its author and only on a message
    of one of the author's conversations: an insert that succeeds was
    sent by [user_id] itself, the message exists, and the sender is
    user1 or user2 of the conversation the message is in. *)
Theorem reaction_needs_participation (d : db) (auth : option uuid)
    (msg user : uuid) (e : text) :
  is_ok (insert_reaction auth msg user e d).2 = true ->
  auth = Some user /\
  exists m c, m ∈ messages d /\ m_id m = msg /\
              c ∈ chats d /\ c_id c = chat_id m /\
              (user1_id c = user \/ user2_id c = user).
Proof.
  unfold insert_reaction.
  destruct (negb (reactions_insert_policy d auth msg user)) eqn:Epol;
    [intros; discriminate|]. intros _.
  apply negb_false_iff, andb_true_iff in Epol as [Hauth Hown].
  unfold auth_is in Hauth. destruct auth as [a|]; [|discriminate].
  apply bool_decide_eq_true in Hauth. subst a. split; [reflexivity|].
  apply existsb_true_elem in Hown as (m & Hm & Hb).
  apply andb_true_iff in Hb as [Hid Hchat]. apply bool_decide_eq_true in Hid.
  apply existsb_true_elem in Hchat as (c & Hc & Hb).
  apply andb_true_iff in Hb as [Hcid Hpart]. apply bool_decide_eq_true in Hcid.
  exists m, c. do 4 (split; [done|]).
  unfold chat_participant, auth_is in Hpart.
  apply orb_true_iff in Hpart as [H|H]; apply bool_decide_eq_true in H; auto.
Qed.

Lemma reaction_needs_participation_witness :
  Some alice = Some alice /\
  exists m c, m ∈ messages chatting /\ m_id m = row_id 4 /\
              c ∈ chats chatting /\ c_id c = chat_id m /\
              (user1_id c = alice \/ user2_id c = alice).
Proof.
  apply (reaction_needs_participation chatting (Some alice) (row_id 4) alice heart).
  vm_compute. reflexivity.
Defined.

(** X5. Nobody files a follow request in somebody else's name, and
    nobody opens a conversation between two other people: a follow
    insert that succeeds has the caller as follower, a chat insert
    that succeeds has the caller as one of its two users, the lower
    id first. *)
Theorem inserts_are_the_callers (d : db) (auth : option uuid) :
  (forall follower following st,
     is_ok (insert_follow auth follower following st d).2 = true ->
     exists a, auth = Some a /\ follower = Some a /\
               follow_pair_taken d a following = false) /\
  (forall u1 u2,
     is_ok (insert_chat auth u1 u2 d).2 = true ->
     exists a b, u1 = Some a /\ u2 = Some b /\ uuid_lt a b = true /\
                 (auth = Some a \/ auth = Some b) /\
                 chat_pair_taken d a b = false).
Proof.
  split.
  - intros follower following st. unfold insert_follow.
    destruct (negb (follows_insert_policy auth follower)) eqn:Epol;
      [intros; discriminate|].
    apply negb_false_iff in Epol. unfold follows_insert_policy, sql_eq in Epol.
    destruct auth as [a|], follower as [a'|]; try discriminate.
    apply bool_decide_eq_true in Epol. subst a'.
    destruct (existsb _ _); [intros; discriminate|].
    destruct (follow_pair_taken d a following) eqn:Et; [intros; discriminate|].
    intros _. eauto.
  - intros u1 u2. unfold insert_chat.
    destruct (negb (chats_insert_policy auth u1 u2)) eqn:Epol;
      [intros; discriminate|].
    apply negb_false_iff in Epol.
    destruct u1 as [a|], u2 as [b|]; try (intros; discriminate).
    destruct (negb (uuid_lt a b)) eqn:Elt; [intros; discriminate|].
    apply negb_false_iff in Elt.
    destruct (chat_exists d _); [intros; discriminate|].
    destruct (chat_pair_taken d a b) eqn:Et; [intros; discriminate|].
    intros _. exists a, b. do 3 (split; [done|]). split; [|done].
    unfold chats_insert_policy, sql_eq in Epol. destruct auth as [c|]; [|discriminate].
    apply orb_true_iff in Epol as [H|H]; apply bool_decide_eq_true in H; subst; auto.
Qed.

(** ** Who is connected *)

Lemma isConnected_edge (d : db) (auth : option uuid) (x y : uuid) :
  isConnected d auth x y = true <->
  exists f, f ∈ follows d /\ follows_select_policy auth f = true /\
            accepted_between x y f.
Proof.
  unfold isConnected, select_connection. split.
  - destruct (List.filter _ (follows d)) as [|f l] eqn:El; [discriminate|].
    intros _. assert (f ∈ List.filter
      (fun f => follows_select_policy auth f &&
         ((bool_decide (follower_id f = x) && bool_decide (following_id f = y)) ||
          (bool_decide (follower_id f = y) && bool_decide (following_id f = x))) &&
         bool_decide (f_status f = accepted)) (follows d)) as Hin
      by (rewrite El; by left).
    apply elem_of_filter_bool in Hin as [Hin Hb].
    apply andb_true_iff in Hb as [Hb Hst]. apply andb_true_iff in Hb as [Hpol Hb].
    apply bool_decide_eq_true in Hst. exists f. split; [done|]. split; [done|].
    split; [done|].
    apply orb_true_iff in Hb as [Hb|Hb]; apply andb_true_iff in Hb as [H1 H2];
      apply bool_decide_eq_true in H1, H2; auto.
  - intros (f & Hin & Hpol & Hst & Hends).
    destruct (List.filter _ (follows d)) as [|g l] eqn:El; [|reflexivity].
    exfalso. assert (f ∈ @nil follow_row) as Habs; [|by apply elem_of_nil in Habs].
    rewrite <- El. apply elem_of_filter_bool. split; [done|].
    rewrite Hpol, (bool_decide_eq_true_2 _ Hst), andb_true_r. cbn.
    destruct Hends as [[-> ->]|[-> ->]];
      repeat case_bool_decide; simpl; try reflexivity; congruence.
Qed.

Lemma isConnected_own (d : db) (x y : uuid) :
  isConnected d (Some x) x y = true <->
  exists f, f ∈ follows d /\ accepted_between x y f.
Proof.
  rewrite isConnected_edge. split; [intros (f & ? & _ & ?); eauto|].
  intros (f & Hin & Hacc). exists f. split; [done|]. split; [|done].
  unfold follows_select_policy, auth_is.
  destruct Hacc as [_ [[-> _]|[_ ->]]];
    repeat case_bool_decide; simpl; try reflexivity; congruence.
Qed.

(** X6. The connection check of the chat page, asked by one of the two
    users, says connected exactly when [follows] has an accepted edge
    between them, whichever way it points, and it says the same to
    both. Asked by a third user or without a session, it says not
    connected, whatever the table holds. *)
Theorem isConnected_iff_accepted_edge (d : db) (a b : uuid) :
  (isConnected d (Some a) a b = true <->
   exists f, f ∈ follows d /\ accepted_between a b f) /\
  isConnected d (Some b) b a = isConnected d (Some a) a b /\
  (forall c, c <> a -> c <> b -> isConnected d (Some c) a b = false) /\
  isConnected d None a b = false.
Proof.
  pose proof (isConnected_edge d) as Hgen.
  pose proof (isConnected_own d) as Hown.
  split; [apply Hown|]. split; [|split].
  - apply eq_true_iff_eq. rewrite !Hown. unfold accepted_between.
    split; intros (f & Hin & Hst & He); exists f; (split; [done|]); (split; [done|]);
      tauto.
  - intros c Hca Hcb. apply not_true_iff_false. rewrite Hgen.
    intros (f & _ & Hpol & _ & Hends).
    unfold follows_select_policy, auth_is in Hpol.
    apply orb_true_iff in Hpol as [H|H]; apply bool_decide_eq_true in H;
      destruct Hends as [[? ?]|[? ?]]; congruence.
  - apply not_true_iff_false. rewrite Hgen. intros (f & _ & Hpol & _). discriminate.
Qed.

(** ** Attachments *)

Lemma split_pop_fold (l acc : text) :
  fold_left (fun acc c => if bool_decide (c = 46%N) then [] else acc ++ [c]) l acc
  = if bool_decide (46%N ∈ l) then split_pop l else acc ++ l.
Proof.
  revert acc. induction l as [|c l IH]; intros acc.
  - cbn [fold_left]. rewrite bool_decide_eq_false_2 by apply not_elem_of_nil.
    by rewrite app_nil_r.
  - change (split_pop (c :: l))
      with (fold_left (fun acc c => if bool_decide (c = 46%N) then [] else acc ++ [c])
              l (if bool_decide (c = 46%N) then [] else [] ++ [c])).
    cbn [fold_left].
    destruct (decide (c = 46%N)) as [->|Hc].
    + rewrite (bool_decide_eq_true_2 (46%N = 46%N)) by reflexivity.
      by rewrite (bool_decide_eq_true_2 (46%N ∈ 46%N :: l)) by (by left).
    + rewrite (bool_decide_eq_false_2 (c = 46%N)) by exact Hc.
      rewrite (IH (acc ++ [c])), (IH ([] ++ [c])).
      destruct (decide (46%N ∈ l)) as [Hl|Hl].
      * rewrite (bool_decide_eq_true_2 (46%N ∈ l)) by exact Hl.
        by rewrite (bool_decide_eq_true_2 (46%N ∈ c :: l)) by (by right).
      * rewrite (bool_decide_eq_false_2 (46%N ∈ l)) by exact Hl.
        rewrite (bool_decide_eq_false_2 (46%N ∈ c :: l)).
        -- by rewrite <- app_assoc.
        -- intros H. apply elem_of_cons in H as [H|H]; congruence.
Qed.

Lemma split_pop_dotless (l : text) : 46%N ∉ l -> split_pop l = l.
Proof.
  intros H. unfold split_pop. rewrite split_pop_fold.
  by rewrite bool_decide_eq_false_2.
Qed.

Lemma split_pop_after_dot (a b : text) : split_pop (a ++ 46%N :: b) = split_pop b.
Proof.
  unfold split_pop. rewrite fold_left_app. cbn [fold_left].
  by rewrite (bool_decide_eq_true_2 (46%N = 46%N)) by reflexivity.
Qed.

Lemma split_pop_has_no_dot (l : text) : 46%N ∉ split_pop l.
Proof.
  unfold split_pop.
  assert (forall acc, 46%N ∉ acc ->
    46%N ∉ fold_left (fun acc c => if bool_decide (c = 46%N) then [] else acc ++ [c])
                     l acc) as H; [|apply H, not_elem_of_nil].
  induction l as [|c l IH]; intros acc Hacc; cbn [fold_left]; [exact Hacc|].
  apply IH. destruct (bool_decide (c = 46%N)) eqn:Hc; [apply not_elem_of_nil|].
  apply bool_decide_eq_false in Hc.
  intros H. apply elem_of_app in H as [H|H]; [by apply Hacc|].
  apply list_elem_of_singleton in H. congruence.
Qed.

(** X7. The extension survives the trip through the stored name: for
    any address that ends in a dot and the [fileExt] that
    [handleSendMessage] took from the file's name, what the page reads
    back with [split('.').pop()] is that [fileExt], so the attachment
    is drawn as an image (or a video) exactly when the name of the
    file that was sent says so. A [fileExt] never holds a dot, and a
    name without a dot is its own extension. *)
Theorem extension_survives_upload (toLowerCase : text -> text)
    (address name : text) :
  let url := address ++ [46%N] ++ split_pop name in
  split_pop url = split_pop name /\
  ChatView.isImageFile toLowerCase url = ChatView.isImageFile toLowerCase name /\
  ChatView.isVideoFile toLowerCase url = ChatView.isVideoFile toLowerCase name /\
  ChatView.draw toLowerCase url = ChatView.draw toLowerCase name /\
  (46%N ∉ split_pop name) /\
  (46%N ∉ name -> split_pop name = name).
Proof.
  intros url.
  assert (split_pop url = split_pop name) as E.
  { unfold url. cbn [app]. rewrite split_pop_after_dot.
    apply split_pop_dotless, split_pop_has_no_dot. }
  split; [exact E|].
  unfold ChatView.draw, ChatView.getFileIcon, ChatView.isImageFile,
    ChatView.isVideoFile, ChatView.extension.
  rewrite E. repeat split; try reflexivity.
  - apply split_pop_has_no_dot.
  - apply split_pop_dotless.
Qed.

Lemma images_are_not_videos (x : text) :
  x ∈ ChatView.image_extensions -> x ∈ ChatView.video_extensions -> False.
Proof.
  unfold ChatView.image_extensions, ChatView.video_extensions.
  intros Hi Hv. vm_compute in Hi, Hv.
  repeat (apply elem_of_cons in Hi as [Hi|Hi]; [subst x|]);
    try (by apply elem_of_nil in Hi);
    repeat (apply elem_of_cons in Hv as [Hv|Hv]; [discriminate|]);
    by apply elem_of_nil in Hv.
Qed.

(** X8. No attachment is both an image and a video, and the icon of
    [getFileIcon] is drawn only in the box of the attachments that are
    neither, where it is always the document icon: the image and film
    icons it can return never reach the screen. *)
Theorem box_icon_is_the_document_icon (toLowerCase : text -> text) (url : text) :
  ChatView.isImageFile toLowerCase url && ChatView.isVideoFile toLowerCase url = false /\
  (ChatView.getFileIcon toLowerCase url = ChatView.ImageIcon <->
   ChatView.isImageFile toLowerCase url = true) /\
  (ChatView.getFileIcon toLowerCase url = ChatView.Film <->
   ChatView.isVideoFile toLowerCase url = true) /\
  (forall FileIcon,
     ChatView.draw toLowerCase url = ChatView.as_box FileIcon ->
     FileIcon = ChatView.FileText).
Proof.
  unfold ChatView.draw, ChatView.getFileIcon, ChatView.isImageFile,
    ChatView.isVideoFile.
  pose proof (images_are_not_videos (ChatView.extension toLowerCase url)) as Hx.
  repeat case_bool_decide; cbn; repeat split; try done; try tauto;
    intros; congruence.
Qed.

(** X9. A message with an attachment is stored only after the
    attachment: every message that [handleSendMessage] adds is in the
    conversation of the page and from its user, and its media
    reference, if it has one, is an object that is in the bucket, in
    the folder of that very conversation, named by [Date.now()] and
    the extension of the picked file. *)
Theorem attachment_is_stored_first (user auth : option uuid) (date_now : N)
    (s : Chat.state) (d : db) :
  let d' := (run (Chat.handleSendMessage user date_now s) auth s d).1.2 in
  forall m, m ∈ messages d' ->
    m ∈ messages d \/
    (Some (chat_id m) = Chat.chatId s /\ Some (sender_id m) = user /\
     match media_url m with
     | None => Chat.selectedFile s = None
     | Some p =>
         p ∈ objects d' /\ sp_folder p = chat_id m /\ sp_stamp p = date_now /\
         exists f, Chat.selectedFile s = Some f /\ sp_ext p = split_pop (file_name f)
     end).
Proof.
  intros d' m. subst d'. revert m. unfold Chat.handleSendMessage.
  destruct (_ || _ || _); [intros m Hm; by left|].
  destruct (Chat.chatId s) as [chat|]; [|intros m Hm; by left].
  assert (forall media body d0 d1 r m,
            insert_message auth chat user body media d0 = (d1, r) ->
            m ∈ messages d1 ->
            m ∈ messages d0 \/
            (chat_id m = chat /\ Some (sender_id m) = user /\ media_url m = media))
    as Hins.
  { intros media body d0 d1 r m. unfold insert_message.
    repeat case_match; intros [= <- <-]; cbn; intros Hm; try (by left).
    apply elem_of_app in Hm as [Hm|Hm]; [by left|].
    apply list_elem_of_singleton in Hm. subst m. right. cbn. auto. }
  assert (forall media body d0 d1 r,
            insert_message auth chat user body media d0 = (d1, r) ->
            objects d1 = objects d0) as Hobj.
  { intros media body d0 d1 r. unfold insert_message.
    repeat case_match; intros [= <- <-]; reflexivity. }
  destruct (Chat.selectedFile s) as [f|] eqn:Ef; cbn [run]; intros m.
  - rewrite exec_serve. cbn [serve fst snd]. unfold upload.
    destruct (negb (storage_insert_policy d auth _)); [cbn; by left|].
    destruct (negb (valid_key _)); [cbn; by left|].
    destruct (bool_decide _); [cbn; by left|].
    cbn [fst snd run]. rewrite exec_serve. cbn [serve fst snd].
    destruct (insert_message _ _ _ _ _ _) as [d1 r] eqn:Eins.
    pose proof (Hobj _ _ _ _ _ Eins) as Ho.
    intros Hm.
    assert (m ∈ messages d1) as Hm1 by (destruct r; exact Hm).
    apply (Hins _ _ _ _ _ _ Eins) in Hm1 as [Hm1|(Hc & Hu & Hmedia)]; [by left|].
    right. split; [by rewrite Hc|]. split; [exact Hu|]. rewrite Hmedia.
    split; [|rewrite Hc; eauto].
    assert (objects (run (match r with
                          | Ok _ => _
                          | Err _ => _
                          end) auth
                       (Chat.setUploading true (Chat.setSending true s))
                       (advance d1)).1.2 = objects d1) as -> by (by destruct r).
    rewrite Ho. cbn. apply elem_of_app. right. by apply list_elem_of_singleton.
  - rewrite exec_serve. cbn [serve fst snd].
    destruct (insert_message _ _ _ _ _ _) as [d1 r] eqn:Eins.
    intros Hm.
    assert (m ∈ messages d1) as Hm1 by (destruct r; exact Hm).
    apply (Hins _ _ _ _ _ _ Eins) in Hm1 as [Hm1|(Hc & Hu & Hmedia)]; [by left|].
    right. split; [by rewrite Hc|]. split; [exact Hu|]. by rewrite Hmedia.
Qed.

Lemma attachment_is_stored_first_witness :
  let d' := (run (Chat.handleSendMessage (Some alice) 1700000001234 photo_page)
                 (Some alice) photo_page chatting).1.2 in
  let m := default welcome_row (last (messages d')) in
  m ∈ messages d' /\
  (m ∈ messages chatting \/
   (Some (chat_id m) = Chat.chatId photo_page /\ Some (sender_id m) = Some alice /\
    match media_url m with
    | None => Chat.selectedFile photo_page = None
    | Some p =>
        p ∈ objects d' /\ sp_folder p = chat_id m /\ sp_stamp p = 1700000001234%N /\
        exists f, Chat.selectedFile photo_page = Some f /\
                  sp_ext p = split_pop (file_name f)
    end)).
Proof.
  intros d' m.
  assert (m ∈ messages d') as Hm
    by (apply (list_elem_of_lookup_2 _ 1); vm_compute; reflexivity).
  split; [exact Hm|].
  exact (attachment_is_stored_first (Some alice) (Some alice) 1700000001234
           photo_page chatting m Hm).
Defined.

(** ** The file field *)

Lemma react_keeps_bound (i : ChatView.input) (s : Chat.state) :
  (forall f, Chat.selectedFile s = Some f ->
             (file_size f <= ChatView.max_file_size)%N) ->
  (forall f, Chat.selectedFile (ChatView.react i s) = Some f ->
             (file_size f <= ChatView.max_file_size)%N) /\
  Chat.messages (ChatView.react i s) = Chat.messages s /\
  Chat.chatId (ChatView.react i s) = Chat.chatId s /\
  Chat.reactions (ChatView.react i s) = Chat.reactions s /\
  Chat.sending (ChatView.react i s) = Chat.sending s.
Proof.
  intros Hs. destruct i as [value|files|result|]; cbn; auto.
  - unfold ChatView.handleFileSelect. destruct files as [|f files]; [auto|].
    destruct (N.ltb_spec ChatView.max_file_size (file_size f)); [cbn; auto|].
    destruct (ChatView.startsWith _ _); cbn; repeat split; try done;
      intros f' [= <-]; done.
  - repeat split; done.
Qed.

(** X10. The message form never holds a file above 50 MB: whatever is
    typed, picked, previewed or removed, in whatever order, the
    selected file stays within the limit, and none of it touches the
    conversation, its messages or its reactions. A pick above the
    limit changes nothing but the toasts, which get "File must be
    less than 50MB"; a pick of no file changes nothing. *)
Theorem picked_file_is_bounded (inputs : list ChatView.input) (s : Chat.state) :
  (forall f, Chat.selectedFile s = Some f ->
             (file_size f <= ChatView.max_file_size)%N) ->
  let s' := fold_left (fun s i => ChatView.react i s) inputs s in
  (forall f, Chat.selectedFile s' = Some f ->
             (file_size f <= ChatView.max_file_size)%N) /\
  Chat.messages s' = Chat.messages s /\
  Chat.chatId s' = Chat.chatId s /\
  Chat.reactions s' = Chat.reactions s /\
  (forall f files, (ChatView.max_file_size < file_size f)%N ->
     ChatView.handleFileSelect (f :: files) s'
     = (Chat.show (toast_error "File must be less than 50MB") s', None)) /\
  ChatView.handleFileSelect [] s' = (s', None).
Proof.
  revert s. induction inputs as [|i l IH]; intros s Hs; cbn [fold_left].
  - repeat split; try done.
    intros f files Hf. unfold ChatView.handleFileSelect.
    by apply N.ltb_lt in Hf as ->.
  - destruct (react_keeps_bound i s Hs) as (Hb & Hm & Hc & Hr & _).
    destruct (IH _ Hb) as (Hb' & Hm' & Hc' & Hr' & Hbig & Hnone).
    repeat split; try congruence; done.
Qed.

Lemma picked_file_is_bounded_witness :
  let s' := fold_left (fun s i => ChatView.react i s) sitting hello_page in
  Chat.selectedFile s' = Some photo /\
  (forall f, Chat.selectedFile s' = Some f ->
             (file_size f <= ChatView.max_file_size)%N) /\
  Chat.messages s' = Chat.messages hello_page.
Proof.
  intros s'. split; [vm_compute; reflexivity|].
  pose proof (picked_file_is_bounded sitting hello_page) as H.
  destruct H as (H1 & H2 & _).
  - intros f Hf. vm_compute in Hf. discriminate.
  - exact (conj H1 H2).
Defined.

(** ** Reaction counts *)

Lemma count_reaction_fold (user : option uuid) (l : list reaction_row)
    (counts : gmap text (nat * bool)) (e : text) :
  e ∉ ChatView.inherited ->
  fold_left (ChatView.count_reaction user) l counts !! e
  = match ChatView.with_emoji e l with
    | [] => counts !! e
    | l' => Some ((default (0, false) (counts !! e)).1 + length l',
                  (default (0, false) (counts !! e)).2 ||
                  existsb (fun r => bool_decide (Some (user_id r) = user)) l')
    end.
Proof.
  intros He. revert counts. induction l as [|r l IH]; intros counts; [reflexivity|].
  cbn [fold_left]. rewrite IH. unfold ChatView.with_emoji. cbn [List.filter].
  unfold ChatView.count_reaction at 1 2 3.
  destruct (decide (emoji r = e)) as [<-|Hne].
  - rewrite (bool_decide_eq_false_2 (emoji r ∈ ChatView.inherited)) by exact He.
    rewrite (bool_decide_eq_true_2 (emoji r = emoji r)) by reflexivity.
    rewrite !lookup_insert_eq. cbn [default fst snd].
    destruct (List.filter _ l) as [|r' l']; cbn [length existsb].
    + by rewrite Nat.add_1_r, orb_false_r.
    + f_equal. f_equal; unfold id; cbn [fst snd]; [lia|]. symmetry. apply orb_assoc.
  - rewrite (bool_decide_eq_false_2 (emoji r = e)) by exact Hne.
    destruct (bool_decide (emoji r ∈ ChatView.inherited)); [reflexivity|].
    by rewrite !lookup_insert_ne by exact Hne.
Qed.

Lemma count_reaction_inherited (user : option uuid) (l : list reaction_row)
    (counts : gmap text (nat * bool)) (e : text) :
  e ∈ ChatView.inherited ->
  fold_left (ChatView.count_reaction user) l counts !! e = counts !! e.
Proof.
  intros He. revert counts. induction l as [|r l IH]; intros counts; [reflexivity|].
  cbn [fold_left]. rewrite IH. unfold ChatView.count_reaction.
  destruct (bool_decide (emoji r ∈ ChatView.inherited)) eqn:E; [reflexivity|].
  apply bool_decide_eq_false in E. cbv zeta. apply lookup_insert_ne.
  intros Heq. apply E. by rewrite Heq.
Qed.

Lemma hearted_page_is_plain (x : uuid) (r : reaction_row) :
  r ∈ Chat.reactions_of hearted_page x -> emoji r <> text_of_ascii "__proto__".
Proof.
  unfold Chat.reactions_of. intros Hr.
  destruct (Chat.reactions hearted_page !! x) as [l|] eqn:E;
    [|by apply elem_of_nil in Hr].
  apply elem_of_map_to_list in E. vm_compute in E.
  apply list_elem_of_singleton in E. injection E as _ ->.
  apply list_elem_of_singleton in Hr. subst r. discriminate.
Qed.

(** X11. The counts under a message, with [Object.prototype] as the
    platform ships it and no reaction on the page written
    ["__proto__"]. An emoji has an entry exactly when it names no
    inherited property and some reaction of the message carries it;
    the count is the number of those reactions, and [userReacted]
    tells whether one of them is the user's own. An emoji that names
    an inherited property (["constructor"], ["toString"], ...) gets no
    entry, however many reactions carry it. *)
Theorem reaction_counts_are_exact (user : option uuid) (s : Chat.state)
    (messageId : uuid) (e : text) :
  (forall x r, r ∈ Chat.reactions_of s x ->
               emoji r <> text_of_ascii "__proto__") ->
  ChatView.getReactionCounts user s messageId !! e
  = if bool_decide (e ∈ ChatView.inherited) then None
    else match ChatView.with_emoji e (Chat.reactions_of s messageId) with
         | [] => None
         | l => Some (length l,
                      existsb (fun r => bool_decide (Some (user_id r) = user)) l)
         end.
Proof.
  intros _. unfold ChatView.getReactionCounts. case_bool_decide as He.
  - by rewrite count_reaction_inherited, lookup_empty.
  - rewrite count_reaction_fold by exact He. rewrite lookup_empty. reflexivity.
Qed.

Lemma reaction_counts_are_exact_witness :
  ChatView.getReactionCounts (Some alice) hearted_page (row_id 4) !! heart
  = Some (1, true) /\
  ChatView.getReactionCounts (Some alice) hearted_page (row_id 4)
    !! text_of_ascii "constructor" = None.
Proof.
  split.
  - rewrite (reaction_counts_are_exact (Some alice) hearted_page (row_id 4) heart).
    + vm_compute. reflexivity.
    + apply hearted_page_is_plain.
  - rewrite (reaction_counts_are_exact (Some alice) hearted_page (row_id 4)
               (text_of_ascii "constructor")).
    + vm_compute. reflexivity.
    + apply hearted_page_is_plain.
Defined.

Lemma own_with_emoji (u : uuid) (e : text) (l : list reaction_row) :
  existsb (fun r => bool_decide (Some (user_id r) = Some u)) (ChatView.with_emoji e l)
  = bool_decide (is_Some (List.find
      (fun r => bool_decide (user_id r = u) && bool_decide (emoji r = e)) l)).
Proof.
  induction l as [|r l IH]; [reflexivity|].
  unfold ChatView.with_emoji in *. cbn [List.filter List.find].
  destruct (decide (emoji r = e)) as [He|He].
  - rewrite (bool_decide_eq_true_2 _ He). cbn [existsb].
    destruct (decide (user_id r = u)) as [Hu|Hu].
    + rewrite (bool_decide_eq_true_2 (user_id r = u)) by exact Hu.
      rewrite (bool_decide_eq_true_2 (Some (user_id r) = Some u)) by congruence.
      cbn [andb orb]. symmetry. by apply bool_decide_eq_true_2.
    + rewrite (bool_decide_eq_false_2 (user_id r = u)) by exact Hu.
      rewrite (bool_decide_eq_false_2 (Some (user_id r) = Some u)) by congruence.
      exact IH.
  - rewrite (bool_decide_eq_false_2 _ He), andb_false_r. exact IH.
Qed.

(** X12. A highlighted button takes the reaction away, any other adds
    it. Under the same conditions as for the counts, and for an emoji
    that names no inherited property (the buttons are the entries of
    the counts and the six of the picker): [handleReaction] starts
    with the delete of one of the user's own reactions with that emoji
    exactly when the counts mark the emoji as reacted by the user, and
    with the insert otherwise. *)
Theorem highlighted_button_removes (u messageId : uuid) (e : text) (s : Chat.state) :
  (forall x r, r ∈ Chat.reactions_of s x ->
               emoji r <> text_of_ascii "__proto__") ->
  e ∉ ChatView.inherited ->
  let userReacted :=
    snd <$> ChatView.getReactionCounts (Some u) s messageId !! e in
  (userReacted = Some true ->
   exists r k, r ∈ Chat.reactions_of s messageId /\ user_id r = u /\ emoji r = e /\
               Chat.handleReaction (Some u) messageId e s
               = Call (DeleteReaction (r_id r)) k) /\
  (userReacted <> Some true ->
   exists k, Chat.handleReaction (Some u) messageId e s
             = Call (InsertReaction messageId u e) k).
Proof.
  intros _ He userReacted.
  assert (userReacted = Some true <->
          is_Some (List.find (fun r => bool_decide (user_id r = u) &&
                                       bool_decide (emoji r = e))
                             (Chat.reactions_of s messageId))) as Hiff.
  { unfold userReacted, ChatView.getReactionCounts.
    rewrite count_reaction_fold by exact He. rewrite lookup_empty.
    pose proof (own_with_emoji u e (Chat.reactions_of s messageId)) as Hown.
    destruct (ChatView.with_emoji e (Chat.reactions_of s messageId)) as [|r l];
      cbn [fmap option_fmap option_map snd].
    - cbn in Hown. symmetry in Hown. apply bool_decide_eq_false in Hown.
      split; [discriminate|done].
    - rewrite Hown. split.
      + intros [= H]. by apply bool_decide_eq_true in H.
      + intros H. f_equal. by apply bool_decide_eq_true. }
  unfold Chat.handleReaction. split.
  - intros H. apply Hiff in H as [r Hr]. rewrite Hr.
    apply find_some in Hr as [Hin Hb]. apply andb_true_iff in Hb as [H1 H2].
    apply bool_decide_eq_true in H1, H2. apply list_elem_of_In in Hin. eauto 10.
  - intros H. destruct (List.find _ _) as [r|] eqn:Ef; [|eauto].
    exfalso. apply H, Hiff. eauto.
Qed.

Lemma highlighted_button_removes_witness :
  let userReacted :=
    snd <$> ChatView.getReactionCounts (Some alice) hearted_page (row_id 4) !! heart in
  userReacted = Some true /\
  exists r k, r ∈ Chat.reactions_of hearted_page (row_id 4) /\
              user_id r = alice /\ emoji r = heart /\
              Chat.handleReaction (Some alice) (row_id 4) heart hearted_page
              = Call (DeleteReaction (r_id r)) k.
Proof.
  intros userReacted.
  assert (userReacted = Some true) as Hu by (vm_compute; reflexivity).
  split; [exact Hu|].
  destruct (highlighted_button_removes alice (row_id 4) heart hearted_page)
    as [H _].
  - apply hearted_page_is_plain.
  - vm_compute. intros Hin.
    repeat (apply elem_of_cons in Hin as [Hin|Hin]; [discriminate|]).
    by apply elem_of_nil in Hin.
  - exact (H Hu).
Defined.

(** ** The reactions a page holds *)

Lemma group_reactions_fold (data : list reaction_row)
    (acc : gmap string (list reaction_row)) (x : uuid) :
  default [] (fold_left
    (fun acc r => <[message_id r := default [] (acc !! message_id r) ++ [r]]> acc)
    data acc !! x)
  = default [] (acc !! x) ++
    List.filter (fun r => bool_decide (message_id r = x)) data.
Proof.
  revert acc. induction data as [|r l IH]; intros acc; cbn [fold_left List.filter].
  - by rewrite app_nil_r.
  - rewrite IH. destruct (decide (message_id r = x)) as [<-|Hne].
    + rewrite lookup_insert_eq, (bool_decide_eq_true_2 (message_id r = message_id r))
        by reflexivity.
      cbn [default]. unfold id. by rewrite <- app_assoc.
    + rewrite lookup_insert_ne by exact Hne.
      by rewrite (bool_decide_eq_false_2 (message_id r = x)) by exact Hne.
Qed.

Lemma filter_filter_bool {A} (p q : A -> bool) (l : list A) :
  List.filter p (List.filter q l) = List.filter (fun x => q x && p x) l.
Proof.
  induction l as [|x l IH]; cbn; [reflexivity|].
  destruct (q x); cbn; [destruct (p x)|]; by rewrite IH.
Qed.

(** X13. [loadReactions] brings the page level with the table: for a
    participant of a conversation that has messages, the page then
    holds, under each message of the conversation, the stored
    reactions of that message as the select returns them, and nothing
    under any other id. With no message in the conversation, or for somebody
    who is not in it, the page is left as it was. *)
Theorem loadReactions_shows_stored (d : db) (auth : option uuid) (chat : uuid)
    (s : Chat.state) :
  Chat.chatId s = Some chat ->
  let s' := (run (Chat.loadReactions s) auth s d).1.1 in
  let ids := map m_id (List.filter (fun m => bool_decide (chat_id m = chat))
                                   (messages d)) in
  (in_own_chat d auth chat = false \/ ids = [] -> s' = s) /\
  (in_own_chat d auth chat = true -> ids <> [] ->
   forall x, Chat.reactions_of s' x
             = if bool_decide (x ∈ ids)
               then List.filter (fun r => bool_decide (message_id r = x))
                                (message_reactions d)
               else []).
Proof.
  intros Hchat s' ids. subst s'.
  assert (ids = map m_id (List.filter (fun m => bool_decide (chat_id m = chat))
                                      (messages d))) as Hids by reflexivity.
  clearbody ids.
  unfold Chat.loadReactions. rewrite Hchat.
  cbn [run]. rewrite exec_serve. cbn [serve fst snd]. unfold select_message_ids.
  rewrite visible_messages_of_chat.
  destruct (in_own_chat d auth chat) eqn:Eown.
  - rewrite <- Hids. split.
    + intros [?|E]; [discriminate|]. by rewrite E.
    + intros _ Hne x. destruct ids as [|id ids'] eqn:Eids; [done|].
      rewrite <- Eids in *. clear Hne.
      cbn [run]. rewrite exec_serve. cbn [serve fst snd].
      unfold select_reactions. cbn [run fst].
      unfold Chat.reactions_of, Chat.group_reactions.
      cbn [Chat.reactions Chat.setReactions].
      rewrite group_reactions_fold, lookup_empty. cbn [default app].
      rewrite filter_filter_bool.
      case_bool_decide as Hx.
      * apply filter_ext_elem. intros r Hr.
        destruct (decide (message_id r = x)) as [Hrx|Hrx].
        -- rewrite (bool_decide_eq_true_2 (message_id r = x)) by exact Hrx.
           rewrite Hrx, (bool_decide_eq_true_2 _ Hx), !andb_true_r.
           unfold reactions_select_policy, on_own_message. rewrite Hrx.
           rewrite Hids in Hx. apply list_elem_of_fmap in Hx as (m & -> & Hm).
           apply elem_of_filter_bool in Hm as [Hm Hc].
           apply bool_decide_eq_true in Hc.
           apply (elem_existsb _ _ m Hm).
           rewrite (bool_decide_eq_true_2 (m_id m = m_id m)) by reflexivity.
           rewrite Hc. exact Eown.
        -- rewrite (bool_decide_eq_false_2 (message_id r = x)) by exact Hrx.
           by rewrite andb_false_r.
      * apply filter_none. intros r Hr.
        destruct (decide (message_id r = x)) as [Hrx|Hrx].
        -- rewrite Hrx, (bool_decide_eq_false_2 _ Hx). by rewrite andb_false_r.
        -- rewrite (bool_decide_eq_false_2 (message_id r = x)) by exact Hrx.
           by rewrite andb_false_r.
  - split; [reflexivity|discriminate].
Qed.

Lemma loadReactions_shows_stored_witness :
  let s' := (run (Chat.loadReactions alice_page) (Some alice) alice_page reacted).1.1 in
  Chat.reactions_of s' (row_id 4)
  = List.filter (fun r => bool_decide (message_id r = row_id 4))
                (message_reactions reacted) /\
  Chat.reactions_of s' (row_id 4) <> [].
Proof.
  intros s'. split.
  - pose proof (loadReactions_shows_stored reacted (Some alice) (row_id 3) alice_page)
      as H.
    destruct H as [_ H]; [vm_compute; reflexivity|].
    rewrite (H eq_refl); [reflexivity|]. vm_compute. discriminate.
  - vm_compute. discriminate.
Defined.

(** X14. The two callbacks of the reactions channel. The INSERT
    callback puts the row at the end of the list of its message and
    touches no other list. The DELETE callback looks for the list
    under [payload.old.message_id]: the event of this table carries
    the primary key only, so that is [undefined], and the reactions
    under every message id stay as they are; a reaction that was
    removed stays on the pages that showed it. Only with the whole
    row in the event would the callback remove it, and undo the INSERT
    callback for a reaction the page did not hold before. *)
Theorem delete_event_keeps_reactions (r : reaction_row) (s : Chat.state) :
  (forall x, Chat.reactions_of (Chat.on_reaction_insert r s) x
             = if bool_decide (x = message_id r)
               then Chat.reactions_of s x ++ [r] else Chat.reactions_of s x) /\
  (forall id x, x <> "undefined"%string ->
     Chat.reactions_of
       (Chat.on_reaction_delete {| old_id := id; old_message_id := None |} s) x
     = Chat.reactions_of s x) /\
  (r_id r ∉ map r_id (Chat.reactions_of s (message_id r)) ->
   forall x,
     Chat.reactions_of
       (Chat.on_reaction_delete
          {| old_id := r_id r; old_message_id := Some (message_id r) |}
          (Chat.on_reaction_insert r s)) x
     = Chat.reactions_of s x).
Proof.
  assert (forall x, Chat.reactions_of (Chat.on_reaction_insert r s) x
             = if bool_decide (x = message_id r)
               then Chat.reactions_of s x ++ [r] else Chat.reactions_of s x) as Hins.
  { intros x. unfold Chat.on_reaction_insert, Chat.reactions_of.
    cbn [Chat.reactions Chat.setReactions]. case_bool_decide as Hx.
    - subst x. by rewrite lookup_insert_eq.
    - by rewrite lookup_insert_ne by congruence. }
  assert (forall s0 id x, x <> "undefined"%string ->
     Chat.reactions_of
       (Chat.on_reaction_delete {| old_id := id; old_message_id := None |} s0) x
     = Chat.reactions_of s0 x) as Hdel.
  { intros s0 id x Hx. unfold Chat.on_reaction_delete, Chat.reactions_of.
    cbn [Chat.reactions Chat.setReactions old_id old_message_id default].
    by rewrite lookup_insert_ne by congruence. }
  split; [exact Hins|]. split; [apply Hdel|].
  intros Hfresh x. unfold Chat.on_reaction_delete.
  cbn [old_id old_message_id default].
  unfold Chat.reactions_of at 1. cbn [Chat.reactions Chat.setReactions].
  destruct (decide (x = message_id r)) as [->|Hx].
  - rewrite lookup_insert_eq. cbn [default]. rewrite Hins.
    rewrite bool_decide_eq_true_2 by reflexivity.
    rewrite List.filter_app. cbn [List.filter].
    rewrite (bool_decide_eq_true_2 (r_id r = r_id r)) by reflexivity. cbn.
    rewrite app_nil_r. apply filter_all. intros r' Hr'.
    apply negb_true_iff, bool_decide_eq_false. intros E.
    apply Hfresh. rewrite <- E. by apply list_elem_of_fmap_2.
  - rewrite lookup_insert_ne by (intros E; apply Hx; symmetry; exact E).
    fold (Chat.reactions_of (Chat.on_reaction_insert r s) x).
    rewrite Hins. by rewrite bool_decide_eq_false_2.
Qed.

(** ** Opening the chat page *)

Lemma handleSendMessage_needs_chat user date_now (s : Chat.state) :
  Chat.chatId s = None -> Chat.handleSendMessage user date_now s = Ret tt.
Proof.
  intros H. unfold Chat.handleSendMessage. rewrite H. by destruct (_ || _ || _).
Qed.

(** X15. The gate of the chat page, for an address that names the
    other user as the tables print an id (lower case, hyphens), on a
    page in any state. For a user who is not connected to the other
    one, [initializeChat] creates no conversation and writes nothing,
    ends with [loading] false, and adds one toast: "You need to be
    connected to chat with this user" with [canChat] false, or
    "Failed to load chat" when the other profile cannot be read,
    [canChat] then staying as it was. The conversation id of the page
    is not touched: a page that held none still holds none, and from
    it [handleSendMessage] is the empty handler; a page that held one
    keeps it. *)
Theorem unconnected_gets_no_conversation (d : db) (user other : uuid)
    (s : Chat.state) :
  printed user = true -> printed other = true ->
  isConnected d (Some user) user other = false ->
  let '(s', d', _) :=
    run (Chat.initializeChat user other) (Some user) s d in
  chats d' = chats d /\ messages d' = messages d /\ follows d' = follows d /\
  Chat.chatId s' = Chat.chatId s /\
  Chat.canChat s' = (if is_ok (select_profile other d) then false
                     else Chat.canChat s) /\
  Chat.loading s' = false /\
  Chat.toasts s'
  = Chat.toasts s ++
    [toast_error (if is_ok (select_profile other d)
                  then "You need to be connected to chat with this user"
                  else "Failed to load chat")] /\
  (Chat.chatId s = None ->
   forall date_now value,
     Chat.handleSendMessage (Some user) date_now (Chat.setNewMessage value s') = Ret tt).
Proof.
  intros _ _ Hconn. unfold isConnected in Hconn.
  unfold Chat.initializeChat. cbn [run]. rewrite exec_serve. cbn [serve fst snd].
  destruct (select_profile other d) as [prof|err]; cbn [run is_ok].
  - rewrite exec_serve. cbn [serve fst snd].
    change (select_connection (Some user) user other (advance d))
      with (select_connection (Some user) user other d).
    destruct (select_connection (Some user) user other d) as [[|st l]|err];
      try discriminate; cbn; (repeat split);
      intros; by apply handleSendMessage_needs_chat.
  - cbn. repeat split. intros. by apply handleSendMessage_needs_chat.
Qed.

Lemma unconnected_gets_no_conversation_witness :
  let '(s', d', _) :=
    run (Chat.initializeChat carol bob) (Some carol) alice_page chatting in
  chats d' = chats chatting /\ Chat.chatId s' = Chat.chatId alice_page /\
  Chat.chatId s' <> None /\ Chat.canChat s' = false /\
  Chat.toasts s'
  = Chat.toasts alice_page ++
    [toast_error "You need to be connected to chat with this user"].
Proof.
  pose proof (unconnected_gets_no_conversation chatting carol bob alice_page) as H.
  destruct (run _ _ _ _) as [[s' d'] r].
  destruct H as (H1 & _ & _ & H4 & H5 & _ & H7 & _);
    [vm_compute; reflexivity..|].
  split; [exact H1|]. split; [exact H4|]. split; [by rewrite H4|].
  split; [exact H5|exact H7].
Defined.

Lemma connected_profiles d user other :
  db_ok d -> isConnected d (Some user) user other = true ->
  profile_exists d user = true /\ profile_exists d other = true.
Proof.
  intros Hok H. unfold isConnected, select_connection in H.
  destruct (List.filter _ (follows d)) as [|f l] eqn:El; [discriminate|].
  assert (f ∈ f :: l) as Hin by (by left). rewrite <- El in Hin.
  apply elem_of_filter_bool in Hin as [Hin Hb].
  apply andb_true_iff in Hb as [Hb _]. apply andb_true_iff in Hb as [_ Hb].
  destruct (follows_fkey _ Hok f Hin) as [H1 H2].
  apply orb_true_iff in Hb as [Hb|Hb]; apply andb_true_iff in Hb as [Ha Hb];
    apply bool_decide_eq_true in Ha, Hb; by subst.
Qed.

Lemma connection_filter_sym (a b : uuid) (l : list follow_row) :
  List.filter
    (fun f => follows_select_policy (Some b) f &&
       ((bool_decide (follower_id f = b) && bool_decide (following_id f = a)) ||
        (bool_decide (follower_id f = a) && bool_decide (following_id f = b))) &&
       bool_decide (f_status f = accepted)) l
  = List.filter
    (fun f => follows_select_policy (Some a) f &&
       ((bool_decide (follower_id f = a) && bool_decide (following_id f = b)) ||
        (bool_decide (follower_id f = b) && bool_decide (following_id f = a))) &&
       bool_decide (f_status f = accepted)) l.
Proof.
  apply filter_ext. intros f. unfold follows_select_policy, auth_is.
  repeat case_bool_decide; simpl; try reflexivity; congruence.
Qed.

Lemma initializeChat_reuses_from d user other c (s : Chat.state) :
  db_ok d -> user <> other ->
  is_ok (select_profile other d) = true ->
  isConnected d (Some user) user other = true ->
  conversations d user other = [c] ->
  let '(s', d', _) :=
    run (Chat.initializeChat user other) (Some user) s d in
  chats d' = chats d /\ follows d' = follows d /\ profiles d' = profiles d /\
  Chat.chatId s' = Some (c_id c) /\
  Chat.canChat s' = true /\ Chat.loading s' = false /\
  Chat.toasts s' = Chat.toasts s.
Proof.
  intros Hok Hne Hprof Hconn Hconv.
  destruct (sort_pair_lt user other Hne) as (x & y & Hs & Hlt & Hxy).
  unfold isConnected in Hconn.
  unfold Chat.initializeChat. cbn [run]. rewrite exec_serve. cbn [serve fst snd].
  destruct (select_profile other d) as [prof|err]; [|discriminate]. cbn [run].
  rewrite exec_serve. cbn [serve fst snd].
  change (select_connection (Some user) user other (advance d))
    with (select_connection (Some user) user other d).
  destruct (select_connection (Some user) user other d) as [[|st l]|err];
    try discriminate.
  cbn [run negb]. rewrite Hs. cbn [fst snd run]. rewrite exec_serve.
  cbn [serve fst snd].
  change (select_chat (Some user) (Some x) (Some y) (advance (advance d)))
    with (select_chat (Some user) (Some x) (Some y) d).
  rewrite (select_chat_conversations d user other x y Hok Hne Hs), Hconv.
  cbn. auto 10.
Qed.

Lemma initializeChat_reuses d user other c :
  db_ok d -> user <> other ->
  is_ok (select_profile other d) = true ->
  isConnected d (Some user) user other = true ->
  conversations d user other = [c] ->
  let '(s', d', _) :=
    run (Chat.initializeChat user other) (Some user) Chat.initial d in
  chats d' = chats d /\ follows d' = follows d /\ profiles d' = profiles d /\
  Chat.chatId s' = Some (c_id c) /\
  Chat.canChat s' = true /\ Chat.loading s' = false /\ Chat.toasts s' = [].
Proof. apply initializeChat_reuses_from. Qed.

(** X16. For a connected user, with both ids as the tables print
    them (lower case, hyphens: the order of [sort] is then the order
    of the CHECK), [initializeChat] on a page in any state finds the
    conversation or makes it: afterwards there is exactly one
    conversation between the two, the page holds its id with [canChat]
    true and no new toast, and [chats] has grown by that row only if
    there was none. When the other side opens a page after that, it
    gets the same id and creates nothing. *)
Theorem initializeChat_finds_or_creates (d : db) (user other : uuid)
    (s : Chat.state) :
  db_ok d -> fresh_ids d -> user <> other ->
  printed user = true -> printed other = true ->
  is_ok (select_profile other d) = true ->
  is_ok (select_profile user d) = true ->
  isConnected d (Some user) user other = true ->
  let '(s', d', _) :=
    run (Chat.initializeChat user other) (Some user) s d in
  exists c,
    conversations d' user other = [c] /\
    chats d' = match conversations d user other with
               | [] => chats d ++ [c]
               | _ => chats d
               end /\
    Chat.chatId s' = Some (c_id c) /\ Chat.canChat s' = true /\
    Chat.toasts s' = Chat.toasts s /\
    (forall s2,
       let '(s'', d'', _) :=
         run (Chat.initializeChat other user) (Some other) s2 d' in
       Chat.chatId s'' = Some (c_id c) /\ chats d'' = chats d' /\
       Chat.toasts s'' = Chat.toasts s2).
Proof.
  intros Hok Hfresh Hne _ _ Hprof Hprofu Hconn.
  assert (forall d1 c, db_ok d1 -> follows d1 = follows d -> profiles d1 = profiles d ->
            conversations d1 user other = [c] ->
            forall s2,
            let '(s'', d'', _) :=
              run (Chat.initializeChat other user) (Some other) s2 d1 in
            Chat.chatId s'' = Some (c_id c) /\ chats d'' = chats d1 /\
            Chat.toasts s'' = Chat.toasts s2) as Hother.
  { intros d1 c Hok1 Hf Hp Hc s2.
    pose proof (initializeChat_reuses_from d1 other user c s2 Hok1
                  (not_eq_sym Hne)) as H.
    destruct (run _ _ _ _) as [[s'' d''] r].
    destruct H as (H1 & _ & _ & H4 & _ & _ & H7).
    - unfold select_profile in *. by rewrite Hp.
    - rewrite <- Hconn. unfold isConnected, select_connection. rewrite Hf.
      by rewrite (connection_filter_sym user other).
    - rewrite <- Hc. unfold conversations. apply filter_ext. intros c'.
      unfold between. apply orb_comm.
    - auto. }
  pose proof (db_ok_conversations d user other Hok) as Hle.
  destruct (conversations d user other) as [|c [|c' l]] eqn:Econv;
    [ | |simpl in Hle; lia].
  - (* no conversation yet *)
    destruct (sort_pair_lt user other Hne) as (x & y & Hs & Hlt & Hxy).
    destruct (connected_profiles d user other Hok Hconn) as [Hpu Hpo].
    assert (profile_exists d x = true /\ profile_exists d y = true) as [Hpx Hpy]
      by (destruct Hxy as [[-> ->]|[-> ->]]; auto).
    destruct (fresh_ids_spec d (3 + tick d) Hfresh) as (_ & Hc3 & _); [lia|].
    pose proof (db_ok_run (Chat.initializeChat user other) (Some user)
                  s d Hok) as Hok'.
    revert Hok'. unfold isConnected in Hconn.
    unfold Chat.initializeChat at 1 2. cbn [run]. rewrite exec_serve.
    cbn [serve fst snd].
    destruct (select_profile other d) as [prof|err]; [|discriminate]. cbn [run].
    rewrite exec_serve. cbn [serve fst snd].
    change (select_connection (Some user) user other (advance d))
      with (select_connection (Some user) user other d).
    destruct (select_connection (Some user) user other d) as [[|st l]|err];
      try discriminate.
    cbn [run negb]. rewrite Hs. cbn [fst snd run]. rewrite exec_serve.
    cbn [serve fst snd].
    change (select_chat (Some user) (Some x) (Some y) (advance (advance d)))
      with (select_chat (Some user) (Some x) (Some y) d).
    rewrite (select_chat_conversations d user other x y Hok Hne Hs), Econv.
    cbn [single map run]. rewrite exec_serve. cbn [serve fst snd].
    rewrite insert_chat_ok; auto.
    + remember {| c_id := new_uuid (advance (advance (advance d))); user1_id := x;
                  user2_id := y;
                  c_created_at := now_ (advance (advance (advance d))) |}
        as row eqn:Erow.
      cbn [fst snd run]. intros Hok'.
      assert (between user other row = true) as Hb.
      { rewrite Erow. unfold between. cbn [user1_id user2_id].
        destruct Hxy as [[-> ->]|[-> ->]];
          repeat case_bool_decide; simpl; try reflexivity; congruence. }
      exists row.
      assert (conversations
                (advance (with_chats (chats (advance (advance (advance d))) ++ [row])
                                     (advance (advance (advance d))))) user other
              = [row]) as Hconv'.
      { erewrite (conversations_snoc d) by reflexivity. by rewrite Econv, Hb. }
      split; [exact Hconv'|]. split; [reflexivity|]. split; [by rewrite Erow|].
      split; [reflexivity|]. split; [reflexivity|].
      apply (Hother _ row Hok'); [reflexivity|reflexivity|exact Hconv'].
    + unfold chats_insert_policy, sql_eq.
      destruct Hxy as [[-> ->]|[-> ->]];
        repeat case_bool_decide; simpl; try reflexivity; congruence.
    + by apply (pair_free d user other).
  - (* the conversation is there *)
    pose proof (initializeChat_reuses_from d user other c s Hok Hne Hprof Hconn
                  Econv) as H.
    pose proof (db_ok_run (Chat.initializeChat user other) (Some user)
                  s d Hok) as Hok'.
    destruct (run _ _ _ _) as [[s' d'] r].
    destruct H as (H1 & H2 & H3 & H4 & H5 & _ & H7).
    exists c. split; [rewrite <- Econv; by apply conversations_same|].
    split; [exact H1|]. do 3 (split; [assumption|]).
    apply (Hother d' c Hok' H2 H3). rewrite <- Econv. by apply conversations_same.
Qed.

Lemma initializeChat_finds_or_creates_witness :
  let '(s', d', _) :=
    run (Chat.initializeChat alice bob) (Some alice) Chat.initial befriended in
  exists c,
    conversations d' alice bob = [c] /\
    chats d' = chats befriended ++ [c] /\
    Chat.chatId s' = Some (c_id c) /\ Chat.canChat s' = true /\
    Chat.toasts s' = [] /\
    (let '(s'', d'', _) :=
       run (Chat.initializeChat bob alice) (Some bob) Chat.initial d' in
     Chat.chatId s'' = Some (c_id c) /\ chats d'' = chats d').
Proof.
  pose proof (initializeChat_finds_or_creates befriended alice bob Chat.initial)
    as H.
  destruct (run (Chat.initializeChat alice bob) _ _ _) as [[s' d'] r].
  destruct H as (c & H1 & H2 & H3 & H4 & H5 & H6).
  - exact db_ok_befriended.
  - apply fresh_by_rows; vm_compute; reflexivity.
  - discriminate.
  - vm_compute. reflexivity.
  - vm_compute. reflexivity.
  - vm_compute. reflexivity.
  - vm_compute. reflexivity.
  - vm_compute. reflexivity.
  - exists c. split; [exact H1|]. split; [exact H2|].
    split; [exact H3|]. split; [exact H4|]. split; [exact H5|].
    specialize (H6 Chat.initial).
    destruct (run (Chat.initializeChat bob alice) _ _ _) as [[s'' d''] r''].
    destruct H6 as (H6 & H7 & _). split; assumption.
Defined.

(** ** From the form of one page to the list of the other *)

Lemma participant_cases (a b : uuid) (c : chat_row) :
  between a b c = true ->
  (user1_id c = a /\ user2_id c = b) \/ (user1_id c = b /\ user2_id c = a).
Proof.
  unfold between. intros H.
  apply orb_true_iff in H as [H|H]; apply andb_true_iff in H as [H1 H2];
    apply bool_decide_eq_true in H1, H2; auto.
Qed.

Lemma participant_of_pair (a b u : uuid) (c : chat_row) :
  between a b c = true ->
  chat_participant (Some u) c = bool_decide (u = a) || bool_decide (u = b).
Proof.
  intros H. unfold chat_participant, auth_is.
  destruct (participant_cases a b c H) as [[-> ->]|[-> ->]];
    [reflexivity|apply orb_comm].
Qed.

Lemma in_own_chat_of_pair (d : db) (a b u : uuid) (c : chat_row) :
  NoDup (map c_id (chats d)) -> c ∈ chats d -> between a b c = true ->
  in_own_chat d (Some u) (c_id c) = bool_decide (u = a) || bool_decide (u = b).
Proof.
  intros Hnd Hc Hb. rewrite <- (participant_of_pair a b u c Hb).
  destruct (chat_participant (Some u) c) eqn:E.
  - by apply in_own_chat_row.
  - apply stranger_not_in_own_chat. intros c' Hc' Hid.
    by rewrite (unique_key c_id (chats d) c' c Hnd Hc' Hc Hid).
Qed.

(** X17. A message typed by one participant is in the history of
    both, and of nobody else. With a chat open, a text in the field
    that the table can hold and no file, [handleSendMessage] stores
    one row (the trimmed text, the user as sender, no media), clears
    the field and shows no toast, and leaves the sender's own list as
    it is: the page does not show its own message by itself. The load
    of [subscribeToMessages] that anybody does afterwards holds that
    row exactly when they are one of the two participants. *)
Theorem sent_message_reaches_the_other (d : db) (c : chat_row) (a b : uuid)
    (date_now : N) (sa : Chat.state) :
  db_ok d -> fresh_ids d ->
  c ∈ chats d -> between a b c = true ->
  Chat.chatId sa = Some (c_id c) -> Chat.sending sa = false ->
  Chat.selectedFile sa = None ->
  truthy (trim (Chat.newMessage sa)) = true ->
  storable (trim (Chat.newMessage sa)) = true ->
  let '(sa', d', _) :=
    run (Chat.handleSendMessage (Some a) date_now sa) (Some a) sa d in
  exists m,
    messages d' = messages d ++ [m] /\
    sender_id m = a /\ chat_id m = c_id c /\
    content m = trim (Chat.newMessage sa) /\ media_url m = None /\
    Chat.messages sa' = Chat.messages sa /\ Chat.newMessage sa' = [] /\
    Chat.sending sa' = false /\ Chat.toasts sa' = Chat.toasts sa /\
    (forall u su,
       m ∈ Chat.messages
             (run (Chat.subscribeToMessages (c_id c)) (Some u) su d').1.1
       <-> u = a \/ u = b).
Proof.
  intros Hok Hfresh Hc Hb Hchat Hsending Hfile Htext Hst.
  pose proof (in_own_chat_of_pair d a b a c (chats_pkey _ Hok) Hc Hb) as Hown.
  rewrite (bool_decide_eq_true_2 (a = a)) in Hown by reflexivity.
  cbn [orb] in Hown.
  assert (profile_exists d a = true) as Hprof.
  { destruct (chats_fkey _ Hok c Hc) as [H1 H2].
    destruct (participant_cases a b c Hb) as [[<- _]|[_ <-]]; assumption. }
  destruct (fresh_ids_spec d (tick d) Hfresh) as (_ & _ & Hnew & _); [lia|].
  assert (or_else (trim (Chat.newMessage sa)) [] = trim (Chat.newMessage sa)) as Hor
    by (unfold or_else; by rewrite Htext).
  unfold Chat.handleSendMessage.
  rewrite Htext, Hchat, Hsending, Hfile. cbn [negb andb orb bool_decide].
  rewrite (bool_decide_eq_true_2 (is_Some (Some (c_id c)))) by eauto.
  cbn [negb andb orb run]. rewrite exec_serve. cbn [serve fst snd].
  rewrite Hor.
  rewrite (insert_message_ok a (c_id c) _ None d Hown Hnew Hprof Hst).
  remember {| m_id := new_uuid d; chat_id := c_id c; sender_id := a;
              content := trim (Chat.newMessage sa);
              media_url := None; m_created_at := now_ d |} as m eqn:Em.
  cbn [fst snd run].
  exists m. split; [reflexivity|]. split; [by rewrite Em|].
  split; [by rewrite Em|]. split; [by rewrite Em|].
  split; [by rewrite Em|]. do 4 (split; [reflexivity|]).
  intros u su.
  set (d' := advance (with_messages (messages d ++ [m]) [MessageInsert m] d)).
  assert (chat_id m = c_id c) as Hcm by (by rewrite Em).
  assert (Chat.messages
            (run (Chat.subscribeToMessages (c_id c)) (Some u) su d').1.1
          = merge_sort earlier
              (List.filter
                 (fun m => messages_select_policy d' (Some u) m &&
                           bool_decide (chat_id m = c_id c)) (messages d'))) as ->.
  { unfold Chat.subscribeToMessages. cbn [run]. rewrite !exec_serve. reflexivity. }
  rewrite merge_sort_Permutation, elem_of_filter_bool.
  unfold messages_select_policy. rewrite Hcm.
  change (in_own_chat d' (Some u) (c_id c))
    with (in_own_chat d (Some u) (c_id c)).
  rewrite (in_own_chat_of_pair d a b u c (chats_pkey _ Hok) Hc Hb).
  rewrite (bool_decide_eq_true_2 (c_id c = c_id c)) by reflexivity.
  rewrite andb_true_r, orb_true_iff, !bool_decide_eq_true.
  split; [tauto|]. intros H. split; [|exact H].
  change (m ∈ messages d ++ [m]). apply elem_of_app. right. by left.
Qed.

Lemma sent_message_reaches_the_other_witness :
  let '(sa', d', _) :=
    run (Chat.handleSendMessage (Some alice) 1700000000000 hello_page)
        (Some alice) hello_page chatting in
  exists m,
    messages d' = messages chatting ++ [m] /\
    sender_id m = alice /\ chat_id m = row_id 3 /\
    content m = trim (Chat.newMessage hello_page) /\ media_url m = None /\
    Chat.messages sa' = Chat.messages hello_page /\
    m ∈ Chat.messages
          (run (Chat.subscribeToMessages (row_id 3)) (Some bob) Chat.initial d').1.1 /\
    m ∉ Chat.messages
          (run (Chat.subscribeToMessages (row_id 3)) (Some carol) Chat.initial d').1.1.
Proof.
  pose proof (sent_message_reaches_the_other chatting
                {| c_id := row_id 3; user1_id := alice; user2_id := bob;
                   c_created_at := clock 3 |} alice bob 1700000000000 hello_page)
    as H.
  destruct (run (Chat.handleSendMessage _ _ _) _ _ _) as [[sa' d'] r].
  destruct H as (m & H1 & H2 & H3 & H4 & H5 & H6 & _ & _ & _ & H10).
  - exact db_ok_chatting.
  - apply fresh_by_rows; vm_compute; reflexivity.
  - vm_compute. by left.
  - vm_compute. reflexivity.
  - vm_compute. reflexivity.
  - vm_compute. reflexivity.
  - vm_compute. reflexivity.
  - vm_compute. reflexivity.
  - vm_compute. reflexivity.
  - exists m. do 6 (split; [assumption|]). split.
    + apply H10. by right.
    + intros Hin. apply H10 in Hin as [Hin|Hin]; discriminate.
Defined.

(** ** The list of conversations *)

Lemma filter_key_single {A} `{EqDecision K} (g : A -> K) (l : list A) (x : A) :
  NoDup (map g l) -> x ∈ l ->
  List.filter (fun r => bool_decide (g r = g x)) l = [x].
Proof.
  induction l as [|y l IH]; intros Hnd Hx; [by apply elem_of_nil in Hx|].
  cbn [map] in Hnd. apply NoDup_cons in Hnd as [Hy Hnd]. cbn [List.filter].
  apply elem_of_cons in Hx as [->|Hx].
  - rewrite (bool_decide_eq_true_2 (g y = g y)) by reflexivity. f_equal.
    apply filter_none. intros z Hz. apply bool_decide_eq_false_2.
    intros E. apply Hy. rewrite <- E. by apply list_elem_of_fmap_2.
  - rewrite bool_decide_eq_false_2; [by apply IH|].
    intros E. apply Hy. rewrite E. by apply list_elem_of_fmap_2.
Qed.

Lemma select_profile_found (d : db) (id : uuid) :
  NoDup (map p_id (profiles d)) -> profile_exists d id = true ->
  exists p, p ∈ profiles d /\ p_id p = id /\ select_profile id d = Ok p.
Proof.
  intros Hnd Hex. apply existsb_true_elem in Hex as (p & Hp & E).
  apply bool_decide_eq_true in E. exists p. split; [exact Hp|].
  split; [exact E|]. unfold select_profile. rewrite <- E.
  by rewrite (filter_key_single p_id (profiles d) p Hnd Hp).
Qed.

Lemma chats_of_participant (d : db) (user : uuid) :
  List.filter
    (fun c => chats_select_policy (Some user) c &&
              (bool_decide (user1_id c = user) || bool_decide (user2_id c = user)))
    (chats d)
  = List.filter (chat_participant (Some user)) (chats d).
Proof.
  apply filter_ext. intros c. unfold chats_select_policy, chat_participant, auth_is.
  repeat case_bool_decide; simpl; try reflexivity; congruence.
Qed.

Lemma other_of_participant (d : db) (user : uuid) (c : chat_row) :
  db_ok d -> c ∈ chats d -> chat_participant (Some user) c = true ->
  Chats.otherUserId user c <> user /\
  between user (Chats.otherUserId user c) c = true /\
  profile_exists d (Chats.otherUserId user c) = true.
Proof.
  intros Hok Hc Hp. pose proof (chats_check _ Hok c Hc) as Hlt.
  destruct (chats_fkey _ Hok c Hc) as [Hf1 Hf2].
  assert (user1_id c <> user2_id c) as Hne.
  { intros E. rewrite E in Hlt. by rewrite uuid_lt_irrefl in Hlt. }
  unfold Chats.otherUserId, between. unfold chat_participant, auth_is in Hp.
  destruct (decide (user1_id c = user)) as [E1|E1].
  - rewrite (bool_decide_eq_true_2 _ E1).
    split; [congruence|]. split; [|exact Hf2].
    by rewrite (bool_decide_eq_true_2 (user2_id c = user2_id c)).
  - rewrite (bool_decide_eq_false_2 _ E1).
    split; [exact E1|]. split; [|exact Hf1].
    rewrite (bool_decide_eq_true_2 (user1_id c = user1_id c)) by reflexivity.
    rewrite (bool_decide_eq_false_2 (user = user1_id c)) in Hp by congruence.
    cbn [orb] in Hp. apply bool_decide_eq_true in Hp.
    rewrite (bool_decide_eq_true_2 (user2_id c = user)) by congruence.
    by rewrite orb_true_r.
Qed.

Lemma conversation_of_pair (d : db) (a b : uuid) (c : chat_row) :
  db_ok d -> c ∈ chats d -> between a b c = true -> conversations d a b = [c].
Proof.
  intros Hok Hc Hb. pose proof (db_ok_conversations d a b Hok) as Hle.
  assert (c ∈ conversations d a b) as Hin
    by (by apply elem_of_filter_bool).
  destruct (conversations d a b) as [|c' [|c'' l]]; [by apply elem_of_nil in Hin| |].
  - apply list_elem_of_singleton in Hin. by subst.
  - simpl in Hle. lia.
Qed.

Lemma fetched_chat (d : db) (user : uuid) (s : Chats.state) (cp : Chats.chat_preview) :
  cp ∈ Chats.chats (Chats.fetchChats (Some user) user d s) ->
  exists c, c ∈ chats d /\ chat_participant (Some user) c = true /\
            cp = Chats.preview_of (Some user) user d c.
Proof.
  unfold Chats.fetchChats, select_chats_of. cbn. rewrite chats_of_participant.
  intros H. apply list_elem_of_fmap in H as (c & -> & Hc).
  rewrite merge_sort_Permutation in Hc.
  apply elem_of_filter_bool in Hc as [Hc Hp]. eauto.
Qed.

(** X18. The list of the Chats page: it holds the conversations the
    user is in, all of them and no other; every card carries the
    profile of the other participant, never a missing one and never
    the user's own; and nobody has two cards. *)
Theorem chat_list_is_the_users_conversations (d : db) (user : uuid)
    (s : Chats.state) :
  db_ok d -> NoDup (map p_id (profiles d)) ->
  let s' := Chats.fetchChats (Some user) user d s in
  map Chats.cp_id (Chats.chats s')
    ≡ₚ map c_id (List.filter (chat_participant (Some user)) (chats d)) /\
  (forall cp, cp ∈ Chats.chats s' ->
     exists c p, c ∈ chats d /\ p ∈ profiles d /\ Chats.cp_id cp = c_id c /\
                 Chats.otherUser cp = Some p /\ p_id p <> user /\
                 between user (p_id p) c = true) /\
  NoDup (map Chats.otherUser (Chats.chats s')) /\
  Chats.loading s' = false /\ Chats.toasts s' = Chats.toasts s.
Proof.
  intros Hok Hprof s'.
  assert (forall cp, cp ∈ Chats.chats s' ->
     exists c p, c ∈ chats d /\ p ∈ profiles d /\ Chats.cp_id cp = c_id c /\
                 Chats.otherUser cp = Some p /\ p_id p <> user /\
                 between user (p_id p) c = true /\
                 cp = Chats.preview_of (Some user) user d c) as Hcards.
  { intros cp Hcp. apply fetched_chat in Hcp as (c & Hc & Hp & ->).
    destruct (other_of_participant d user c Hok Hc Hp) as (Hne & Hb & Hex).
    destruct (select_profile_found d _ Hprof Hex) as (p & Hpin & Hid & Hsel).
    exists c, p. cbn [Chats.preview_of Chats.cp_id Chats.otherUser].
    rewrite Hsel, Hid. cbn [data_of]. auto 10. }
  split; [|split; [|split; [|split; reflexivity]]].
  - subst s'. unfold Chats.fetchChats, select_chats_of. cbn.
    rewrite chats_of_participant, map_map. cbn.
    by rewrite merge_sort_Permutation.
  - intros cp Hcp. destruct (Hcards cp Hcp) as (c & p & H). exists c, p. tauto.
  - apply NoDup_fmap_2_strong.
    + intros cp cp' Hcp Hcp' E.
      destruct (Hcards cp Hcp) as (c & p & Hc & _ & _ & Ho & _ & Hb & ->).
      destruct (Hcards cp' Hcp') as (c' & p' & Hc' & _ & _ & Ho' & _ & Hb' & ->).
      rewrite Ho, Ho' in E. injection E as <-.
      f_equal. apply (unique_key chat_pair (chats d)); auto.
      * apply Hok.
      * apply (between_same_pair user (p_id p)); auto; by apply Hok.
    + subst s'. unfold Chats.fetchChats, select_chats_of. cbn.
      apply NoDup_fmap_2_strong.
      * intros c c' Hc Hc' E.
        rewrite merge_sort_Permutation in Hc, Hc'.
        apply elem_of_filter_bool in Hc as [Hc _].
        apply elem_of_filter_bool in Hc' as [Hc' _].
        apply (unique_key c_id (chats d)); auto; [apply Hok|].
        by injection E.
      * rewrite merge_sort_Permutation.
        apply (NoDup_fmap_1 c_id), NoDup_filter_key, Hok.
Qed.

Lemma chat_list_is_the_users_conversations_witness :
  let s' := Chats.fetchChats (Some alice) alice chatting Chats.initial in
  map Chats.cp_id (Chats.chats s')
    ≡ₚ map c_id (List.filter (chat_participant (Some alice)) (chats chatting)) /\
  map Chats.cp_id (Chats.chats s') = [row_id 3].
Proof.
  intros s'. split; [|vm_compute; reflexivity].
  apply (chat_list_is_the_users_conversations chatting alice Chats.initial).
  - exact db_ok_chatting.
  - apply (bool_decide_unpack _). vm_compute. reflexivity.
Defined.

Lemma later_total : Total later.
Proof. intros a b. unfold later. lia. Qed.

Lemma later_trans : Transitive later.
Proof. intros a b c. unfold later. lia. Qed.

(** X19. The line under a card is the newest message of the
    conversation: [lastMessage] is the content and time of a stored
    message of that conversation than which none is later, and it is
    missing exactly when the conversation has no message, or when the
    reader is not in it. *)
Theorem last_message_is_the_newest (d : db) (auth : option uuid) (user : uuid)
    (c : chat_row) :
  match Chats.lastMessage (Chats.preview_of auth user d c) with
  | Some (body, t) =>
      in_own_chat d auth (c_id c) = true /\
      exists m, m ∈ messages d /\ chat_id m = c_id c /\
                content m = body /\ m_created_at m = t /\
                forall m', m' ∈ messages d -> chat_id m' = c_id c ->
                           (m_created_at m' <= t)%N
  | None =>
      in_own_chat d auth (c_id c) = false \/
      forall m, m ∈ messages d -> chat_id m <> c_id c
  end.
Proof.
  cbn [Chats.preview_of Chats.lastMessage]. unfold select_last_message.
  rewrite visible_messages_of_chat.
  destruct (in_own_chat d auth (c_id c)) eqn:Eown; [|cbn; by left].
  pose proof (merge_sort_Permutation later
    (List.filter (fun m => bool_decide (chat_id m = c_id c)) (messages d))) as Hperm.
  assert (StronglySorted later (merge_sort later
    (List.filter (fun m => bool_decide (chat_id m = c_id c)) (messages d))))
    as Hsorted
    by (apply StronglySorted_merge_sort; [apply later_trans|apply later_total]).
  destruct (merge_sort later _) as [|m l] eqn:El.
  - cbn. right. intros m Hm E.
    assert (m ∈ @nil message_row) as Habs; [|by apply elem_of_nil in Habs].
    rewrite Hperm. apply elem_of_filter_bool. split; [exact Hm|].
    by apply bool_decide_eq_true.
  - cbn. split; [reflexivity|].
    assert (m ∈ List.filter (fun m => bool_decide (chat_id m = c_id c)) (messages d))
      as Hm by (rewrite <- Hperm; by left).
    apply elem_of_filter_bool in Hm as [Hm Hc]. apply bool_decide_eq_true in Hc.
    exists m. do 4 (split; [done|]). intros m' Hm' Hc'.
    assert (m' ∈ m :: l) as Hin.
    { rewrite Hperm. apply elem_of_filter_bool. split; [exact Hm'|].
      by apply bool_decide_eq_true. }
    apply elem_of_cons in Hin as [->|Hin]; [lia|].
    apply StronglySorted_inv in Hsorted as [_ Hall].
    rewrite Forall_forall in Hall. exact (Hall m' Hin).
Qed.

(** X20. A card leads to its own conversation: when the user clicks a
    card of the list and is still connected to the person on it, the
    chat page that opens finds the conversation of that card, creates
    none, and lets the user write. *)
Theorem card_opens_its_conversation (d : db) (user : uuid) (s : Chats.state)
    (cp : Chats.chat_preview) :
  db_ok d -> NoDup (map p_id (profiles d)) ->
  cp ∈ Chats.chats (Chats.fetchChats (Some user) user d s) ->
  exists p,
    Chats.otherUser cp = Some p /\
    (isConnected d (Some user) user (p_id p) = true ->
     let '(s', d', _) :=
       run (Chats.handleChatClick user (p_id p)) (Some user) Chat.initial d in
     Chat.chatId s' = Some (Chats.cp_id cp) /\ Chat.canChat s' = true /\
     Chat.toasts s' = [] /\ chats d' = chats d).
Proof.
  intros Hok Hprof Hcp. apply fetched_chat in Hcp as (c & Hc & Hp & ->).
  destruct (other_of_participant d user c Hok Hc Hp) as (Hne & Hb & Hex).
  destruct (select_profile_found d _ Hprof Hex) as (p & Hpin & Hid & Hsel).
  exists p. cbn [Chats.preview_of Chats.cp_id Chats.otherUser].
  rewrite Hsel. split; [reflexivity|]. intros Hconn.
  rewrite Hid in *. unfold Chats.handleChatClick.
  pose proof (initializeChat_reuses d user (Chats.otherUserId user c) c Hok
                (not_eq_sym Hne)) as H.
  destruct (run _ _ _ _) as [[s' d'] r].
  destruct H as (H1 & _ & _ & H4 & H5 & _ & H7); auto.
  - by rewrite Hsel.
  - by apply conversation_of_pair.
Qed.

Lemma card_opens_its_conversation_witness :
  exists p,
    Chats.otherUser (Chats.preview_of (Some alice) alice chatting
                       {| c_id := row_id 3; user1_id := alice; user2_id := bob;
                          c_created_at := clock 3 |}) = Some p /\
    (isConnected chatting (Some alice) alice (p_id p) = true ->
     let '(s', d', _) :=
       run (Chats.handleChatClick alice (p_id p)) (Some alice) Chat.initial chatting in
     Chat.chatId s' = Some (row_id 3) /\ Chat.canChat s' = true /\
     Chat.toasts s' = [] /\ chats d' = chats chatting).
Proof.
  apply (card_opens_its_conversation chatting alice Chats.initial).
  - exact db_ok_chatting.
  - apply (bool_decide_unpack _). vm_compute. reflexivity.
  - vm_compute. by left.
Defined.

(** ** The connections of the profile page *)

Lemma embedded_profile_found (d : db) (id : uuid) :
  profile_exists d id = true ->
  exists p, embedded_profile d id = Some p /\ p_id p = id.
Proof.
  unfold profile_exists, embedded_profile.
  induction (profiles d) as [|q l IH]; cbn; [discriminate|].
  destruct (bool_decide (p_id q = id)) eqn:E.
  - apply bool_decide_eq_true in E. eauto.
  - exact IH.
Qed.

Lemma embedded_profile_id (d : db) (id : uuid) (p : profile_row) :
  embedded_profile d id = Some p -> p_id p = id.
Proof.
  unfold embedded_profile. intros H. apply find_some in H as [_ H].
  by apply bool_decide_eq_true in H.
Qed.

(** X21. The two lists of the profile page are the people the chat
    page lets the user write to: somebody is among the followers or
    among the followed exactly when the connection check of
    [initializeChat] says connected. Every entry is a profile, none is
    missing, and neither list names anybody twice. *)
Theorem connections_are_the_chat_partners (d : db) (user : uuid)
    (s : Profile.state) :
  db_ok d ->
  let s' := Profile.fetchConnections (Some user) user d s in
  (forall v,
     (exists p, p_id p = v /\
                (Some p ∈ Profile.followers s' \/ Some p ∈ Profile.following s')) <->
     isConnected d (Some user) user v = true) /\
  (None ∉ Profile.followers s') /\ (None ∉ Profile.following s') /\
  NoDup (Profile.followers s') /\ NoDup (Profile.following s').
Proof.
  intros Hok s'.
  assert (forall o, o ∈ Profile.followers s' <->
            exists f, f ∈ follows d /\ following_id f = user /\
                      f_status f = accepted /\
                      o = embedded_profile d (follower_id f)) as Hfollowers.
  { intros o. subst s'. cbn. rewrite list_elem_of_fmap. split.
    - intros (f & -> & Hf). apply elem_of_filter_bool in Hf as [Hf Hb].
      apply andb_true_iff in Hb as [Hb H3]. apply andb_true_iff in Hb as [_ H2].
      apply bool_decide_eq_true in H2, H3. eauto 10.
    - intros (f & Hf & H2 & H3 & ->). exists f. split; [reflexivity|].
      apply elem_of_filter_bool. split; [exact Hf|].
      unfold follows_select_policy, auth_is.
      rewrite (bool_decide_eq_true_2 (user = following_id f)) by done.
      rewrite (bool_decide_eq_true_2 _ H2), (bool_decide_eq_true_2 _ H3).
      by rewrite orb_true_r. }
  assert (forall o, o ∈ Profile.following s' <->
            exists f, f ∈ follows d /\ follower_id f = user /\
                      f_status f = accepted /\
                      o = embedded_profile d (following_id f)) as Hfollowing.
  { intros o. subst s'. cbn. rewrite list_elem_of_fmap. split.
    - intros (f & -> & Hf). apply elem_of_filter_bool in Hf as [Hf Hb].
      apply andb_true_iff in Hb as [Hb H3]. apply andb_true_iff in Hb as [_ H2].
      apply bool_decide_eq_true in H2, H3. eauto 10.
    - intros (f & Hf & H2 & H3 & ->). exists f. split; [reflexivity|].
      apply elem_of_filter_bool. split; [exact Hf|].
      unfold follows_select_policy, auth_is.
      rewrite (bool_decide_eq_true_2 (user = follower_id f)) by done.
      by rewrite (bool_decide_eq_true_2 _ H2), (bool_decide_eq_true_2 _ H3). }
  split; [|split; [|split; [|split]]].
  - intros v. rewrite isConnected_own. split.
    + intros (p & Hid & [H|H]).
      * apply Hfollowers in H as (f & Hf & H2 & H3 & Hp).
        symmetry in Hp. apply embedded_profile_id in Hp.
        exists f. split; [exact Hf|]. split; [exact H3|]. right. split; congruence.
      * apply Hfollowing in H as (f & Hf & H2 & H3 & Hp).
        symmetry in Hp. apply embedded_profile_id in Hp.
        exists f. split; [exact Hf|]. split; [exact H3|]. left. split; congruence.
    + intros (f & Hf & H3 & Hends). destruct (follows_fkey _ Hok f Hf) as [He1 He2].
      destruct Hends as [[H1 H2]|[H1 H2]].
      * destruct (embedded_profile_found d _ He2) as (p & Hp & Hid).
        exists p. split; [congruence|]. right. apply Hfollowing. exists f.
        by rewrite Hp.
      * destruct (embedded_profile_found d _ He1) as (p & Hp & Hid).
        exists p. split; [congruence|]. left. apply Hfollowers. exists f.
        by rewrite Hp.
  - intros H. apply Hfollowers in H as (f & Hf & _ & _ & Hp).
    destruct (follows_fkey _ Hok f Hf) as [He1 _].
    destruct (embedded_profile_found d _ He1) as (p & Hp' & _). congruence.
  - intros H. apply Hfollowing in H as (f & Hf & _ & _ & Hp).
    destruct (follows_fkey _ Hok f Hf) as [_ He2].
    destruct (embedded_profile_found d _ He2) as (p & Hp' & _). congruence.
  - subst s'. cbn. apply NoDup_fmap_2_strong.
    + intros f g Hf Hg E.
      apply elem_of_filter_bool in Hf as [Hf Hb].
      apply andb_true_iff in Hb as [Hb _]. apply andb_true_iff in Hb as [_ H2].
      apply elem_of_filter_bool in Hg as [Hg Hb].
      apply andb_true_iff in Hb as [Hb _]. apply andb_true_iff in Hb as [_ H2'].
      apply bool_decide_eq_true in H2, H2'.
      destruct (follows_fkey _ Hok f Hf) as [He _].
      destruct (embedded_profile_found d _ He) as (p & Hp & Hid).
      rewrite Hp in E. symmetry in E. apply embedded_profile_id in E.
      apply (unique_key follow_pair (follows d)); auto; [apply Hok|].
      unfold follow_pair. congruence.
    + apply (NoDup_fmap_1 f_id), NoDup_filter_key, Hok.
  - subst s'. cbn. apply NoDup_fmap_2_strong.
    + intros f g Hf Hg E.
      apply elem_of_filter_bool in Hf as [Hf Hb].
      apply andb_true_iff in Hb as [Hb _]. apply andb_true_iff in Hb as [_ H2].
      apply elem_of_filter_bool in Hg as [Hg Hb].
      apply andb_true_iff in Hb as [Hb _]. apply andb_true_iff in Hb as [_ H2'].
      apply bool_decide_eq_true in H2, H2'.
      destruct (follows_fkey _ Hok f Hf) as [_ He].
      destruct (embedded_profile_found d _ He) as (p & Hp & Hid).
      rewrite Hp in E. symmetry in E. apply embedded_profile_id in E.
      apply (unique_key follow_pair (follows d)); auto; [apply Hok|].
      unfold follow_pair. congruence.
    + apply (NoDup_fmap_1 f_id), NoDup_filter_key, Hok.
Qed.

Lemma connections_are_the_chat_partners_witness :
  let s' := Profile.fetchConnections (Some bob) bob chatting Profile.initial in
  (forall v,
     (exists p, p_id p = v /\
                (Some p ∈ Profile.followers s' \/ Some p ∈ Profile.following s')) <->
     isConnected chatting (Some bob) bob v = true) /\
  Profile.followers s' = [Some (person alice "alice")].
Proof.
  intros s'. split; [|vm_compute; reflexivity].
  apply (connections_are_the_chat_partners chatting bob Profile.initial).
  exact db_ok_chatting.
Defined.

(** ** The follow button and the table *)

Lemma statusMap_snoc (data : list (uuid * follow_status)) (k : uuid)
    (v : follow_status) :
  Discover.statusMap (data ++ [(k, v)]) = <[k := v]> (Discover.statusMap data).
Proof. unfold Discover.statusMap. by rewrite fold_left_app. Qed.

(** X22. The page keeps level with the table through a follow: if
    [followStatus] is what [fetchFollowStatus] would load, then after
    [handleFollow], whether the request was stored or refused, it
    still is; so the button the page shows after a click is the one a
    reload would show. *)
Theorem follow_update_matches_refetch (d : db) (user profileId : uuid)
    (s : Discover.state) :
  Discover.followStatus (run (Discover.fetchFollowStatus user) (Some user) s d).1.1
    = Discover.followStatus s ->
  let '(s', d', _) :=
    run (Discover.handleFollow (Some user) profileId s) (Some user) s d in
  Discover.followStatus (run (Discover.fetchFollowStatus user) (Some user) s' d').1.1
    = Discover.followStatus s'.
Proof.
  unfold Discover.fetchFollowStatus, Discover.handleFollow. cbn [run].
  rewrite !exec_serve. cbn [serve fst snd run Discover.followStatus
    Discover.setFollowStatus]. unfold select_following. cbn [run fst
    Discover.followStatus Discover.setFollowStatus].
  intros Hsync.
  change (follows (advance d)) with (follows d) in *.
  unfold insert_follow.
  destruct (negb (follows_insert_policy (Some user) (Some user)));
    [cbn; rewrite exec_serve; exact Hsync|].
  destruct (existsb _ (follows d)); [cbn; rewrite exec_serve; exact Hsync|].
  destruct (follow_pair_taken d user profileId);
    [cbn; rewrite exec_serve; exact Hsync|].
  destruct (negb (profile_exists d user && profile_exists d profileId));
    [cbn; rewrite exec_serve; exact Hsync|].
  cbn [fst snd run]. rewrite exec_serve.
  cbn [serve fst snd run Discover.followStatus Discover.setFollowStatus
       Discover.show]. unfold select_following. cbn [run fst
       Discover.followStatus Discover.setFollowStatus].
  change (follows (advance (with_follows ?l d))) with l.
  cbn [follows advance with_follows].
  rewrite List.filter_app, map_app. cbn [List.filter follower_id following_id
    f_status]. unfold follows_select_policy at 2, auth_is.
  cbn [follower_id following_id f_status].
  rewrite (bool_decide_eq_true_2 (user = user)) by reflexivity.
  cbn [orb andb map app]. rewrite statusMap_snoc. by rewrite Hsync.
Qed.

Lemma follow_update_matches_refetch_witness :
  let '(s', d', _) :=
    run (Discover.handleFollow (Some alice) bob Discover.initial) (Some alice)
        Discover.initial town in
  Discover.followStatus (run (Discover.fetchFollowStatus alice) (Some alice) s' d').1.1
    = Discover.followStatus s'.
Proof.
  apply (follow_update_matches_refetch town alice bob Discover.initial).
  vm_compute. reflexivity.
Defined.

(** ** Profiles *)









